(** * Whale-alert filter engine: a shallow embedding of [filters.js],
      of the poll cycle, the commands, buttons and menus of [bot.js]
      and of the tables of [database-railway.js], with the properties
      of the pipeline specification settled against it.

    Modelling conventions.
    - JavaScript numbers coming from the feeds (amounts, prices, market
      caps) are exact rationals [Q]; IEEE rounding is not modelled.  The
      results of [parseFloat] keep NaN and the two infinities ([num]).
    - [null]/[undefined] fields are [option]s; truthiness of a string is
      written out ([truthy]): the empty string is falsy.  A flag computed
      with [&&]/[||] on such values is kept as its truth value.
    - An [async] method called without [await] yields a promise object,
      not the string it will eventually hold ([jsval], [JPromise]).
    - [String.prototype.toLowerCase] is modelled on ASCII letters.
    - An object literal used as a table is looked up on its own keys;
      the supply table, which is read with token symbols, also answers
      to the names of [Object.prototype] ([inheritedKeys]).
    - Network look-ups are host functions passed explicitly ([Host]);
      the feed's [timestamp] is taken in the textual form a template
      literal gives it.
    - A JavaScript [Set] is the list of its elements in insertion order;
      the [Map] from user ids to such sets is a [gmap]. *)

From stdpp Require Import gmap strings list.
From Stdlib Require Import Ascii String QArith.
From Stdlib Require DecimalString DecimalNat.

Local Open Scope string_scope.
Local Open Scope Z_scope.

(** ** JavaScript values used by the engine *)

Inductive num : Type :=
| NaN
| NegInf
| Fin (q : Q)
| PosInf.

(** Truthiness of a number: [0] and [NaN] are falsy. *)
Definition num_truthy (n : num) : bool :=
  match n with
  | NaN => false
  | Fin q => negb (Qeq_bool q 0)
  | NegInf | PosInf => true
  end.

(** [n > 0] *)
Definition num_gt0 (n : num) : bool :=
  match n with
  | Fin q => negb (Qle_bool q 0)
  | PosInf => true
  | NaN | NegInf => false
  end.

(** [n <= 0] *)
Definition num_le0 (n : num) : bool :=
  match n with
  | Fin q => Qle_bool q 0
  | NegInf => true
  | NaN | PosInf => false
  end.

(** [v <= n] for a finite [v] *)
Definition q_le_num (v : Q) (n : num) : bool :=
  match n with
  | Fin q => Qle_bool v q
  | PosInf => true
  | NaN | NegInf => false
  end.

(** [v >= n] for a finite [v] *)
Definition q_ge_num (v : Q) (n : num) : bool :=
  match n with
  | Fin q => Qle_bool q v
  | NegInf => true
  | NaN | PosInf => false
  end.

(** [x || d] on finite numbers: [x] unless it is [0]. *)
Definition q_or (x d : Q) : Q := if Qeq_bool x 0 then d else x.

(** Truthiness of an optional string: absent and [""] are falsy. *)
Definition truthy (o : option string) : bool :=
  match o with
  | Some s => negb (String.eqb s "")
  | None => false
  end.

Inductive exn : Type := TypeError | QueryError.

Inductive res (A : Type) : Type :=
| Ok (a : A)
| Err (e : exn).
Arguments Ok {A} a.
Arguments Err {A} e.

(** A promise: the value it settles to can only be observed by [await]. *)
Inductive Promise (A : Type) : Type := Settles (a : A).
Arguments Settles {A} a.

Definition await {A : Type} (p : Promise A) : A :=
  match p with Settles a => a end.

Inductive jsval : Type :=
| JUndefined
| JString (s : string)
| JPromise (p : Promise string).

Definition of_opt (o : option string) : jsval :=
  match o with
  | Some s => JString s
  | None => JUndefined
  end.

(** [a === b]: same type and same value; an object (here a freshly
    created promise) is only identical to itself, so never to a string,
    to [undefined] or to another promise. *)
Definition strictEq (a b : jsval) : bool :=
  match a, b with
  | JUndefined, JUndefined => true
  | JString s, JString t => String.eqb s t
  | _, _ => false
  end.

(** [arr.includes(v)] for an array of string literals. *)
Definition includes (arr : list string) (v : jsval) : bool :=
  existsb (fun s => strictEq (JString s) v) arr.

Definition lower_ascii (c : ascii) : ascii :=
  let n := nat_of_ascii c in
  if (Nat.leb 65 n && Nat.leb n 90)%bool then ascii_of_nat (n + 32) else c.

Fixpoint toLower (s : string) : string :=
  match s with
  | EmptyString => EmptyString
  | String c r => String (lower_ascii c) (toLower r)
  end.

(** [v.toLowerCase()]: only strings have the method. *)
Definition toLowerCase (v : jsval) : res string :=
  match v with
  | JString s => Ok (toLower s)
  | JUndefined | JPromise _ => Err TypeError
  end.

Definition startsWith (s p : string) : bool := String.prefix p s.

Definition endsWith (s p : string) : bool :=
  String.prefix (String.rev p) (String.rev s).

(** ** Swaps and token data *)

Record Metadata : Type := mkMetadata {
  symbol : option string;
  name : option string
}.

Record Token : Type := mkToken {
  mint : option string;
  metadata : option Metadata;
  amount : Q
}.

Record Swap : Type := mkSwap {
  signature : option string;
  timestamp : option string;
  feePayer : option string;
  inputToken : option Token;
  outputToken : option Token
}.

(** [token?.mint] and [token?.metadata?.symbol] *)
Definition mintOf (t : option Token) : option string :=
  match t with Some tk => mint tk | None => None end.

Definition metaSymbol (t : Token) : option string :=
  match metadata t with Some m => symbol m | None => None end.

Definition metaName (t : Token) : option string :=
  match metadata t with Some m => name m | None => None end.

Record JupiterData : Type := mkJupiterData {
  jupPrice : Q
}.

Record DexData : Type := mkDexData {
  dexPrice : Q;
  dexMarketCap : Q;
  dexSymbol : option string
}.

(** A market cap as the code computes it: a number, or the NaN that a
    product with something that is not a number gives. *)
Inductive cap : Type :=
| Cap (q : Q)
| CapNaN.

(** [c === 0] *)
Definition cap_is0 (c : cap) : bool :=
  match c with
  | Cap q => Qeq_bool q 0
  | CapNaN => false
  end.

(** [c <= n] *)
Definition cap_le_num (c : cap) (n : num) : bool :=
  match c with
  | Cap q => q_le_num q n
  | CapNaN => false
  end.

Record TokenData : Type := mkTokenData {
  price : Q;
  marketCap : cap;
  isHardcodedSupply : bool;
  cachedSymbol : option string
}.

(** Functions of the host: [parseFloat] and the two price feeds
    ([getJupiterPriceData], [getDexScreenerData]), which answer with zero
    data on any failure and never throw. *)
Record Host : Type := mkHost {
  parseFloat : string -> num;
  getJupiterPriceData : option string -> JupiterData;
  getDexScreenerData : option string -> DexData
}.

Definition SOL_MINT : string := "So11111111111111111111111111111111111111112".

(** ** processFilters *)

Record FilterRow : Type := mkRow {
  filter_type : string;
  filter_value : string
}.

Record Filters : Type := mkFilters {
  tokens : list string;
  blacklist : list string;
  whale_blacklist : list string;
  min_purchase : option num;
  max_market_cap : option num;
  monitor_all : bool;
  notifications_enabled : bool;
  first_mention_only : bool
}.

(** What [processFilters] can be handed. *)
Inductive DbFilters : Type :=
| DbNull
| DbUndefined
| DbNotArray
| DbRows (rows : list FilterRow).

Definition defaultFilters : Filters :=
  {| tokens := [];
     blacklist := [];
     whale_blacklist := [];
     min_purchase := None;
     max_market_cap := None;
     monitor_all := true;
     notifications_enabled := false;
     first_mention_only := false |}.

(** One turn of the [forEach]: the [switch] on [filter.filter_type]. *)
Definition applyRow (h : Host) (f : Filters) (r : FilterRow) : Filters :=
  let v := filter_value r in
  let t := filter_type r in
  if String.eqb t "token_whitelist" then
    {| tokens := tokens f ++ [v]; blacklist := blacklist f;
       whale_blacklist := whale_blacklist f; min_purchase := min_purchase f;
       max_market_cap := max_market_cap f; monitor_all := monitor_all f;
       notifications_enabled := notifications_enabled f;
       first_mention_only := first_mention_only f |}
  else if String.eqb t "token_blacklist" then
    {| tokens := tokens f; blacklist := blacklist f ++ [v];
       whale_blacklist := whale_blacklist f; min_purchase := min_purchase f;
       max_market_cap := max_market_cap f; monitor_all := monitor_all f;
       notifications_enabled := notifications_enabled f;
       first_mention_only := first_mention_only f |}
  else if String.eqb t "whale_blacklist" then
    {| tokens := tokens f; blacklist := blacklist f;
       whale_blacklist := whale_blacklist f ++ [v]; min_purchase := min_purchase f;
       max_market_cap := max_market_cap f; monitor_all := monitor_all f;
       notifications_enabled := notifications_enabled f;
       first_mention_only := first_mention_only f |}
  else if String.eqb t "min_purchase" then
    {| tokens := tokens f; blacklist := blacklist f;
       whale_blacklist := whale_blacklist f;
       min_purchase := Some (parseFloat h v);
       max_market_cap := max_market_cap f; monitor_all := monitor_all f;
       notifications_enabled := notifications_enabled f;
       first_mention_only := first_mention_only f |}
  else if String.eqb t "max_market_cap" then
    {| tokens := tokens f; blacklist := blacklist f;
       whale_blacklist := whale_blacklist f; min_purchase := min_purchase f;
       max_market_cap := Some (parseFloat h v); monitor_all := monitor_all f;
       notifications_enabled := notifications_enabled f;
       first_mention_only := first_mention_only f |}
  else if String.eqb t "monitor_all" then
    {| tokens := tokens f; blacklist := blacklist f;
       whale_blacklist := whale_blacklist f; min_purchase := min_purchase f;
       max_market_cap := max_market_cap f;
       monitor_all := String.eqb v "true";
       notifications_enabled := notifications_enabled f;
       first_mention_only := first_mention_only f |}
  else if String.eqb t "notifications_enabled" then
    {| tokens := tokens f; blacklist := blacklist f;
       whale_blacklist := whale_blacklist f; min_purchase := min_purchase f;
       max_market_cap := max_market_cap f; monitor_all := monitor_all f;
       notifications_enabled := String.eqb v "true";
       first_mention_only := first_mention_only f |}
  else if String.eqb t "first_mention_only" then
    {| tokens := tokens f; blacklist := blacklist f;
       whale_blacklist := whale_blacklist f; min_purchase := min_purchase f;
       max_market_cap := max_market_cap f; monitor_all := monitor_all f;
       notifications_enabled := notifications_enabled f;
       first_mention_only := String.eqb v "true" |}
  else f.

Definition processFilters (h : Host) (dbFilters : DbFilters) : Filters :=
  match dbFilters with
  | DbNull | DbUndefined | DbNotArray => defaultFilters
  | DbRows rows => fold_left (applyRow h) rows defaultFilters
  end.

(** ** getTokenSymbol *)

Definition knownTokens : list (string * string) :=
  [ ("Ey59PH7Z4BFU4HjyKnyMdWt5GGN76KazTAwQihoUXRnk", "LAUNCHCOIN");
    ("pumpCmXqMfrsAkQ5r49WcJnRayYRqmXz6ae8H7H9Dfn", "PUMP");
    ("HeLp6NuQkmYB4pYWo2zYs22mESHXPQYzXbB8n4V98jwC", "ai16z");
    ("HUMA1821qVDKta3u2ovmfDQeW2fSQouSKE8fkF44wvGw", "HUMA");
    ("bioJ9JTqW62MLz7UKHU69gtKhPpGi1BQhccj2kmSvUJ", "BIO");
    ("So11111111111111111111111111111111111111112", "SOL");
    ("EPjFWdd5AufqSSqeM2qN1xzybapC8G4wEGGkZwyTDt1v", "USDC");
    ("Es9vMFrzaCERmJfrF4H2FYD4KCoNkY11McCe8BenwNYB", "USDT");
    ("USD1ttGY1N17NEEHLmELoaybftRBUSErhqYiQzvEmuB", "USD1");
    ("mSoLzYCxHdYgdzU16g5QSh3i5K3z3KZK7ytfqcJm7So", "mSOL");
    ("bSo13r4TkiE4KumL71LsHTPpL2euBYLFx6h9HP3piy1", "bSOL");
    ("DezXAZ8z7PnrnRJjz3wXBoRgixCa6xjnB7YaB1pPB263", "BONK");
    ("2FPyTwcZLUg1MDrwsyoP4D6s1tM7hAkHYRjkNb5w6Pxk", "ETH");
    ("9n4nbM75f5Ui33ZbPYXn59EwSgE8CGsHtAeTH5YFeJ9E", "BTC");
    ("5oVNBeEEQvYi1cX3ir8Dx5n1P7pdxydbGF2X4TxVusJm", "INF");
    ("A9mUU4qviSctJVPJdBJWkb28deg915LYJKrzQ19ji3FM", "USDCet");
    ("3NZ9JMVBmGAqocybic2c7LQCJScmgsAZ6vQqTDzcqmJh", "WBTC") ].

Fixpoint assoc {A : Type} (k : string) (l : list (string * A)) : option A :=
  match l with
  | [] => None
  | (k', v) :: r => if String.eqb k k' then Some v else assoc k r
  end.

(** [tokenDataCache.get(mint)?.symbol] on an optional cache. *)
Definition cacheSymbol (cache : option (gmap string TokenData))
    (m : string) : option string :=
  match cache with
  | Some c => match c !! m with Some d => cachedSymbol d | None => None end
  | None => None
  end.

(** A value kept only when it is truthy. *)
Definition whenTruthy (o : option string) : option string :=
  if truthy o then o else None.

(** The string the promise of [getTokenSymbol] settles to: metadata
    symbol, else the known-mint table, else the metadata name, else the
    cached symbol, else the DexScreener symbol, else ["Unknown"]. *)
Definition resolvedSymbol (h : Host) (token : option Token)
    (cache : option (gmap string TokenData)) : string :=
  let m := mintOf token in
  match whenTruthy (token ≫= metaSymbol) with
  | Some s => s
  | None =>
  match (if truthy m then whenTruthy (m ≫= fun k => assoc k knownTokens)
         else None) with
  | Some s => s
  | None =>
  match whenTruthy (token ≫= metaName) with
  | Some s => s
  | None =>
  match (if truthy m then whenTruthy (m ≫= cacheSymbol cache) else None) with
  | Some s => s
  | None =>
  match (if truthy m then whenTruthy (dexSymbol (getDexScreenerData h m))
         else None) with
  | Some s => s
  | None => "Unknown"
  end end end end end.

(** [getTokenSymbol] is declared [async]: a call returns a promise. *)
Definition getTokenSymbol (h : Host) (token : option Token)
    (cache : option (gmap string TokenData)) : Promise string :=
  Settles (resolvedSymbol h token cache).

(** ** Price resolution: getTokenSupply and getTokenData *)

Definition knownSupplies : list (string * Q) :=
  [ ("SOL", 542300000%Q);
    ("USDC", 72400000000%Q);
    ("USDT", 169100000000%Q);
    ("GUN", 1121166667%Q);
    ("CPOOL", 808900000%Q);
    ("PUMP", 1000000000000%Q);
    ("BIO", 1900000000%Q) ].

(** The names every object literal answers to besides its own keys: the
    members of [Object.prototype].  Each is a function or an object,
    hence truthy, and gives NaN in a product. *)
Definition inheritedKeys : list string :=
  [ "constructor"; "toString"; "valueOf"; "toLocaleString"; "hasOwnProperty";
    "isPrototypeOf"; "propertyIsEnumerable"; "__proto__"; "__defineGetter__";
    "__defineSetter__"; "__lookupGetter__"; "__lookupSetter__" ].

(** What the supply table answers with: one of its numbers, or an
    inherited member. *)
Inductive supply : Type :=
| Supply (q : Q)
| InheritedMember.

(** [knownSupplies[symbol]], a property read on a plain object: an own
    key gives its number, a name of [Object.prototype] gives the
    inherited member.  A promise used as a property key is the string
    ["[object Promise]"], [undefined] is ["undefined"]; neither is a key
    of the table or a name of the prototype. *)
Definition supplyOf (sym : jsval) : option supply :=
  match sym with
  | JString s =>
      match assoc s knownSupplies with
      | Some q => Some (Supply q)
      | None => if existsb (String.eqb s) inheritedKeys then Some InheritedMember else None
      end
  | JUndefined | JPromise _ => None
  end.

Definition getTokenSupply (m : option string) (sym : jsval) : option supply :=
  match supplyOf sym with
  | Some v => Some v
  | None =>
    if (truthy m && match m with Some s => endsWith s "pump" | None => false end)%bool
    then Some (Supply 1000000000%Q)
    else if (truthy m && match m with Some s => endsWith s "bonk" | None => false end)%bool
    then Some (Supply 1000000000%Q)
    else None
  end.

(** [price * knownSupply] *)
Definition timesSupply (p : Q) (knownSupply : supply) : cap :=
  match knownSupply with
  | Supply q => Cap (p * q)
  | InheritedMember => CapNaN
  end.

Definition getTokenData (h : Host) (m : option string) (sym : jsval) : TokenData :=
  let jupiterData := getJupiterPriceData h m in
  let dexData := getDexScreenerData h m in
  let bestPrice := q_or (jupPrice jupiterData) (q_or (dexPrice dexData) 0%Q) in
  match getTokenSupply m sym with
  | Some knownSupply =>
      {| price := bestPrice;
         marketCap := if negb (Qle_bool bestPrice 0) then timesSupply bestPrice knownSupply
                      else Cap 0;
         isHardcodedSupply := true;
         cachedSymbol := None |}
  | None =>
      {| price := bestPrice;
         marketCap := Cap (q_or (dexMarketCap dexData) 0%Q);
         isHardcodedSupply := false;
         cachedSymbol := None |}
  end.

(** [tokenDataCache?.get(key) || await this.getTokenData(key, sym)] *)
Definition cachedOrFetched (h : Host) (cache : option (gmap string TokenData))
    (key : option string) (sym : jsval) : TokenData :=
  match cache with
  | Some c =>
      match key ≫= (fun k => c !! k) with
      | Some d => d
      | None => getTokenData h key sym
      end
  | None => getTokenData h key sym
  end.

(** ** Swap classifier *)

Definition isBuyTransaction (swap : Swap) : bool :=
  let stablecoins := ["USDC"; "USDT"; "BUSD"; "USD1"] in
  match outputToken swap with
  | None => false
  | Some out =>
      if includes stablecoins (of_opt (metaSymbol out)) then false
      else negb (strictEq (of_opt (metaSymbol out)) (JString "SOL"))
  end.

(** One side of [calculateSwapValueUSD]: [Some v] when the side returns
    [v], [None] when control falls through to what follows. *)
Definition sideValueUSD (h : Host) (cache : option (gmap string TokenData))
    (tok : option Token) : option Q :=
  match tok with
  | None => None
  | Some t =>
    if truthy (metaSymbol t) then
      let stablecoins := ["USDC"; "USDT"; "BUSD"; "DAI"; "FRAX"; "USD1"] in
      if includes stablecoins (of_opt (metaSymbol t)) then Some (amount t)
      else if strictEq (of_opt (metaSymbol t)) (JString "SOL") then
        let solData := cachedOrFetched h cache (Some SOL_MINT) (JString "SOL") in
        Some (amount t * q_or (price solData) 220%Q)%Q
      else if truthy (mint t) then
        let tokenData := cachedOrFetched h cache (mint t) (of_opt (metaSymbol t)) in
        if negb (Qle_bool (price tokenData) 0) then Some (amount t * price tokenData)%Q
        else None
      else None
    else None
  end.

Definition calculateSwapValueUSD (h : Host) (swap : Swap)
    (cache : option (gmap string TokenData)) : Q :=
  match sideValueUSD h cache (inputToken swap) with
  | Some v => v
  | None =>
    match sideValueUSD h cache (outputToken swap) with
    | Some v => v
    | None => 0%Q
    end
  end.

(** ** The individual checks *)

(** [this.getTokenSymbol(token)] without [await]: the promise itself. *)
Definition symbolNotAwaited (h : Host) (token : option Token) : jsval :=
  JPromise (getTokenSymbol h token None).

(** [allowed.toLowerCase() === tokenSymbol || allowed.toLowerCase() === tokenMint] *)
Definition entryMatches (tokenSymbol : string) (tokenMint : option string)
    (entry : string) : bool :=
  (String.eqb (toLower entry) tokenSymbol
   || strictEq (JString (toLower entry)) (of_opt tokenMint))%bool.

Definition checkTokenWhitelist (h : Host) (token : Token)
    (allowedTokens : list string) : res bool :=
  if Nat.eqb (List.length allowedTokens) 0 then Ok false
  else
    match toLowerCase (symbolNotAwaited h (Some token)) with
    | Err e => Err e
    | Ok tokenSymbol =>
        let tokenMint := option_map toLower (mint token) in
        Ok (existsb (entryMatches tokenSymbol tokenMint) allowedTokens)
    end.

Definition checkBlacklist (h : Host) (token : Token)
    (blacklistedTokens : list string) : res bool :=
  if Nat.eqb (List.length blacklistedTokens) 0 then Ok true
  else
    match toLowerCase (symbolNotAwaited h (Some token)) with
    | Err e => Err e
    | Ok tokenSymbol =>
        let tokenMint := option_map toLower (mint token) in
        Ok (negb (existsb (entryMatches tokenSymbol tokenMint) blacklistedTokens))
    end.

Definition checkWhaleBlacklist (whaleAddress : option string)
    (blacklistedWhales : list string) : bool :=
  if Nat.eqb (List.length blacklistedWhales) 0 then true
  else
    negb (existsb
            (fun blocked =>
               strictEq (JString (toLower blocked))
                        (of_opt (option_map toLower whaleAddress)))
            blacklistedWhales).

Definition checkMinimumPurchase (swapValueUSD : Q) (minPurchase : option num) : bool :=
  match minPurchase with
  | None => true
  | Some n =>
      if (negb (num_truthy n) || num_le0 n)%bool then true
      else q_ge_num swapValueUSD n
  end.

(** The data [checkMarketCap] looks at: the cache entry of the token's
    mint, else a fresh [getTokenData] (handed the un-awaited symbol). *)
Definition marketCapData (h : Host) (cache : option (gmap string TokenData))
    (token : Token) : TokenData :=
  cachedOrFetched h cache (mint token) (symbolNotAwaited h (Some token)).

Definition checkMarketCap (h : Host) (token : Token) (maxMarketCap : option num)
    (cache : option (gmap string TokenData)) : bool :=
  match maxMarketCap with
  | None => true
  | Some mx =>
      if (negb (num_truthy mx) || num_le0 mx)%bool then true
      else
        let tokenData := marketCapData h cache token in
        if isHardcodedSupply tokenData then
          if cap_is0 (marketCap tokenData) then false
          else cap_le_num (marketCap tokenData) mx
        else
          if cap_is0 (marketCap tokenData) then false
          else cap_le_num (marketCap tokenData) mx
  end.

(** ** Delivery history: a JavaScript [Set] of swap ids per user,
       kept in insertion order *)

Definition set_has (s : list string) (x : string) : bool :=
  existsb (String.eqb x) s.

Definition set_add (s : list string) (x : string) : list string :=
  if set_has s x then s else s ++ [x].

Definition set_delete (s : list string) (x : string) : list string :=
  List.filter (fun y => negb (String.eqb y x)) s.

(** [Array.from(set).slice(0, 50).forEach(id => set.delete(id))] *)
Definition evictOldest (s : list string) : list string :=
  fold_left set_delete (firstn 50 s) s.

(** The add and the clean-up run on a match. *)
Definition recordSwap (s : list string) (swapId : string) : list string :=
  let s1 := set_add s swapId in
  if Nat.ltb 100 (List.length s1) then evictOldest s1 else s1.

(** Template-literal rendering of a possibly missing field. *)
Definition render (o : option string) : string :=
  match o with
  | Some s => s
  | None => "undefined"
  end.

(** [swap.signature || `${swap.timestamp}-${swap.feePayer}`] *)
Definition swapIdOf (swap : Swap) : string :=
  match whenTruthy (signature swap) with
  | Some s => s
  | None => render (timestamp swap) ++ "-" ++ render (feePayer swap)
  end.

(** ** matchesFilters *)

Record Verdict : Type := mkVerdict {
  matches : bool;
  isFirstMention : bool
}.

(** The [return] statements of [matchesFilters], in source order. *)
Inductive ReturnSite : Type :=
| AtDisabled          (* notifications off *)
| AtDuplicate         (* already delivered to this user *)
| AtConversion        (* SOL <-> stablecoin *)
| AtSpamPrefix        (* mint starting with Xs *)
| AtTokenBlocklist    (* hardcoded mint blacklist *)
| AtNoRelevantToken   (* !relevantToken *)
| AtFirstMentionOnly  (* first-mention-only mode, no first mention *)
| AtWhaleBlocklist    (* hardcoded whale blacklist *)
| AtEnd.              (* return { matches, isFirstMention } *)

Inductive Outcome : Type :=
| Returned (site : ReturnSite) (v : Verdict)
| Thrown (e : exn).

Definition rejected : Verdict := {| matches := false; isFirstMention := false |}.

Definition stablecoinsOfFilter : list string :=
  ["USDC"; "USDT"; "BUSD"; "USD1"; "DAI"; "FRAX"].

Definition hardcodedBlacklist : list string :=
  ["EJhqXKJEncSx1HJjS5ZpKdiKGGgLiRgNPvo8JZvw5Guj"].

Definition hardcodedWhaleBlacklist : list string :=
  ["MfDuWeqSHEqTFVYZ7LoexgAK9dxk7cy4DFJWjWMGVWa"].

(** [mint && mint.startsWith('Xs')] *)
Definition isSpamMint (m : option string) : bool :=
  (truthy m && match m with Some s => startsWith s "Xs" | None => false end)%bool.

(** [mint && firstMentionTokens.has(mint)], as a truth value. *)
Definition isFirst (firstMentionTokens : list string) (m : option string) : bool :=
  (truthy m && match m with Some s => set_has firstMentionTokens s | None => false end)%bool.

Definition computedFirstMention (firstMentionTokens : option (list string))
    (swap : Swap) : bool :=
  match firstMentionTokens with
  | None => false
  | Some fm =>
      (isFirst fm (mintOf (inputToken swap))
       || isFirst fm (mintOf (outputToken swap)))%bool
  end.

Definition relevantTokenOf (swap : Swap) : option Token :=
  if isBuyTransaction swap then outputToken swap else inputToken swap.

Definition matchesFilters (h : Host) (userProcessedSwaps : gmap Z (list string))
    (swap : Swap) (userFilters : Filters)
    (firstMentionTokens : option (list string)) (userId : Z)
    (cache : option (gmap string TokenData))
  : gmap Z (list string) * Outcome :=
  if negb (notifications_enabled userFilters) then
    (userProcessedSwaps, Returned AtDisabled rejected)
  else
  let swapId := swapIdOf swap in
  let ups :=
    match userProcessedSwaps !! userId with
    | Some _ => userProcessedSwaps
    | None => <[userId := []]> userProcessedSwaps
    end in
  let seen := default [] (ups !! userId) in
  if set_has seen swapId then (ups, Returned AtDuplicate rejected)
  else
  let inputSymbol := symbolNotAwaited h (inputToken swap) in
  let outputSymbol := symbolNotAwaited h (outputToken swap) in
  if ((strictEq inputSymbol (JString "SOL") && includes stablecoinsOfFilter outputSymbol)
      || (strictEq outputSymbol (JString "SOL") && includes stablecoinsOfFilter inputSymbol))%bool
  then (ups, Returned AtConversion rejected)
  else
  let inputMint := mintOf (inputToken swap) in
  let outputMint := mintOf (outputToken swap) in
  if (isSpamMint inputMint || isSpamMint outputMint)%bool
  then (ups, Returned AtSpamPrefix rejected)
  else
  if (includes hardcodedBlacklist (of_opt inputMint)
      || includes hardcodedBlacklist (of_opt outputMint))%bool
  then (ups, Returned AtTokenBlocklist rejected)
  else
  let swapAmountUSD := calculateSwapValueUSD h swap cache in
  match relevantTokenOf swap with
  | None => (ups, Returned AtNoRelevantToken rejected)
  | Some relevantToken =>
  let isFirstMention := computedFirstMention firstMentionTokens swap in
  if (first_mention_only userFilters && negb isFirstMention)%bool
  then (ups, Returned AtFirstMentionOnly rejected)
  else
  match (if monitor_all userFilters
         then checkBlacklist h relevantToken (blacklist userFilters)
         else checkTokenWhitelist h relevantToken (tokens userFilters)) with
  | Err e => (ups, Thrown e)
  | Ok tokenCheck =>
  if includes hardcodedWhaleBlacklist (of_opt (feePayer swap))
  then (ups, Returned AtWhaleBlocklist rejected)
  else
  let whaleCheck := checkWhaleBlacklist (feePayer swap) (whale_blacklist userFilters) in
  let marketCapCheck :=
    match max_market_cap userFilters with
    | Some mx =>
        if (num_truthy mx && num_gt0 mx)%bool
        then checkMarketCap h relevantToken (max_market_cap userFilters) cache
        else true
    | None => true
    end in
  let checks :=
    [ tokenCheck; whaleCheck;
      checkMinimumPurchase swapAmountUSD (min_purchase userFilters);
      marketCapCheck ] in
  let matches := forallb (fun check => Bool.eqb check true) checks in
  let ups' :=
    if matches then <[userId := recordSwap seen swapId]> ups else ups in
  (ups', Returned AtEnd {| matches := matches; isFirstMention := isFirstMention |})
  end
  end.

(** [shouldNotify]: the raw rows are processed, then matched. *)
Definition shouldNotify (h : Host) (userProcessedSwaps : gmap Z (list string))
    (userId : Z) (swap : Swap) (userFilters : DbFilters)
    (firstMentionTokens : option (list string))
    (cache : option (gmap string TokenData))
  : gmap Z (list string) * Outcome :=
  matchesFilters h userProcessedSwaps swap (processFilters h userFilters)
                 firstMentionTokens userId cache.

(** ** The poll cycle ([checkForNewSwaps]) over the known-token store *)

(** What the cycle does to the outside, in the order it does it. *)
Inductive Event : Type :=
| EvSelectToken (tokenMint : string)        (* isTokenKnown: SELECT on unique_tokens *)
| EvSelectFilters (userId : Z)              (* getUserFilters *)
| EvShouldNotify (userId : Z) (swapId : string)
| EvSendMessage (userId : Z) (swapId : string) (firstMention : bool)
| EvInsertToken (tokenMint : string) (tokenSymbol : option string).
                                            (* markTokenAsFirstMentioned: INSERT *)

(** The state a cycle runs in.  [unique_tokens] is the table of known
    mints, keyed by its unique column [token_mint]; [outages] schedules
    the database failures: every query takes the next flag and throws
    when it is [true]. *)
Record World : Type := mkWorld {
  unique_tokens : gmap string (option string);
  usersTable : list Z;
  filtersTable : list (Z * FilterRow);
  outages : list bool;
  history : gmap Z (list string);
  trace : list Event
}.

Definition M (A : Type) : Type := World -> A * World.

Definition ret {A : Type} (a : A) : M A := fun w => (a, w).

Definition bind {A B : Type} (m : M A) (k : A -> M B) : M B :=
  fun w => let (a, w') := m w in k a w'.

Notation "'let*' x ':=' m 'in' k" := (bind m (fun x => k))
  (at level 10, x pattern, m at level 100, k at level 200).

Definition emit (e : Event) : M unit :=
  fun w => (tt, {| unique_tokens := unique_tokens w; usersTable := usersTable w;
                   filtersTable := filtersTable w; outages := outages w;
                   history := history w; trace := trace w ++ [e] |}).

(** [await this.pool.query(...)]: [true] when the query goes through. *)
Definition poolQuery : M bool :=
  fun w =>
    match outages w with
    | [] => (true, w)
    | down :: rest =>
        (negb down,
         {| unique_tokens := unique_tokens w; usersTable := usersTable w;
            filtersTable := filtersTable w; outages := rest;
            history := history w; trace := trace w |})
    end.

Definition readTokens : M (gmap string (option string)) :=
  fun w => (unique_tokens w, w).

Definition writeTokens (t : gmap string (option string)) : M unit :=
  fun w => (tt, {| unique_tokens := t; usersTable := usersTable w;
                   filtersTable := filtersTable w; outages := outages w;
                   history := history w; trace := trace w |}).

(** [isTokenKnown]: a SELECT; on error the token is taken as known. *)
Definition isTokenKnown (tokenMint : string) : M bool :=
  let* _ := emit (EvSelectToken tokenMint) in
  let* ok := poolQuery in
  if ok then
    let* t := readTokens in
    ret (match t !! tokenMint with Some _ => true | None => false end)
  else ret true.

(** [markTokenAsFirstMentioned]:
    INSERT ... ON CONFLICT (token_mint) DO NOTHING; [true] unless the
    query throws. *)
Definition markTokenAsFirstMentioned (tokenMint : string)
    (tokenSymbol : option string) : M bool :=
  let* _ := emit (EvInsertToken tokenMint tokenSymbol) in
  let* ok := poolQuery in
  if ok then
    let* t := readTokens in
    match t !! tokenMint with
    | Some _ => ret true
    | None => let* _ := writeTokens (<[tokenMint := tokenSymbol]> t) in ret true
    end
  else ret false.

(** [getAllUsers] and [getUserFilters] rethrow the query error. *)
Definition getAllUsers : M (res (list Z)) :=
  let* ok := poolQuery in
  if ok then (fun w => (Ok (usersTable w), w)) else ret (Err QueryError).

Definition getUserFilters (telegramId : Z) : M (res (list FilterRow)) :=
  let* _ := emit (EvSelectFilters telegramId) in
  let* ok := poolQuery in
  if ok then
    (fun w => (Ok (map snd (List.filter (fun r => Z.eqb (fst r) telegramId)
                                         (filtersTable w))), w))
  else ret (Err QueryError).

(** One mint of the detection loop. *)
Definition detectMint (fm : list string) (m : option string) : M (list string) :=
  match whenTruthy m with
  | Some k =>
      let* isKnown := isTokenKnown k in
      ret (if negb isKnown then set_add fm k else fm)
  | None => ret fm
  end.

Fixpoint detectFirstMentions (fm : list string) (swaps : list Swap) : M (list string) :=
  match swaps with
  | [] => ret fm
  | swap :: rest =>
      let* fm1 := detectMint fm (mintOf (inputToken swap)) in
      let* fm2 := detectMint fm1 (mintOf (outputToken swap)) in
      detectFirstMentions fm2 rest
  end.

(** ** formatNotification *)

(** The market-cap line of an alert: [Unknown], or the market cap in
    billions, millions or thousands (the digits it is then rounded to
    are not kept). *)
Inductive CapLabel : Type :=
| CapUnknown
| CapBillions (scaled : Q)
| CapMillions (scaled : Q)
| CapThousands (scaled : Q).

(** [marketCap > 0] is false of NaN as it is of 0. *)
Definition capLabel (marketCap : cap) : CapLabel :=
  match marketCap with
  | Cap q =>
      if negb (Qle_bool q 0) then
        if Qle_bool 1000000000 q then CapBillions (q / 1000000000)
        else if Qle_bool 1000000 q then CapMillions (q / 1000000)
        else CapThousands (q / 1000)
      else CapUnknown
  | CapNaN => CapUnknown
  end.

(** What an alert says, field by field. *)
Record Notification : Type := mkNotification {
  noteFirstMention : bool;
  noteIsBuy : bool;
  noteSymbol : string;
  noteTokenCA : option string;
  noteAmount : option Q;
  noteValue : Q;
  noteMarketCap : CapLabel
}.

(** [formatNotification]: with a cache at hand and a token address, the
    token data are whatever the cache holds for the address, and reading
    the market cap of a missing entry throws. *)
Definition formatNotification (h : Host) (swap : Swap) (isFirstMention : bool)
    (tokenDataCache : option (gmap string TokenData)) : res Notification :=
  let isBuy := isBuyTransaction swap in
  let relevantToken := if isBuy then outputToken swap else inputToken swap in
  let symbol := resolvedSymbol h relevantToken tokenDataCache in
  let amount := option_map amount relevantToken in
  let usdValue := calculateSwapValueUSD h swap tokenDataCache in
  let tokenCA := mintOf relevantToken in
  let tokenData :=
    match tokenDataCache with
    | Some c =>
        if truthy tokenCA then tokenCA ≫= (fun k => c !! k)
        else Some (getTokenData h tokenCA (JString symbol))
    | None => Some (getTokenData h tokenCA (JString symbol))
    end in
  match tokenData with
  | None => Err TypeError
  | Some d =>
      Ok {| noteFirstMention := isFirstMention;
            noteIsBuy := isBuy;
            noteSymbol := symbol;
            noteTokenCA := tokenCA;
            noteAmount := amount;
            noteValue := usdValue;
            noteMarketCap := capLabel (marketCap d) |}
  end.

(** ** The user loop of [checkForNewSwaps] *)

(** The engine call of the user loop, on the engine's own history. *)
Definition callShouldNotify (h : Host) (userId : Z) (swap : Swap)
    (filters : list FilterRow) (fm : list string)
    (cache : gmap string TokenData) : M Outcome :=
  let* _ := emit (EvShouldNotify userId (swapIdOf swap)) in
  fun w =>
    let (hist, out) :=
      shouldNotify h (history w) userId swap (DbRows filters) (Some fm) (Some cache) in
    (out, {| unique_tokens := unique_tokens w; usersTable := usersTable w;
             filtersTable := filtersTable w; outages := outages w;
             history := hist; trace := trace w |}).

(** [globalIsFirstMention] of the user loop: the flag computed from
    the cycle's first-mention set, as a truth value. *)
Definition globalIsFirstMention (firstMentionTokens : list string) (swap : Swap) : bool :=
  (isFirst firstMentionTokens (mintOf (inputToken swap))
   || isFirst firstMentionTokens (mintOf (outputToken swap)))%bool.

(** The swaps of one user.  A throw of the engine leaves the loop (it is
    caught by the [try] around the user).  A match is formatted and then
    sent, so nothing is sent when [formatNotification] throws.  The loop
    of a user with notifications on ([guarded]) wraps formatting and
    sending in a [try] of their own and goes on with the next swap; the
    loop of a user with notifications off has no such [try], and a throw
    there leaves the loop as one of the engine does. *)
Fixpoint notifyUser (h : Host) (guarded : bool) (userId : Z) (filters : list FilterRow)
    (fm : list string) (cache : gmap string TokenData)
    (swaps : list Swap) : M (res unit) :=
  match swaps with
  | [] => ret (Ok tt)
  | swap :: rest =>
      let* out := callShouldNotify h userId swap filters fm cache in
      match out with
      | Thrown e => ret (Err e)
      | Returned _ v =>
          if matches v then
            let globalIsFirstMention := globalIsFirstMention fm swap in
            match formatNotification h swap globalIsFirstMention (Some cache) with
            | Ok notification =>
                let* _ := emit (EvSendMessage userId (swapIdOf swap)
                                              (noteFirstMention notification)) in
                notifyUser h guarded userId filters fm cache rest
            | Err notifyError =>
                if guarded then notifyUser h guarded userId filters fm cache rest
                else ret (Err notifyError)
            end
          else notifyUser h guarded userId filters fm cache rest
      end
  end.

Definition processUser (h : Host) (fm : list string)
    (cache : gmap string TokenData) (swaps : list Swap) (userId : Z) : M unit :=
  let* filters := getUserFilters userId in
  match filters with
  | Err _ => ret tt
  | Ok rows =>
      let processedFilters := processFilters h (DbRows rows) in
      let* _ := notifyUser h (notifications_enabled processedFilters)
                           userId rows fm cache swaps in
      ret tt
  end.

Fixpoint processUsers (h : Host) (fm : list string)
    (cache : gmap string TokenData) (swaps : list Swap) (users : list Z) : M unit :=
  match users with
  | [] => ret tt
  | u :: rest =>
      let* _ := processUser h fm cache swaps u in
      processUsers h fm cache swaps rest
  end.

(** [cachedData?.symbol || null] *)
Definition commitSymbol (cache : gmap string TokenData) (m : string) : option string :=
  whenTruthy (cacheSymbol (Some cache) m).

Fixpoint commitFirstMentions (cache : gmap string TokenData)
    (fm : list string) : M unit :=
  match fm with
  | [] => ret tt
  | tokenMint :: rest =>
      let* _ := markTokenAsFirstMentioned tokenMint (commitSymbol cache tokenMint) in
      commitFirstMentions cache rest
  end.

(** [checkForNewSwaps].  [feed] is what the swap endpoint answered
    ([None]: no usable array); [enrich] stands for the pre-fetch of the
    token data, which talks to the price feeds only. *)
Definition checkForNewSwaps (h : Host) (feed : option (list Swap))
    (enrich : list Swap -> gmap string TokenData) : M unit :=
  match feed with
  | None => ret tt
  | Some [] => ret tt
  | Some swaps =>
      let* users := getAllUsers in
      match users with
      | Err _ => ret tt
      | Ok us =>
          let* firstMentionTokens := detectFirstMentions [] swaps in
          let tokenDataCache := enrich swaps in
          let* _ := processUsers h firstMentionTokens tokenDataCache swaps us in
          commitFirstMentions tokenDataCache firstMentionTokens
      end
  end.

(** ** Vocabulary of the properties *)

(** A market cap that is a number is not negative. *)
Definition capNonneg (c : cap) : Prop :=
  match c with
  | Cap q => (0 <= q)%Q
  | CapNaN => True
  end.

(** A market cap that is 0 or not a number. *)
Definition capUnknown (c : cap) : Prop :=
  match c with
  | Cap q => (q == 0)%Q
  | CapNaN => True
  end.

(** The symbol is a string that the supply table answers with an
    inherited member: none of its keys, and a name of
    [Object.prototype]. *)
Definition inheritedSymbol (sym : jsval) : bool :=
  match sym with
  | JString s =>
      match assoc s knownSupplies with
      | Some _ => false
      | None => existsb (String.eqb s) inheritedKeys
      end
  | JUndefined | JPromise _ => false
  end.

(** The delivery history of a user ([[]] when the user has no set yet). *)
Definition historyOf (ups : gmap Z (list string)) (userId : Z) : list string :=
  default [] (ups !! userId).

(** Engine states a process can be in: the constructor's empty map, then
    any number of [matchesFilters] calls with any arguments. *)
Inductive Reachable : gmap Z (list string) -> Prop :=
| reach_new : Reachable ∅
| reach_call h ups swap uf fm uid cache :
    Reachable ups ->
    Reachable (fst (matchesFilters h ups swap uf fm uid cache)).

(** Every set is duplicate-free and holds at most 100 ids. *)
Definition Bounded (ups : gmap Z (list string)) : Prop :=
  forall (u : Z) (s : list string), ups !! u = Some s -> List.NoDup s /\ (List.length s <= 100)%nat.

(** The verdicts ([matches]) of consecutive calls for one user under one
    profile, starting from the history [ups]. *)
Fixpoint deliveries (h : Host) (ups : gmap Z (list string)) (uf : Filters)
    (uid : Z) (swaps : list Swap) : list bool :=
  match swaps with
  | [] => []
  | s :: rest =>
      let (ups', out) := matchesFilters h ups s uf None uid None in
      (match out with Returned _ v => matches v | Thrown _ => false end)
        :: deliveries h ups' uf uid rest
  end.

(** The deduplication property read without the capacity bound: a swap
    id that matched once never matches again for that user. *)
Definition never_redelivered : Prop :=
  forall (h : Host) (uf : Filters) (uid : Z) (swaps : list Swap)
         (i j : nat) (si sj : Swap),
    (i < j)%nat ->
    swaps !! i = Some si -> swaps !! j = Some sj ->
    swapIdOf si = swapIdOf sj ->
    deliveries h ∅ uf uid swaps !! i = Some true ->
    deliveries h ∅ uf uid swaps !! j = Some false.

(** The six symbols the valuation and the conversion filter take as
    stablecoins. *)
Definition recognizedStablecoins : list string :=
  ["USDC"; "USDT"; "BUSD"; "USD1"; "DAI"; "FRAX"].

(** The resolved SOL price, with the fallback constant when it is 0. *)
Definition solPriceOrFallback (h : Host) (cache : option (gmap string TokenData)) : Q :=
  let p := price (cachedOrFetched h cache (Some SOL_MINT) (JString "SOL")) in
  if Qeq_bool p 0 then 220%Q else p.

(** The valuation rule in the words of the specification: what one side
    of a swap yields, if anything. *)
Inductive SideYields (h : Host) (cache : option (gmap string TokenData))
  : option Token -> Q -> Prop :=
| yields_stable t s :
    metaSymbol t = Some s -> In s recognizedStablecoins ->
    SideYields h cache (Some t) (amount t)
| yields_native t :
    metaSymbol t = Some "SOL" ->
    SideYields h cache (Some t) (amount t * solPriceOrFallback h cache)%Q
| yields_priced t s m :
    metaSymbol t = Some s -> s <> "" ->
    ~ In s recognizedStablecoins -> s <> "SOL" ->
    mint t = Some m -> m <> "" ->
    (0 < price (cachedOrFetched h cache (Some m) (JString s)))%Q ->
    SideYields h cache (Some t)
               (amount t * price (cachedOrFetched h cache (Some m) (JString s)))%Q.

(** A token is on a user list when an entry equals, ignoring case, its
    resolved (awaited) symbol or its mint. *)
Definition listed (h : Host) (token : Token) (entries : list string) : bool :=
  existsb
    (fun e =>
       (String.eqb (toLower e) (toLower (await (getTokenSymbol h (Some token) None)))
        || match mint token with
           | Some m => String.eqb (toLower e) (toLower m)
           | None => false
           end)%bool)
    entries.

(** The profile with the market-cap filter taken out. *)
Definition withoutMarketCap (f : Filters) : Filters :=
  {| tokens := tokens f; blacklist := blacklist f;
     whale_blacklist := whale_blacklist f; min_purchase := min_purchase f;
     max_market_cap := None; monitor_all := monitor_all f;
     notifications_enabled := notifications_enabled f;
     first_mention_only := first_mention_only f |}.

(** The value of the token check a user-level rejection is due to. *)
Definition tokenCheckOf (h : Host) (uf : Filters) (token : Token) : res bool :=
  if monitor_all uf then checkBlacklist h token (blacklist uf)
  else checkTokenWhitelist h token (tokens uf).

Definition isSelectToken (e : Event) : bool :=
  match e with EvSelectToken _ => true | _ => false end.

Definition isUserEvent (e : Event) : bool :=
  match e with
  | EvSelectFilters _ | EvShouldNotify _ _ | EvSendMessage _ _ _ => true
  | _ => false
  end.

(** The mints a batch of swaps refers to. *)
Definition batchMints (swaps : list Swap) : list string :=
  flat_map (fun s => (match whenTruthy (mintOf (inputToken s)) with
                      | Some m => [m] | None => [] end
                      ++ match whenTruthy (mintOf (outputToken s)) with
                         | Some m => [m] | None => [] end)%list) swaps.

(** The market-cap check as [matchesFilters] gates it. *)
Definition marketCapCheckOf (h : Host) (uf : Filters)
    (cache : option (gmap string TokenData)) (token : Token) : bool :=
  match max_market_cap uf with
  | Some mx =>
      if (num_truthy mx && num_gt0 mx)%bool
      then checkMarketCap h token (max_market_cap uf) cache
      else true
  | None => true
  end.

(** The map after [if (!has(userId)) set(userId, new Set())]. *)
Definition ensureSet (ups : gmap Z (list string)) (uid : Z) : gmap Z (list string) :=
  match ups !! uid with
  | Some _ => ups
  | None => <[uid := []]> ups
  end.

(** The filter is set and positive. *)
Definition capActive (uf : Filters) (mx : num) : Prop :=
  max_market_cap uf = Some mx /\ num_gt0 mx = true.

(** The inserts of the commit loop, one per first-mention mint. *)
Definition commitEvents (cache : gmap string TokenData) (fm : list string) : list Event :=
  map (fun m => EvInsertToken m (commitSymbol cache m)) fm.

(** [w'] differs from [w] by events of kind [P] added to the trace. *)
Definition appends (P : Event -> bool) (w w' : World) : Prop :=
  exists evs, trace w' = (trace w ++ evs)%list /\ forallb P evs = true.

(** The tables of the store are the same in [w] and [w']. *)
Definition sameTables (w w' : World) : Prop :=
  unique_tokens w' = unique_tokens w
  /\ usersTable w' = usersTable w
  /\ filtersTable w' = filtersTable w.

(** The next database query throws. *)
Definition nextQueryFails (w : World) : bool :=
  match outages w with
  | down :: _ => down
  | [] => false
  end.

(** ** Concrete inputs *)

(** A host whose feeds know nothing. *)
Definition quietHost : Host :=
  {| parseFloat := fun _ => NaN;
     getJupiterPriceData := fun _ => {| jupPrice := 0 |};
     getDexScreenerData :=
       fun _ => {| dexPrice := 0; dexMarketCap := 0; dexSymbol := None |} |}.

Definition USDC_MINT : string := "EPjFWdd5AufqSSqeM2qN1xzybapC8G4wEGGkZwyTDt1v".
Definition BONK_MINT : string := "DezXAZ8z7PnrnRJjz3wXBoRgixCa6xjnB7YaB1pPB263".

Definition token (m s : string) (a : Q) : Token :=
  {| mint := Some m;
     metadata := Some {| symbol := Some s; name := None |};
     amount := a |}.

Definition swapOf (sig whale : string) (i o : Token) : Swap :=
  {| signature := Some sig; timestamp := None; feePayer := Some whale;
     inputToken := Some i; outputToken := Some o |}.

(** Notifications on, everything else as [processFilters] defaults it. *)
Definition enabledProfile : Filters :=
  {| tokens := []; blacklist := []; whale_blacklist := [];
     min_purchase := None; max_market_cap := None; monitor_all := true;
     notifications_enabled := true; first_mention_only := false |}.

(** 1 SOL sold for 100 USDC. *)
Definition solToUsdc : Swap :=
  swapOf "sig-sol-usdc" "whale1" (token SOL_MINT "SOL" 1) (token USDC_MINT "USDC" 100).

(** SOL bought with 100 USDC. *)
Definition usdcToSol : Swap :=
  swapOf "sig-usdc-sol" "whale1" (token USDC_MINT "USDC" 100) (token SOL_MINT "SOL" 1).

(** 1 SOL spent on BONK. *)
Definition solToBonk : Swap :=
  swapOf "sig-sol-bonk" "whale1" (token SOL_MINT "SOL" 1) (token BONK_MINT "BONK" 5000).

(** 5000 BONK swapped into 40 DAI. *)
Definition bonkToDai : Swap :=
  swapOf "sig-bonk-dai" "whale1" (token BONK_MINT "BONK" 5000) (token "DAImint" "DAI" 40).

(** Token Filter mode with a whitelist and nothing else, notifications
    on. *)
Definition whitelistOnly (allowed : list string) : Filters :=
  {| tokens := allowed; blacklist := []; whale_blacklist := [];
     min_purchase := None; max_market_cap := None; monitor_all := false;
     notifications_enabled := true; first_mention_only := false |}.

(** All Tokens mode with a blacklist and nothing else, notifications
    on. *)
Definition blacklistOnly (blocked : list string) : Filters :=
  {| tokens := []; blacklist := blocked; whale_blacklist := [];
     min_purchase := None; max_market_cap := None; monitor_all := true;
     notifications_enabled := true; first_mention_only := false |}.

(** Token Filter mode with the whitelist [SOL], notifications on. *)
Definition tokenFilterSol : Filters := whitelistOnly ["SOL"].

(** The same profile as stored rows. *)
Definition tokenFilterSolRows : list FilterRow :=
  [ {| filter_type := "monitor_all"; filter_value := "false" |};
    {| filter_type := "first_mention_only"; filter_value := "false" |};
    {| filter_type := "token_whitelist"; filter_value := "SOL" |};
    {| filter_type := "notifications_enabled"; filter_value := "true" |} ].

(** A batch with pairwise different signatures: the [n]-th one is signed
    by [n] letters. *)
Fixpoint letters (n : nat) : string :=
  match n with
  | O => EmptyString
  | S k => String "s" (letters k)
  end.

Definition nthSwap (n : nat) : Swap :=
  swapOf (letters (S n)) "whale1" (token SOL_MINT "SOL" 1) (token BONK_MINT "BONK" 5000).

(** Swap 0, a hundred other swaps, then swap 0 again. *)
Definition overflowingRun : list Swap :=
  map nthSwap (seq 0 101) ++ [nthSwap 0].

(** A market-cap ceiling of one million dollars. *)
Definition capProfile : Filters :=
  {| tokens := []; blacklist := []; whale_blacklist := [];
     min_purchase := None; max_market_cap := Some (Fin 1000000%Q);
     monitor_all := true; notifications_enabled := true;
     first_mention_only := false |}.

(** A cycle cache in which BONK is worth half a million. *)
Definition bonkCache : gmap string TokenData :=
  {[ BONK_MINT := {| price := 1 # 100; marketCap := Cap 500000;
                     isHardcodedSupply := false; cachedSymbol := Some "BONK" |} ]}.

(** A user who has blacklisted the whale of the fixture swaps. *)
Definition whaleBlockProfile : Filters :=
  {| tokens := []; blacklist := []; whale_blacklist := ["WHALE1"];
     min_purchase := None; max_market_cap := None; monitor_all := true;
     notifications_enabled := true; first_mention_only := false |}.

(** A store that knows SOL, with one user who has notifications on. *)
Definition smallWorld : World :=
  {| unique_tokens := {[ SOL_MINT := Some "SOL" ]};
     usersTable := [7];
     filtersTable := [ (7, {| filter_type := "notifications_enabled";
                               filter_value := "true" |}) ];
     outages := [];
     history := ∅;
     trace := [] |}.

(** ** Further vocabulary *)

(** The values of the rows of one filter type, in row order. *)
Definition valuesOf (ty : string) (rows : list FilterRow) : list string :=
  map filter_value (List.filter (fun r => String.eqb (filter_type r) ty) rows).

Fixpoint lastOf {A : Type} (l : list A) : option A :=
  match l with
  | [] => None
  | [x] => Some x
  | _ :: r => lastOf r
  end.

(** A flag row reads as true only when its value is the text [true]. *)
Definition flagOr (dflt : bool) (v : option string) : bool :=
  match v with
  | Some s => String.eqb s "true"
  | None => dflt
  end.

(** The list the token check of a profile consults. *)
Definition activeTokenList (uf : Filters) : list string :=
  if monitor_all uf then blacklist uf else tokens uf.

(** One of the fixed global blocklists applies to the swap. *)
Definition globallyBlocked (swap : Swap) : bool :=
  (isSpamMint (mintOf (inputToken swap))
   || isSpamMint (mintOf (outputToken swap))
   || includes hardcodedBlacklist (of_opt (mintOf (inputToken swap)))
   || includes hardcodedBlacklist (of_opt (mintOf (outputToken swap)))
   || includes hardcodedWhaleBlacklist (of_opt (feePayer swap)))%bool.

(** The swap gets as far as the token check of the user, for the
    relevant token [tok]: notifications on, id not yet delivered, no
    spam prefix, no hardcoded mint, and the first-mention-only gate
    open. *)
Definition reachesTokenCheck (ups : gmap Z (list string)) (swap : Swap)
    (uf : Filters) (fm : option (list string)) (uid : Z) (tok : Token) : Prop :=
  notifications_enabled uf = true
  /\ set_has (historyOf ups uid) (swapIdOf swap) = false
  /\ (isSpamMint (mintOf (inputToken swap))
      || isSpamMint (mintOf (outputToken swap)))%bool = false
  /\ (includes hardcodedBlacklist (of_opt (mintOf (inputToken swap)))
      || includes hardcodedBlacklist (of_opt (mintOf (outputToken swap))))%bool = false
  /\ relevantTokenOf swap = Some tok
  /\ (first_mention_only uf && negb (computedFirstMention fm swap))%bool = false.

(** The conjunction of the four user-level checks. *)
Definition userChecks (h : Host) (swap : Swap) (uf : Filters)
    (cache : option (gmap string TokenData)) (tok : Token) (tc : bool) : bool :=
  (tc && checkWhaleBlacklist (feePayer swap) (whale_blacklist uf)
   && checkMinimumPurchase (calculateSwapValueUSD h swap cache) (min_purchase uf)
   && marketCapCheckOf h uf cache tok)%bool.

(** The ways through [matchesFilters], as a relation between the
    arguments, the history map handed back and the outcome. *)
Inductive Path (h : Host) (ups : gmap Z (list string)) (swap : Swap)
    (uf : Filters) (fm : option (list string)) (uid : Z)
    (cache : option (gmap string TokenData))
  : gmap Z (list string) -> Outcome -> Prop :=
| path_disabled :
    notifications_enabled uf = false ->
    Path h ups swap uf fm uid cache ups (Returned AtDisabled rejected)
| path_duplicate :
    notifications_enabled uf = true ->
    set_has (historyOf ups uid) (swapIdOf swap) = true ->
    Path h ups swap uf fm uid cache (ensureSet ups uid) (Returned AtDuplicate rejected)
| path_spam :
    notifications_enabled uf = true ->
    set_has (historyOf ups uid) (swapIdOf swap) = false ->
    (isSpamMint (mintOf (inputToken swap))
     || isSpamMint (mintOf (outputToken swap)))%bool = true ->
    Path h ups swap uf fm uid cache (ensureSet ups uid) (Returned AtSpamPrefix rejected)
| path_blocklist :
    notifications_enabled uf = true ->
    set_has (historyOf ups uid) (swapIdOf swap) = false ->
    (isSpamMint (mintOf (inputToken swap))
     || isSpamMint (mintOf (outputToken swap)))%bool = false ->
    (includes hardcodedBlacklist (of_opt (mintOf (inputToken swap)))
     || includes hardcodedBlacklist (of_opt (mintOf (outputToken swap))))%bool = true ->
    Path h ups swap uf fm uid cache (ensureSet ups uid) (Returned AtTokenBlocklist rejected)
| path_no_token :
    notifications_enabled uf = true ->
    set_has (historyOf ups uid) (swapIdOf swap) = false ->
    (isSpamMint (mintOf (inputToken swap))
     || isSpamMint (mintOf (outputToken swap)))%bool = false ->
    (includes hardcodedBlacklist (of_opt (mintOf (inputToken swap)))
     || includes hardcodedBlacklist (of_opt (mintOf (outputToken swap))))%bool = false ->
    relevantTokenOf swap = None ->
    Path h ups swap uf fm uid cache (ensureSet ups uid) (Returned AtNoRelevantToken rejected)
| path_first_mention_only tok :
    notifications_enabled uf = true ->
    set_has (historyOf ups uid) (swapIdOf swap) = false ->
    (isSpamMint (mintOf (inputToken swap))
     || isSpamMint (mintOf (outputToken swap)))%bool = false ->
    (includes hardcodedBlacklist (of_opt (mintOf (inputToken swap)))
     || includes hardcodedBlacklist (of_opt (mintOf (outputToken swap))))%bool = false ->
    relevantTokenOf swap = Some tok ->
    (first_mention_only uf && negb (computedFirstMention fm swap))%bool = true ->
    Path h ups swap uf fm uid cache (ensureSet ups uid) (Returned AtFirstMentionOnly rejected)
| path_throw tok e :
    reachesTokenCheck ups swap uf fm uid tok ->
    tokenCheckOf h uf tok = Err e ->
    Path h ups swap uf fm uid cache (ensureSet ups uid) (Thrown e)
| path_whale tok tc :
    reachesTokenCheck ups swap uf fm uid tok ->
    tokenCheckOf h uf tok = Ok tc ->
    includes hardcodedWhaleBlacklist (of_opt (feePayer swap)) = true ->
    Path h ups swap uf fm uid cache (ensureSet ups uid) (Returned AtWhaleBlocklist rejected)
| path_end tok tc :
    reachesTokenCheck ups swap uf fm uid tok ->
    tokenCheckOf h uf tok = Ok tc ->
    includes hardcodedWhaleBlacklist (of_opt (feePayer swap)) = false ->
    Path h ups swap uf fm uid cache
      (if userChecks h swap uf cache tok tc
       then <[uid := recordSwap (historyOf ups uid) (swapIdOf swap)]> (ensureSet ups uid)
       else ensureSet ups uid)
      (Returned AtEnd {| matches := userChecks h swap uf cache tok tc;
                         isFirstMention := computedFirstMention fm swap |}).

(** A pump.fun token without metadata. *)
Definition pumpToken : Token :=
  {| mint := Some "7GCihgDB8fe6KNjn2MYtkzZcRjQy3t9GHdC8uHYmpump";
     metadata := None; amount := 1000 |}.

(** A host whose only knowledge is a DexScreener market cap of 5000
    for every mint. *)
Definition dexOnlyHost : Host :=
  {| parseFloat := fun _ => NaN;
     getJupiterPriceData := fun _ => {| jupPrice := 0 |};
     getDexScreenerData :=
       fun _ => {| dexPrice := 0; dexMarketCap := 5000; dexSymbol := None |} |}.

(** A host whose Jupiter feed prices every mint at 2 USD and whose
    DexScreener feed reports a market cap of 5000. *)
Definition pricedHost : Host :=
  {| parseFloat := fun _ => NaN;
     getJupiterPriceData := fun _ => {| jupPrice := 2 |};
     getDexScreenerData :=
       fun _ => {| dexPrice := 0; dexMarketCap := 5000; dexSymbol := None |} |}.

(** ** The user tables of [database-railway.js] and the handlers of
       [bot.js] that write them

    The serial [id] and [username] columns, which no caller reads back,
    are not kept; a table is the list of its rows in insertion order
    and a SELECT returns them in that order.  Telegram calls are recorded
    by kind ([Reply]) and taken to go through.  The menus and filter
    lists a handler shows ([showMainMenu], [showFilters], also when
    deferred by [setTimeout]) only read the filters; they are not part
    of the handlers here and are modelled on their own further down.
    [parseInt] is the host's and is handed to the handlers ([None] for
    NaN). *)

Definition setFiltersTable (t : list (Z * FilterRow)) : M unit :=
  fun w => (tt, {| unique_tokens := unique_tokens w; usersTable := usersTable w;
                   filtersTable := t; outages := outages w;
                   history := history w; trace := trace w |}).

Definition setUsersTable (t : list Z) : M unit :=
  fun w => (tt, {| unique_tokens := unique_tokens w; usersTable := t;
                   filtersTable := filtersTable w; outages := outages w;
                   history := history w; trace := trace w |}).

(** [addUser]: INSERT ... ON CONFLICT (telegram_id) DO UPDATE. *)
Definition addUser (telegramId : Z) : M (res unit) :=
  let* ok := poolQuery in
  if ok then
    fun w =>
      if existsb (Z.eqb telegramId) (usersTable w) then (Ok tt, w)
      else (Ok tt, snd (setUsersTable (usersTable w ++ [telegramId])%list w))
  else ret (Err QueryError).

(** [addFilter]: a plain INSERT into [user_filters]. *)
Definition addFilter (telegramId : Z) (filterType filterValue : string) : M (res unit) :=
  let* ok := poolQuery in
  if ok then
    fun w =>
      (Ok tt,
       snd (setFiltersTable
              (filtersTable w
               ++ [(telegramId, {| filter_type := filterType;
                                   filter_value := filterValue |})])%list w))
  else ret (Err QueryError).

Definition sameFilter (telegramId : Z) (filterType filterValue : string)
    (r : Z * FilterRow) : bool :=
  (Z.eqb (fst r) telegramId
   && String.eqb (filter_type (snd r)) filterType
   && String.eqb (filter_value (snd r)) filterValue)%bool.

(** [removeFilter]: DELETE of every row with that user, type and value;
    the row count is returned. *)
Definition removeFilter (telegramId : Z) (filterType filterValue : string) : M (res nat) :=
  let* ok := poolQuery in
  if ok then
    fun w =>
      let gone := List.filter (sameFilter telegramId filterType filterValue) (filtersTable w) in
      let kept := List.filter (fun r => negb (sameFilter telegramId filterType filterValue r))
                              (filtersTable w) in
      (Ok (List.length gone), snd (setFiltersTable kept w))
  else ret (Err QueryError).

(** The rows [clearFilters] deletes: the user's, of the given type when
    a (truthy) type is given. *)
Definition cleared (telegramId : Z) (filterType : option string) (r : Z * FilterRow) : bool :=
  (Z.eqb (fst r) telegramId
   && match whenTruthy filterType with
      | Some ty => String.eqb (filter_type (snd r)) ty
      | None => true
      end)%bool.

Definition clearFilters (telegramId : Z) (filterType : option string) : M (res nat) :=
  let* ok := poolQuery in
  if ok then
    fun w =>
      let gone := List.filter (cleared telegramId filterType) (filtersTable w) in
      let kept := List.filter (fun r => negb (cleared telegramId filterType r))
                              (filtersTable w) in
      (Ok (List.length gone), snd (setFiltersTable kept w))
  else ret (Err QueryError).

(** [checkAndMarkFirstMention]: a SELECT, then a plain INSERT when the
    mint is not there; [true] only when both went through.  (The
    duplicate-key answer to the INSERT needs a second writer and cannot
    arise here.) *)
Definition checkAndMarkFirstMention (tokenMint : string)
    (tokenSymbol : option string) : M bool :=
  let* ok := poolQuery in
  if ok then
    let* t := readTokens in
    match t !! tokenMint with
    | Some _ => ret false
    | None =>
        let* ok2 := poolQuery in
        if ok2 then
          let* _ := writeTokens (<[tokenMint := tokenSymbol]> t) in ret true
        else ret false
    end
  else ret false.

(** Sequencing of calls that may throw. *)
Definition bindE {A B : Type} (m : M (res A)) (k : A -> M (res B)) : M (res B) :=
  let* r := m in
  match r with
  | Ok a => k a
  | Err e => ret (Err e)
  end.

Notation "'try*' x ':=' m 'in' k" := (bindE m (fun x => k))
  (at level 10, x pattern, m at level 100, k at level 200).

Inductive Mode : Type := AllTokens | TokenFilter | FirstMention.

Definition currentModeOf (f : Filters) : Mode :=
  if first_mention_only f then FirstMention
  else if negb (monitor_all f) then TokenFilter
  else AllTokens.

Definition nextModeOf (m : Mode) : Mode :=
  match m with
  | AllTokens => TokenFilter
  | TokenFilter => FirstMention
  | FirstMention => AllTokens
  end.

(** The [cycle_monitor_mode] button. *)
Definition cycleMonitorMode (h : Host) (chatId : Z) : M (res Mode) :=
  try* filters := getUserFilters chatId in
  let processedFilters := processFilters h (DbRows filters) in
  let nextMode := nextModeOf (currentModeOf processedFilters) in
  try* _ := clearFilters chatId (Some "monitor_all") in
  try* _ := clearFilters chatId (Some "first_mention_only") in
  try* _ :=
    (match nextMode with
     | AllTokens =>
         try* _ := addFilter chatId "monitor_all" "true" in
         addFilter chatId "first_mention_only" "false"
     | TokenFilter =>
         try* _ := addFilter chatId "monitor_all" "false" in
         addFilter chatId "first_mention_only" "false"
     | FirstMention =>
         try* _ := addFilter chatId "monitor_all" "true" in
         addFilter chatId "first_mention_only" "true"
     end) in
  try* _ := clearFilters chatId (Some "notifications_enabled") in
  try* _ := addFilter chatId "notifications_enabled" "false" in
  ret (Ok nextMode).

Definition boolText (b : bool) : string := if b then "true" else "false".

(** The [toggle_notifications] button. *)
Definition toggleNotifications (h : Host) (chatId : Z) : M (res bool) :=
  try* filters := getUserFilters chatId in
  let processedFilters := processFilters h (DbRows filters) in
  let newValue := negb (notifications_enabled processedFilters) in
  try* _ := clearFilters chatId (Some "notifications_enabled") in
  try* _ := addFilter chatId "notifications_enabled" (boolText newValue) in
  ret (Ok newValue).

(** The [clear_all_filters] button. *)
Definition clearAllFilters (chatId : Z) : M (res unit) :=
  try* _ := clearFilters chatId None in
  addFilter chatId "notifications_enabled" "false".

Fixpoint splitOn (c : ascii) (s : string) : list string :=
  match s with
  | EmptyString => [EmptyString]
  | String a r =>
      if Ascii.eqb a c then EmptyString :: splitOn c r
      else match splitOn c r with
           | x :: xs => String a x :: xs
           | [] => [String a EmptyString]
           end
  end.

Fixpoint containsChar (c : ascii) (s : string) : bool :=
  match s with
  | EmptyString => false
  | String a r => (Ascii.eqb a c || containsChar c r)%bool
  end.

Definition typeMapping : list (string * string) :=
  [ ("tw", "token_whitelist"); ("mp", "min_purchase"); ("mc", "max_market_cap");
    ("tb", "token_blacklist"); ("wb", "whale_blacklist") ].

(** The rows of one type among rows, as [filters.filter(f => f.filter_type === filterType)]
    with a possibly undefined type. *)
Definition rowsOfType (filterType : option string) (rows : list FilterRow) : list FilterRow :=
  List.filter (fun f => strictEq (JString (filter_type f)) (of_opt filterType)) rows.

Inductive DeleteResult : Type :=
| Removed (value : string)
| NotFound.

(** A [del_<type>_<index>] button; [parseInt] is the host's. *)
Definition deleteFilter (parseInt : string -> option Z) (chatId : Z) (data : string)
  : M (res DeleteResult) :=
  let parts := splitOn "_"%char data in
  let shortType := nth_error parts 1 in
  let filterIndex := nth_error parts 2 in
  let index := match filterIndex with Some t => parseInt t | None => None end in
  let filterType := match shortType with Some k => assoc k typeMapping | None => None end in
  try* filters := getUserFilters chatId in
  let typeFilters := rowsOfType filterType filters in
  match index with
  | Some i =>
      if (Z.leb 0 i && Z.ltb i (Z.of_nat (List.length typeFilters)))%bool then
        match nth_error typeFilters (Z.to_nat i), filterType with
        | Some filterToDelete, Some ty =>
            try* _ := removeFilter chatId ty (filter_value filterToDelete) in
            try* _ := clearFilters chatId (Some "notifications_enabled") in
            try* _ := addFilter chatId "notifications_enabled" "false" in
            ret (Ok (Removed (filter_value filterToDelete)))
        | _, _ => ret (Ok NotFound)
        end
      else ret (Ok NotFound)
  | None => ret (Ok NotFound)
  end.

Inductive AddResult : Type :=
| Added
| InvalidNumber
| TooMany.

Definition isNumericType (ty : string) : bool :=
  (String.eqb ty "min_purchase" || String.eqb ty "max_market_cap")%bool.

Definition isListType (ty : string) : bool :=
  (String.eqb ty "token_whitelist" || String.eqb ty "token_blacklist"
   || String.eqb ty "whale_blacklist")%bool.

(** The body of the text handler once a filter type is awaited. *)
Definition addFromText (parseInt : string -> option Z) (chatId : Z)
    (filterType text : string) : M (res AddResult) :=
  let invalid :=
    if isNumericType filterType then
      match parseInt text with
      | None => true
      | Some value => (Z.leb value 0 || containsChar "."%char text)%bool
      end
    else false in
  if invalid then ret (Ok InvalidNumber)
  else
    try* _ := (if isNumericType filterType
               then clearFilters chatId (Some filterType)
               else ret (Ok 0%nat)) in
    try* full :=
      (if isListType filterType then
         try* existingFilters := getUserFilters chatId in
         ret (Ok (Nat.leb 20 (List.length
                    (List.filter (fun f => String.eqb (filter_type f) filterType)
                                 existingFilters))))
       else ret (Ok false)) in
    if (full : bool) then ret (Ok TooMany)
    else
      try* _ := addFilter chatId filterType text in
      try* _ := clearFilters chatId (Some "notifications_enabled") in
      try* _ := addFilter chatId "notifications_enabled" "false" in
      ret (Ok Added).

(** ** The rate limiter and the state of the bot *)

Definition dailyLimit : nat := 500.

(** [Math.floor(now / (24 * 60 * 60 * 1000))] *)
Definition dayOf (now : Z) : Z := now / 86400000.

(** [checkRateLimit]; the key [`${userId}_${today}`] is kept as the pair
    it is built from. *)
Definition checkRateLimit (now : Z) (userId : Z) (rateLimiter : gmap (Z * Z) nat)
  : bool * gmap (Z * Z) nat :=
  let today := dayOf now in
  let userKey := (userId, today) in
  let currentCount := default 0%nat (rateLimiter !! userKey) in
  if Nat.leb dailyLimit currentCount then (false, rateLimiter)
  else (true, <[userKey := S currentCount]> rateLimiter).

Inductive Reply : Type :=
| LimitExceeded
| Welcome
| Prompt (filterType : string)
| ModeChanged (mode : Mode)
| NotificationsSet (on : bool)
| AllCleared
| FilterRemoved (value : string)
| FilterNotFound
| RemoveFailed
| NotANumber
| TooManyItems
| FilterAdded
| AddFailed
| CallbackFailed
| HelpText
| NoActiveFilters
| ActiveFilters (groups : list (string * list string)).

Record BotState : Type := mkBotState {
  world : World;
  rateLimiter : gmap (Z * Z) nat;
  awaitingInput : gmap Z string;
  outbox : list (Z * Reply)
}.

Definition reply (chatId : Z) (r : Reply) (s : BotState) : BotState :=
  {| world := world s; rateLimiter := rateLimiter s;
     awaitingInput := awaitingInput s; outbox := (outbox s ++ [(chatId, r)])%list |}.

Definition withWorld (w : World) (s : BotState) : BotState :=
  {| world := w; rateLimiter := rateLimiter s;
     awaitingInput := awaitingInput s; outbox := outbox s |}.

Definition withLimiter (rl : gmap (Z * Z) nat) (s : BotState) : BotState :=
  {| world := world s; rateLimiter := rl;
     awaitingInput := awaitingInput s; outbox := outbox s |}.

Definition withAwaiting (a : gmap Z string) (s : BotState) : BotState :=
  {| world := world s; rateLimiter := rateLimiter s;
     awaitingInput := a; outbox := outbox s |}.

(** The prompt buttons and the filter type each one awaits. *)
Definition promptButtons : list (string * string) :=
  [ ("add_token", "token_whitelist"); ("add_min_purchase", "min_purchase");
    ("add_max_market_cap", "max_market_cap"); ("add_blacklist", "token_blacklist");
    ("add_whale_blacklist", "whale_blacklist") ].

(** The [/start] command. *)
Definition onStart (now : Z) (chatId : Z) (s : BotState) : BotState :=
  let (ok, rl) := checkRateLimit now chatId (rateLimiter s) in
  let s := withLimiter rl s in
  if negb ok then reply chatId LimitExceeded s
  else
    let (r, w) := addUser chatId (world s) in
    match r with
    | Ok _ => reply chatId Welcome (withWorld w s)
    | Err _ => withWorld w s
    end.

(** The [callback_query] handler. *)
Definition onCallbackQuery (h : Host) (parseInt : string -> option Z)
    (now : Z) (chatId : Z) (data : string) (s : BotState) : BotState :=
  let (ok, rl) := checkRateLimit now chatId (rateLimiter s) in
  let s := withLimiter rl s in
  if negb ok then reply chatId LimitExceeded s
  else
    match assoc data promptButtons with
    | Some ty =>
        withAwaiting (<[chatId := ty]> (awaitingInput s)) (reply chatId (Prompt ty) s)
    | None =>
        if String.eqb data "view_filters" then s
        else if String.eqb data "cycle_monitor_mode" then
          let (r, w) := cycleMonitorMode h chatId (world s) in
          match r with
          | Ok m => reply chatId (ModeChanged m) (withWorld w s)
          | Err _ => reply chatId CallbackFailed (withWorld w s)
          end
        else if String.eqb data "toggle_notifications" then
          let (r, w) := toggleNotifications h chatId (world s) in
          match r with
          | Ok b => reply chatId (NotificationsSet b) (withWorld w s)
          | Err _ => reply chatId CallbackFailed (withWorld w s)
          end
        else if String.eqb data "clear_all_filters" then
          let (r, w) := clearAllFilters chatId (world s) in
          match r with
          | Ok _ => reply chatId AllCleared (withWorld w s)
          | Err _ => reply chatId CallbackFailed (withWorld w s)
          end
        else if String.eqb data "back_to_menu" then s
        else if startsWith data "del_" then
          let (r, w) := deleteFilter parseInt chatId data (world s) in
          match r with
          | Ok (Removed v) => reply chatId (FilterRemoved v) (withWorld w s)
          | Ok NotFound => reply chatId FilterNotFound (withWorld w s)
          | Err _ => reply chatId RemoveFailed (withWorld w s)
          end
        else s
    end.

(** The [message:text] handler. *)
Definition onText (parseInt : string -> option Z) (chatId : Z) (text : string)
    (s : BotState) : BotState :=
  if startsWith text "/" then s
  else
    match whenTruthy (awaitingInput s !! chatId) with
    | None => s
    | Some filterType =>
        let s := withAwaiting (delete chatId (awaitingInput s)) s in
        let (r, w) := addFromText parseInt chatId filterType text (world s) in
        match r with
        | Ok Added => reply chatId FilterAdded (withWorld w s)
        | Ok InvalidNumber => reply chatId NotANumber (withWorld w s)
        | Ok TooMany => reply chatId TooManyItems (withWorld w s)
        | Err _ => reply chatId AddFailed (withWorld w s)
        end
    end.

(** The rows a SELECT returns for a user. *)
Definition rowsOf (table : list (Z * FilterRow)) (telegramId : Z) : list FilterRow :=
  map snd (List.filter (fun r => Z.eqb (fst r) telegramId) table).

(** The profile the engine derives for a user from the table. *)
Definition profileOf (h : Host) (w : World) (telegramId : Z) : Filters :=
  processFilters h (DbRows (rowsOf (filtersTable w) telegramId)).

(** The count the limiter holds for a user on the day of [now]. *)
Definition countOf (rl : gmap (Z * Z) nat) (userId : Z) (now : Z) : nat :=
  default 0%nat (rl !! (userId, dayOf now)).

(** The answers of the limiter to consecutive interactions of one user
    at the given times. *)
Fixpoint rateRun (userId : Z) (times : list Z) (rl : gmap (Z * Z) nat) : list bool :=
  match times with
  | [] => []
  | now :: rest =>
      let (ok, rl') := checkRateLimit now userId rl in
      ok :: rateRun userId rest rl'
  end.

(** The rows of a user without those of one type. *)
Definition withoutType (ty : string) (rows : list FilterRow) : list FilterRow :=
  List.filter (fun r => negb (String.eqb (filter_type r) ty)) rows.

Definition row (ty v : string) : FilterRow := {| filter_type := ty; filter_value := v |}.

(** A world with a working database. *)
Definition quietWorld (t : list (Z * FilterRow)) (w : World) : World :=
  {| unique_tokens := unique_tokens w; usersTable := usersTable w;
     filtersTable := t; outages := []; history := history w; trace := trace w |}.

(** The two mode rows the mode button writes. *)
Definition modeRows (m : Mode) : list FilterRow :=
  match m with
  | AllTokens => [row "monitor_all" "true"; row "first_mention_only" "false"]
  | TokenFilter => [row "monitor_all" "false"; row "first_mention_only" "false"]
  | FirstMention => [row "monitor_all" "true"; row "first_mention_only" "true"]
  end.

(** The table without the rows of one type of one user. *)
Definition tableWithout (u : Z) (ty : option string) (t : list (Z * FilterRow))
  : list (Z * FilterRow) :=
  List.filter (fun r => negb (cleared u ty r)) t.

(** The table with rows of one user added at the end. *)
Definition tableWith (u : Z) (rows : list FilterRow) (t : list (Z * FilterRow))
  : list (Z * FilterRow) :=
  (t ++ map (fun r => (u, r)) rows)%list.

(** The interaction passes the rate limiter. *)
Definition underLimit (s : BotState) (chatId now : Z) : Prop :=
  (countOf (rateLimiter s) chatId now < dailyLimit)%nat.

(** A bot that has just started, over the small store. *)
Definition freshBot : BotState :=
  {| world := smallWorld; rateLimiter := ∅; awaitingInput := ∅; outbox := [] |}.

(** A [parseInt] that reads unsigned decimal numerals of up to three
    digits and nothing else. *)
Definition digitOf (a : ascii) : option Z :=
  let n := Z.of_nat (nat_of_ascii a) in
  if (Z.leb 48 n && Z.leb n 57)%bool then Some (n - 48) else None.

Definition smallParseInt (s : string) : option Z :=
  match s with
  | String a EmptyString => digitOf a
  | String a (String b EmptyString) =>
      match digitOf a, digitOf b with
      | Some x, Some y => Some (10 * x + y)
      | _, _ => None
      end
  | String a (String b (String c EmptyString)) =>
      match digitOf a, digitOf b, digitOf c with
      | Some x, Some y, Some z => Some (100 * x + 10 * y + z)
      | _, _, _ => None
      end
  | _ => None
  end.

(** ** Runs of the bot *)

(** The [/menu] command; the menu it opens is display only. *)
Definition onMenu (now : Z) (chatId : Z) (s : BotState) : BotState :=
  let (ok, rl) := checkRateLimit now chatId (rateLimiter s) in
  let s := withLimiter rl s in
  if negb ok then reply chatId LimitExceeded s else s.

(** The [/help] command. *)
Definition onHelp (chatId : Z) (s : BotState) : BotState := reply chatId HelpText s.

(** The filter types the [/filters] command lists, in its order. *)
Definition filterGroups : list string :=
  [ "token_whitelist"; "min_purchase"; "max_market_cap"; "token_blacklist";
    "whale_blacklist" ].

(** The [/filters] command: the non-empty groups with their values; a
    failed query is thrown to the silent [bot.catch]. *)
Definition onFilters (chatId : Z) (s : BotState) : BotState :=
  let (r, w) := getUserFilters chatId (world s) in
  let s := withWorld w s in
  match r with
  | Err _ => s
  | Ok filters =>
      if Nat.eqb (List.length filters) 0 then reply chatId NoActiveFilters s
      else
        reply chatId
          (ActiveFilters
             (List.filter (fun g => Nat.ltb 0 (List.length (snd g)))
                (map (fun ty => (ty, valuesOf ty filters)) filterGroups)))
          s
  end.

(** An update as the polling loop hands it to the handlers, one at a
    time; [now] is the clock the handler reads. *)
Inductive Update : Type :=
| CmdStart (now chatId : Z)
| CmdMenu (now chatId : Z)
| CmdHelp (chatId : Z)
| CmdFilters (chatId : Z)
| Button (now chatId : Z) (data : string)
| TextMessage (chatId : Z) (text : string).

Definition handle (h : Host) (parseInt : string -> option Z) (up : Update)
    (s : BotState) : BotState :=
  match up with
  | CmdStart now chatId => onStart now chatId s
  | CmdMenu now chatId => onMenu now chatId s
  | CmdHelp chatId => onHelp chatId s
  | CmdFilters chatId => onFilters chatId s
  | Button now chatId data => onCallbackQuery h parseInt now chatId data s
  | TextMessage chatId text => onText parseInt chatId text s
  end.

Definition handleAll (h : Host) (parseInt : string -> option Z) (ups : list Update)
    (s : BotState) : BotState :=
  fold_left (fun s up => handle h parseInt up s) ups s.

(** The number of values a user has stored under one filter type. *)
Definition entries (t : list (Z * FilterRow)) (u : Z) (ty : string) : nat :=
  List.length (valuesOf ty (rowsOf t u)).

Definition isSingleType (ty : string) : bool :=
  (isNumericType ty || String.eqb ty "monitor_all"
   || String.eqb ty "notifications_enabled" || String.eqb ty "first_mention_only")%bool.

(** What a filter type may hold per user: 20 values for a list, one for
    a threshold or a switch. *)
Definition capOf (ty : string) : option nat :=
  if isListType ty then Some 20%nat
  else if isSingleType ty then Some 1%nat
  else None.

Definition WellFormed (t : list (Z * FilterRow)) : Prop :=
  forall u ty n, capOf ty = Some n -> (entries t u ty <= n)%nat.

(** Only the filter types of the prompt buttons are awaited. *)
Definition Awaits (a : gmap Z string) : Prop :=
  forall u ty, a !! u = Some ty -> In ty (map snd promptButtons).

Definition Limited (rl : gmap (Z * Z) nat) : Prop :=
  forall key n, rl !! key = Some n -> (n <= dailyLimit)%nat.

Definition Sound (s : BotState) : Prop :=
  WellFormed (filtersTable (world s))
  /\ List.NoDup (usersTable (world s))
  /\ Awaits (awaitingInput s)
  /\ Limited (rateLimiter s).

Definition isOk {A : Type} (r : res A) : bool :=
  match r with Ok _ => true | Err _ => false end.

(** A DELETE of [clearFilters u' fty] removes the rows of type [ty] of
    user [u]. *)
Definition hits (u' : Z) (fty : option string) (u : Z) (ty : string) : bool :=
  (Z.eqb u' u
   && match whenTruthy fty with
      | Some ty' => String.eqb ty' ty
      | None => true
      end)%bool.

(** A bot that has just started on an empty database whose
    third query fails. *)
Definition emptyBot : BotState :=
  {| world := {| unique_tokens := ∅; usersTable := []; filtersTable := [];
                 outages := [false; false; true]; history := ∅; trace := [] |};
     rateLimiter := ∅; awaitingInput := ∅; outbox := [] |}.

Definition someUpdates : list Update :=
  [ CmdStart 0 7; Button 1 7 "add_token"; TextMessage 7 "BONK";
    Button 2 7 "cycle_monitor_mode"; Button 3 7 "del_tw_0"; CmdFilters 7 ].


(** The text reads, for the host's [parseInt], as a positive whole
    number written without a decimal point. *)
Definition wholePositive (parseInt : string -> option Z) (text : string) : bool :=
  match parseInt text with
  | Some value => (Z.ltb 0 value && negb (containsChar "."%char text))%bool
  | None => false
  end.

(** The small bot after user 7 pressed a prompt button. *)
Definition promptedBot (ty : string) : BotState :=
  withAwaiting {[ 7 := ty ]} freshBot.


(** The entry a delete button points at: the value at the index the
    button carries, among the user's values of the type. *)
Definition chosenEntry (parseInt : string -> option Z) (idx : string)
    (vals : list string) : option string :=
  match parseInt idx with
  | Some i => if Z.leb 0 i then nth_error vals (Z.to_nat i) else None
  | None => None
  end.

(** The data of the delete button [showFilters] builds for the entry
    at an index of a type. *)
Definition deleteButton (short idx : string) : string :=
  ("del_" ++ short ++ "_" ++ idx)%string.

(** The small bot with a whitelist that holds an entry twice. *)
Definition listedBot : BotState :=
  withWorld
    (quietWorld [ (7, row "token_whitelist" "BONK"); (7, row "token_whitelist" "WIF");
                  (7, row "token_whitelist" "BONK"); (8, row "token_whitelist" "BONK") ]
                smallWorld)
    freshBot.


(** The rows of a user without those of one type and value. *)
Definition withoutValue (ty v : string) (rows : list FilterRow) : list FilterRow :=
  List.filter (fun r => negb (String.eqb (filter_type r) ty
                              && String.eqb (filter_value r) v)) rows.


(** A message sent to one user. *)
Definition isSendTo (u : Z) (e : Event) : bool :=
  match e with
  | EvSendMessage u' _ _ => Z.eqb u' u
  | _ => false
  end.

(** [w'] comes from [w] without a message to [u], with the filter rows
    and the delivery history of [u] as they were. *)
Definition leavesAlone (u : Z) (w w' : World) : Prop :=
  filtersTable w' = filtersTable w
  /\ history w' !! u = history w !! u
  /\ exists evs, trace w' = (trace w ++ evs)%list
                 /\ forallb (fun e => negb (isSendTo u e)) evs = true.


(** ** The pre-fetch of token data in [checkForNewSwaps] *)

(** What a request to the bulk price endpoint comes to: the request or
    the reading of its body throws, the response is not ok, or the body
    is an object whose entries are gone through in order, each with its
    price [parseFloat(usdPrice) || 0]. *)
Inductive BulkResponse : Type :=
| BulkThrows
| BulkNotOk
| BulkData (entries : list (string * Q)).

(** [mints.slice(from, to)] *)
Definition slice {A : Type} (from to : nat) (l : list A) : list A :=
  firstn (to - from) (skipn from l).

(** The loop [for (let i = 0; i < mints.length; i += 50)] that cuts the
    mints into chunks, with the number of rounds it may take. *)
Fixpoint chunkLoop (rounds i : nat) (mints : list string)
    (chunks : list (list string)) : list (list string) :=
  match rounds with
  | O => chunks
  | S rounds' =>
      if Nat.ltb i (List.length mints)
      then chunkLoop rounds' (i + 50) mints (chunks ++ [slice i (i + 50) mints])%list
      else chunks
  end.

Definition chunksOf (mints : list string) : list (list string) :=
  chunkLoop (List.length mints) 0 mints [].

(** [results.set(mint, ...)] for the entries of one response. *)
Definition storeEntries (results : gmap string JupiterData)
    (entries : list (string * Q)) : gmap string JupiterData :=
  fold_left (fun r e => <[fst e := {| jupPrice := snd e |}]> r) entries results.

(** The requests, chunk after chunk; [None] when one of them throws. *)
Fixpoint fetchChunks (fetch : list string -> BulkResponse) (chunks : list (list string))
    (results : gmap string JupiterData) : option (gmap string JupiterData) :=
  match chunks with
  | [] => Some results
  | chunk :: rest =>
      match fetch chunk with
      | BulkThrows => None
      | BulkNotOk => fetchChunks fetch rest results
      | BulkData entries => fetchChunks fetch rest (storeEntries results entries)
      end
  end.

(** [getJupiterBulkPriceData]: a throw anywhere is caught around the
    whole body and answered with an empty map. *)
Definition getJupiterBulkPriceData (fetch : list string -> BulkResponse)
    (mints : list string) : gmap string JupiterData :=
  match fetchChunks fetch (chunksOf mints) ∅ with
  | Some results => results
  | None => ∅
  end.

(** [Array.from(uniqueTokens)]: the truthy mints of the swaps, each once,
    in the order they are first met. *)
Definition uniqueTokens (swaps : list Swap) : list string :=
  fold_left set_add (batchMints swaps) [].

(** The token of the first swap that carries the mint, its input side
    looked at first. *)
Fixpoint findToken (swaps : list Swap) (m : string) : option Token :=
  match swaps with
  | [] => None
  | swap :: rest =>
      if strictEq (of_opt (mintOf (inputToken swap))) (JString m) then inputToken swap
      else if strictEq (of_opt (mintOf (outputToken swap))) (JString m)
           then outputToken swap
           else findToken rest m
  end.

(** The cache entry computed for one mint.  Here [getTokenSymbol] is
    awaited, so the supply table is consulted with the symbol itself.
    Nothing in the body throws, so the entry of its [catch] never
    arises. *)
Definition tokenDataFor (h : Host) (jupiterBulkData : gmap string JupiterData)
    (swaps : list Swap) (m : string) : TokenData :=
  let token := findToken swaps m in
  let symbol := match token with
                | Some _ => resolvedSymbol h token None
                | None => "Unknown"
                end in
  match jupiterBulkData !! m with
  | Some jupiterData =>
      if negb (Qle_bool (jupPrice jupiterData) 0) then
        let dexData := getDexScreenerData h (Some m) in
        let knownSupply := getTokenSupply (Some m) (JString symbol) in
        {| price := jupPrice jupiterData;
           marketCap := match knownSupply with
                        | Some known => timesSupply (jupPrice jupiterData) known
                        | None => Cap (q_or (dexMarketCap dexData) 0%Q)
                        end;
           isHardcodedSupply := match knownSupply with Some _ => true | None => false end;
           cachedSymbol := match whenTruthy (dexSymbol dexData) with
                           | Some s => Some s
                           | None => Some symbol
                           end |}
      else getTokenData h (Some m) (JString symbol)
  | None => getTokenData h (Some m) (JString symbol)
  end.

(** The cache a cycle builds before the user loop. *)
Definition prefetchTokenData (h : Host) (fetch : list string -> BulkResponse)
    (swaps : list Swap) : gmap string TokenData :=
  let mints := uniqueTokens swaps in
  let jupiterBulkData := getJupiterBulkPriceData fetch mints in
  fold_left (fun cache m => <[m := tokenDataFor h jupiterBulkData swaps m]> cache) mints ∅.

(** The entries a chunk contributes when its request does not throw. *)
Definition entriesOf (fetch : list string -> BulkResponse) (chunk : list string)
  : list (string * Q) :=
  match fetch chunk with
  | BulkData entries => entries
  | BulkThrows | BulkNotOk => []
  end.

Definition throwsOn (fetch : list string -> BulkResponse) (chunk : list string) : bool :=
  match fetch chunk with
  | BulkThrows => true
  | _ => false
  end.

(** The bulk price that makes the pre-fetch take the Jupiter branch. *)
Definition bulkPriced (bulk : gmap string JupiterData) (m : string) : bool :=
  match bulk !! m with
  | Some d => negb (Qle_bool (jupPrice d) 0)
  | None => false
  end.

(** A bulk endpoint that prices every mint it is asked for at 2. *)
Definition flatFetch (chunk : list string) : BulkResponse :=
  BulkData (map (fun m => (m, 2%Q)) chunk).

(** The symbol the pre-fetch resolves for a mint of the batch. *)
Definition batchSymbol (h : Host) (swaps : list Swap) (m : string) : string :=
  match findToken swaps m with
  | Some _ => resolvedSymbol h (findToken swaps m) None
  | None => "Unknown"
  end.

(** A token whose metadata symbol is [constructor], and 1 SOL spent on
    it. *)
Definition constructorToken : Token := token "CtorMint111" "constructor" 5000.

Definition solToConstructor : Swap :=
  swapOf "sig-sol-ctor" "whale1" (token SOL_MINT "SOL" 1) constructorToken.

(** 120 mints [m0] ... and a bulk endpoint that throws on a chunk that
    starts with the 101st. *)
Definition manyMints : list string :=
  map (fun n => String "m" (String (ascii_of_nat (48 + n / 50))
                  (String (ascii_of_nat (48 + (n mod 50) / 10))
                     (String (ascii_of_nat (48 + n mod 10)) EmptyString))))
      (seq 0 120).

Definition failingFetch (chunk : list string) : BulkResponse :=
  match chunk with
  | first :: _ => if String.eqb first "m200" then BulkThrows else flatFetch chunk
  | [] => BulkNotOk
  end.


(** ** The menus of [bot.js] *)

(** What [showMainMenu] puts on the screen, as far as it depends on the
    profile: the mode its first button names, whether its second button
    offers to turn notifications on, and the status lines. *)
Record Menu : Type := mkMenu {
  modeButtonText : Mode;
  offersTurnOn : bool;
  currentModeName : Mode;
  statusOn : bool
}.

Definition mainMenuOf (processedFilters : Filters) : Menu :=
  let currentMode :=
    if first_mention_only processedFilters then FirstMention
    else if negb (monitor_all processedFilters) then TokenFilter
    else AllTokens in
  {| modeButtonText := match currentMode with
                       | AllTokens => TokenFilter
                       | TokenFilter => FirstMention
                       | FirstMention => AllTokens
                       end;
     offersTurnOn := if notifications_enabled processedFilters then false else true;
     currentModeName := currentMode;
     statusOn := notifications_enabled processedFilters |}.

(** [showMainMenu]: the rows are read, processed and shown; a failure
    to send is swallowed. *)
Definition showMainMenu (h : Host) (chatId : Z) : M (res Menu) :=
  try* filters := getUserFilters chatId in
  ret (Ok (mainMenuOf (processFilters h (DbRows filters)))).


(** The short names [showFilters] puts into the data of its buttons. *)
Definition shortTypes : list (string * string) :=
  [ ("token_whitelist", "tw"); ("min_purchase", "mp"); ("max_market_cap", "mc");
    ("token_blacklist", "tb"); ("whale_blacklist", "wb") ].

(** [`${index}`] *)
Definition decimal (n : nat) : string :=
  DecimalString.NilEmpty.string_of_uint (Nat.to_uint n).

(** The delete buttons of one group, [typeFilters.forEach((filter, index) => ...)]:
    each with the value its label is cut from and its callback data. *)
Fixpoint buttonsFrom (short : string) (index : nat) (typeFilters : list FilterRow)
  : list (string * string) :=
  match typeFilters with
  | [] => []
  | f :: rest =>
      (filter_value f, deleteButton short (decimal index))
      :: buttonsFrom short (S index) rest
  end.

Definition filterButtons (filters : list FilterRow) : list (string * string) :=
  flat_map (fun ty =>
              buttonsFrom (render (assoc ty shortTypes)) 0 (rowsOfType (Some ty) filters))
           filterGroups.

(** [showFilters]: the delete buttons of the list it sends (none with
    the message that there are no filters). *)
Definition showFilters (chatId : Z) : M (res (list (string * string))) :=
  try* filters := getUserFilters chatId in
  if Nat.eqb (List.length filters) 0 then ret (Ok [])
  else ret (Ok (filterButtons filters)).


(** A [parseInt] that reads unsigned decimal numerals of any length
    and nothing else. *)
Definition decimalParseInt (s : string) : option Z :=
  match s with
  | EmptyString => None
  | _ => option_map (fun d => Z.of_nat (Nat.of_uint d))
                    (DecimalString.NilEmpty.uint_of_string s)
  end.






(** * Properties *)

(** ** processFilters *)

Ltac row_cases H r :=
  unfold applyRow; cbv zeta;
  repeat match goal with
         | |- context [String.eqb (filter_type r) ?c] =>
             destruct (String.eqb_spec (filter_type r) c) as [?E|?E];
             [ try reflexivity; exfalso; eapply H; eauto using in_eq | ]
         end;
  reflexivity.

Ltac fold_keeps :=
  let rows := fresh "rows" in
  let r := fresh "r" in
  let IH := fresh "IH" in
  let f := fresh "f" in
  let H := fresh "H" in
  intros rows; induction rows as [|r rows IH]; intros f H; simpl;
  [ reflexivity
  | rewrite IH by (intros; eapply H; eauto using in_cons); row_cases H r ].

Lemma fold_keeps_tokens h : forall rows f,
  (forall r, In r rows -> filter_type r <> "token_whitelist") ->
  tokens (fold_left (applyRow h) rows f) = tokens f.
Proof. fold_keeps. Qed.

Lemma fold_keeps_blacklist h : forall rows f,
  (forall r, In r rows -> filter_type r <> "token_blacklist") ->
  blacklist (fold_left (applyRow h) rows f) = blacklist f.
Proof. fold_keeps. Qed.

Lemma fold_keeps_whale_blacklist h : forall rows f,
  (forall r, In r rows -> filter_type r <> "whale_blacklist") ->
  whale_blacklist (fold_left (applyRow h) rows f) = whale_blacklist f.
Proof. fold_keeps. Qed.

Lemma fold_keeps_min_purchase h : forall rows f,
  (forall r, In r rows -> filter_type r <> "min_purchase") ->
  min_purchase (fold_left (applyRow h) rows f) = min_purchase f.
Proof. fold_keeps. Qed.

Lemma fold_keeps_max_market_cap h : forall rows f,
  (forall r, In r rows -> filter_type r <> "max_market_cap") ->
  max_market_cap (fold_left (applyRow h) rows f) = max_market_cap f.
Proof. fold_keeps. Qed.

Lemma fold_keeps_monitor_all h : forall rows f,
  (forall r, In r rows -> filter_type r <> "monitor_all") ->
  monitor_all (fold_left (applyRow h) rows f) = monitor_all f.
Proof. fold_keeps. Qed.

Lemma fold_keeps_notifications_enabled h : forall rows f,
  (forall r, In r rows -> filter_type r <> "notifications_enabled") ->
  notifications_enabled (fold_left (applyRow h) rows f) = notifications_enabled f.
Proof. fold_keeps. Qed.

Lemma fold_keeps_first_mention_only h : forall rows f,
  (forall r, In r rows -> filter_type r <> "first_mention_only") ->
  first_mention_only (fold_left (applyRow h) rows f) = first_mention_only f.
Proof. fold_keeps. Qed.

(** C9.  Handed [null], [undefined] or anything that is not an array,
    [processFilters] returns the default profile: the three lists empty,
    [min_purchase] and [max_market_cap] null, [monitor_all] true,
    [first_mention_only] false and [notifications_enabled] false.  Handed
    an array of rows, every field whose filter type occurs in no row has
    that same default. *)
Theorem processFilters_defaults (h : Host) (dbFilters : DbFilters)
    (Hnot_array : forall rows, dbFilters <> DbRows rows) :
  processFilters h dbFilters
  = {| tokens := []; blacklist := []; whale_blacklist := [];
       min_purchase := None; max_market_cap := None; monitor_all := true;
       notifications_enabled := false; first_mention_only := false |}
  /\ forall rows : list FilterRow,
       let f := processFilters h (DbRows rows) in
       let absent ty := forall r, In r rows -> filter_type r <> ty in
       (absent "token_whitelist" -> tokens f = [])
       /\ (absent "token_blacklist" -> blacklist f = [])
       /\ (absent "whale_blacklist" -> whale_blacklist f = [])
       /\ (absent "min_purchase" -> min_purchase f = None)
       /\ (absent "max_market_cap" -> max_market_cap f = None)
       /\ (absent "monitor_all" -> monitor_all f = true)
       /\ (absent "notifications_enabled" -> notifications_enabled f = false)
       /\ (absent "first_mention_only" -> first_mention_only f = false).
Proof.
  split.
  - destruct dbFilters as [| | |rows]; try reflexivity.
    exfalso. exact (Hnot_array rows eq_refl).
  - intros rows f absent. subst f absent. cbn [processFilters].
    repeat split; intros Habs.
    + now rewrite fold_keeps_tokens.
    + now rewrite fold_keeps_blacklist.
    + now rewrite fold_keeps_whale_blacklist.
    + now rewrite fold_keeps_min_purchase.
    + now rewrite fold_keeps_max_market_cap.
    + now rewrite fold_keeps_monitor_all.
    + now rewrite fold_keeps_notifications_enabled.
    + now rewrite fold_keeps_first_mention_only.
Qed.

Lemma processFilters_defaults_witness :
  (forall rows, DbUndefined <> DbRows rows)
  /\ processFilters quietHost DbUndefined = defaultFilters
  /\ notifications_enabled
       (processFilters quietHost
          (DbRows [ {| filter_type := "token_whitelist"; filter_value := "BONK" |} ]))
     = false.
Proof.
  assert (Hna : forall rows, DbUndefined <> DbRows rows) by (intros rows; discriminate).
  split; [exact Hna|].
  destruct (processFilters_defaults quietHost DbUndefined Hna) as [Hdef Hrows].
  split; [exact Hdef|].
  apply (Hrows [ {| filter_type := "token_whitelist"; filter_value := "BONK" |} ]).
  intros r [<-|[]]. simpl. discriminate.
Defined.

(** ** Notifications switched off *)

(** C2.  With [notifications_enabled] false in the processed profile,
    [matchesFilters] (and [shouldNotify] on rows processed to such a
    profile) returns [matches = false] and [isFirstMention = false] for
    every swap, and hands back the delivery history it was given. *)
Theorem notifications_off_rejects (h : Host) (ups : gmap Z (list string))
    (swap : Swap) (uf : Filters) (fm : option (list string)) (uid : Z)
    (cache : option (gmap string TokenData))
    (Hoff : notifications_enabled uf = false) :
  matchesFilters h ups swap uf fm uid cache
  = (ups, Returned AtDisabled {| matches := false; isFirstMention := false |})
  /\ forall rows,
       processFilters h rows = uf ->
       shouldNotify h ups uid swap rows fm cache
       = (ups, Returned AtDisabled {| matches := false; isFirstMention := false |}).
Proof.
  assert (Hm : matchesFilters h ups swap uf fm uid cache
               = (ups, Returned AtDisabled rejected)).
  { unfold matchesFilters. rewrite Hoff. reflexivity. }
  split; [exact Hm|].
  intros rows Hrows. unfold shouldNotify. rewrite Hrows. exact Hm.
Qed.

Lemma notifications_off_rejects_witness :
  notifications_enabled (processFilters quietHost DbNull) = false
  /\ shouldNotify quietHost ∅ 7 solToBonk DbNull None None
     = (∅, Returned AtDisabled {| matches := false; isFirstMention := false |}).
Proof.
  split; [reflexivity|].
  apply (notifications_off_rejects quietHost ∅ solToBonk
           (processFilters quietHost DbNull) None 7 None eq_refl).
  reflexivity.
Defined.

(** ** The conversion filter *)

(** A promise is never [===] a string and never included in an array of
    strings. *)
Lemma promise_never_a_symbol (p : Promise string) (s : string) (l : list string) :
  strictEq (JPromise p) (JString s) = false /\ includes l (JPromise p) = false.
Proof.
  split; [reflexivity|].
  induction l as [|x l IH]; [reflexivity|]. simpl. exact IH.
Qed.

(** The return inside the conversion filter is dead: no call leaves
    [matchesFilters] there. *)
Lemma conversion_return_unreachable h ups swap uf fm uid cache ups' v :
  matchesFilters h ups swap uf fm uid cache <> (ups', Returned AtConversion v).
Proof.
  unfold matchesFilters, symbolNotAwaited.
  rewrite !(proj2 (promise_never_a_symbol _ "" _)).
  cbn [strictEq andb orb].
  repeat match goal with
         | |- context [if ?c then _ else _] => destruct c
         | |- context [match ?c with _ => _ end] => destruct c
         end; intros E; inversion E.
Qed.

(** C3, at the failing input: 1 SOL sold for 100 USDC.  Both symbols
    resolve as the filter expects (SOL, and USDC which is one of the six
    stablecoins), yet the swap is delivered to a user with an otherwise
    empty profile. *)
Theorem conversion_swap_is_delivered :
  await (getTokenSymbol quietHost (inputToken solToUsdc) None) = "SOL"
  /\ await (getTokenSymbol quietHost (outputToken solToUsdc) None) = "USDC"
  /\ In "USDC" recognizedStablecoins
  /\ matchesFilters quietHost ∅ solToUsdc enabledProfile None 1 None
     = (<[1 := ["sig-sol-usdc"]]> ∅,
        Returned AtEnd {| matches := true; isFirstMention := false |}).
Proof.
  split; [reflexivity|]. split; [reflexivity|].
  split; [simpl; tauto|]. vm_compute. reflexivity.
Qed.

(** ** Buy or sell *)

Lemma includes_In (l : list string) (s : string) :
  includes l (JString s) = true <-> In s l.
Proof.
  unfold includes. rewrite existsb_exists. split.
  - intros [x [Hin Heq]]. simpl in Heq. apply String.eqb_eq in Heq. now subst.
  - intros Hin. exists s. split; [exact Hin|]. simpl. apply String.eqb_refl.
Qed.

Lemma includes_undefined (l : list string) : includes l JUndefined = false.
Proof. induction l as [|x l IH]; [reflexivity|]. simpl. exact IH. Qed.

(** What [isBuyTransaction] decides: a buy exactly when there is an
    output token whose metadata symbol is none of the four symbols of its
    own list and is not SOL. *)
Lemma isBuyTransaction_spec (swap : Swap) :
  isBuyTransaction swap = true
  <-> exists out, outputToken swap = Some out
                  /\ (forall s, metaSymbol out = Some s ->
                                ~ In s ["USDC"; "USDT"; "BUSD"; "USD1"] /\ s <> "SOL").
Proof.
  unfold isBuyTransaction. destruct (outputToken swap) as [out|].
  2:{ split; [discriminate|]. intros [out [E _]]. discriminate. }
  destruct (metaSymbol out) as [s|] eqn:Hs; cbn [of_opt].
  - destruct (includes _ (JString s)) eqn:Hinc.
    + apply includes_In in Hinc. split; [discriminate|].
      intros [o [E H]]. injection E as <-. destruct (H s Hs) as [Hn _]. contradiction.
    + assert (Hnin : ~ In s ["USDC"; "USDT"; "BUSD"; "USD1"]).
      { intros Hin. apply includes_In in Hin. congruence. }
      cbn [strictEq]. destruct (String.eqb_spec s "SOL") as [E|E]; cbn [negb].
      * split; [discriminate|]. intros [o [Eo H]]. injection Eo as <-.
        destruct (H s Hs) as [_ Hn]. contradiction.
      * split; [|reflexivity]. intros _. exists out. split; [reflexivity|].
        intros s' Es'. rewrite Hs in Es'. injection Es' as <-. split; assumption.
  - rewrite includes_undefined. cbn. split; [|reflexivity].
    intros _. exists out. split; [reflexivity|]. intros s' Es'. congruence.
Qed.

(** C7, at the failing input: 5000 BONK swapped into 40 DAI.  DAI is one
    of the recognized stablecoins, the valuation prices it at one dollar
    a piece, and the classifier calls the swap a buy (of DAI). *)
Theorem dai_output_classified_as_buy :
  (outputToken bonkToDai ≫= metaSymbol) = Some "DAI"
  /\ In "DAI" recognizedStablecoins
  /\ sideValueUSD quietHost None (outputToken bonkToDai) = Some 40%Q
  /\ isBuyTransaction bonkToDai = true
  /\ relevantTokenOf bonkToDai = outputToken bonkToDai.
Proof.
  split; [reflexivity|]. split; [simpl; tauto|].
  repeat split; reflexivity.
Qed.

(** ** USD valuation *)

Lemma truthy_Some (s : string) : truthy (Some s) = true <-> s <> "".
Proof.
  unfold truthy. destruct (String.eqb_spec s "") as [E|E]; cbn [negb].
  - split; [discriminate|]. intros H. contradiction.
  - split; [intros _; exact E|reflexivity].
Qed.

Lemma truthy_inv (o : option string) :
  truthy o = true -> exists s, o = Some s /\ s <> "".
Proof.
  destruct o as [s|]; [|discriminate]. intros H. exists s.
  split; [reflexivity|]. now apply truthy_Some.
Qed.

Lemma positive_price (p : Q) : negb (Qle_bool p 0) = true <-> (0 < p)%Q.
Proof.
  rewrite negb_true_iff. split.
  - intros H. apply Qnot_le_lt. intros Hle. apply Qle_bool_iff in Hle. congruence.
  - intros H. destruct (Qle_bool p 0) eqn:E; [|reflexivity].
    apply Qle_bool_iff in E. exfalso. exact (Qlt_not_le _ _ H E).
Qed.

Lemma valuation_stablecoins (s : string) :
  In s ["USDC"; "USDT"; "BUSD"; "DAI"; "FRAX"; "USD1"] <-> In s recognizedStablecoins.
Proof. unfold recognizedStablecoins. simpl. tauto. Qed.

Lemma stablecoin_nonempty (s : string) : In s recognizedStablecoins -> s <> "".
Proof.
  unfold recognizedStablecoins. simpl. intros H E. subst s.
  repeat (destruct H as [H|H]; [discriminate|]). exact H.
Qed.

Lemma sol_not_stablecoin : ~ In "SOL" recognizedStablecoins.
Proof.
  unfold recognizedStablecoins. simpl. intros H.
  repeat (destruct H as [H|H]; [discriminate|]). exact H.
Qed.

(** Each side of the code yields exactly what the rule says it yields. *)
Lemma sideValueUSD_yields h cache (t : option Token) (v : Q) :
  sideValueUSD h cache t = Some v <-> SideYields h cache t v.
Proof.
  split.
  - destruct t as [t|]; [|discriminate]. unfold sideValueUSD.
    destruct (truthy (metaSymbol t)) eqn:Ht; [|discriminate].
    destruct (truthy_inv _ Ht) as [s [Hs Hne]]. rewrite Hs. cbn [of_opt].
    destruct (includes _ (JString s)) eqn:Hinc.
    { intros E. injection E as <-. apply includes_In, valuation_stablecoins in Hinc.
      eapply yields_stable; eauto. }
    cbn [strictEq]. destruct (String.eqb_spec s "SOL") as [E|E].
    { intros Ev. injection Ev as <-. subst s. now apply yields_native. }
    destruct (truthy (mint t)) eqn:Hm; [|discriminate].
    destruct (truthy_inv _ Hm) as [m [Hmint Hmne]]. rewrite Hmint.
    destruct (negb (Qle_bool _ 0)) eqn:Hp; [|discriminate].
    intros Ev. injection Ev as <-. apply positive_price in Hp.
    eapply yields_priced; eauto.
    intros Hin. apply valuation_stablecoins, includes_In in Hin. congruence.
  - intros Hy. destruct Hy as [t s Hs Hin | t Hs | t s m Hs Hne Hnin Hnsol Hm Hmne Hp];
      unfold sideValueUSD; rewrite Hs.
    + rewrite (proj2 (truthy_Some s) (stablecoin_nonempty s Hin)). cbn [of_opt].
      now rewrite (proj2 (includes_In _ s) (proj2 (valuation_stablecoins s) Hin)).
    + reflexivity.
    + rewrite (proj2 (truthy_Some s) Hne). cbn [of_opt].
      destruct (includes _ (JString s)) eqn:Hinc.
      { apply includes_In, valuation_stablecoins in Hinc. contradiction. }
      cbn [strictEq]. destruct (String.eqb_spec s "SOL") as [E|E]; [contradiction|].
      rewrite Hm, (proj2 (truthy_Some m) Hmne).
      now rewrite (proj2 (positive_price _) Hp).
Qed.

(** C6.  The USD value of a swap is what its input token yields; when the
    input yields nothing, what its output token yields; and 0 when
    neither does.  A side yields its amount when its symbol is a
    recognized stablecoin, its amount times the resolved SOL price (220
    when unresolved) when its symbol is SOL, and otherwise its amount
    times its resolved price when that price is positive. *)
Theorem valuation_rule (h : Host) (swap : Swap)
    (cache : option (gmap string TokenData)) :
  let value := calculateSwapValueUSD h swap cache in
  (forall v, SideYields h cache (inputToken swap) v -> value = v)
  /\ ((forall v, ~ SideYields h cache (inputToken swap) v) ->
      forall v, SideYields h cache (outputToken swap) v -> value = v)
  /\ ((forall v, ~ SideYields h cache (inputToken swap) v) ->
      (forall v, ~ SideYields h cache (outputToken swap) v) ->
      value = 0%Q).
Proof.
  cbv zeta. unfold calculateSwapValueUSD.
  destruct (sideValueUSD h cache (inputToken swap)) as [vi|] eqn:Hi.
  - apply sideValueUSD_yields in Hi. repeat split.
    + intros v Hv. apply sideValueUSD_yields in Hv, Hi. congruence.
    + intros Hno. exfalso. exact (Hno vi Hi).
    + intros Hno. exfalso. exact (Hno vi Hi).
  - assert (Hnone : forall v, ~ SideYields h cache (inputToken swap) v).
    { intros v Hv. apply sideValueUSD_yields in Hv. congruence. }
    split; [intros v Hv; exfalso; exact (Hnone v Hv)|].
    destruct (sideValueUSD h cache (outputToken swap)) as [vo|] eqn:Ho.
    + split.
      * intros _ v Hv. apply sideValueUSD_yields in Hv. congruence.
      * intros _ Hno. exfalso. apply (Hno vo). now apply sideValueUSD_yields.
    + split; [|reflexivity].
      intros _ v Hv. apply sideValueUSD_yields in Hv. congruence.
Qed.

Lemma valuation_rule_witness :
  SideYields quietHost None (inputToken usdcToSol) 100%Q
  /\ calculateSwapValueUSD quietHost usdcToSol None = 100%Q
  /\ calculateSwapValueUSD quietHost solToBonk None = (1 * 220)%Q.
Proof.
  assert (Hs : SideYields quietHost None (inputToken usdcToSol) 100%Q).
  { apply (yields_stable quietHost None (token USDC_MINT "USDC" 100) "USDC");
      [reflexivity | simpl; tauto]. }
  split; [exact Hs|]. split.
  - exact (proj1 (valuation_rule quietHost usdcToSol None) _ Hs).
  - apply (proj1 (valuation_rule quietHost solToBonk None)).
    apply (yields_native quietHost None (token SOL_MINT "SOL" 1)). reflexivity.
Defined.

(** ** The shape of a return of [matchesFilters] *)

Lemma every_is_and (a b c d : bool) :
  forallb (fun check => Bool.eqb check true) [a; b; c; d] = (a && b && c && d)%bool.
Proof. destruct a, b, c, d; reflexivity. Qed.

Lemma every_is_and_unfolded (a b c d : bool) :
  (Bool.eqb a true && (Bool.eqb b true && (Bool.eqb c true && (Bool.eqb d true && true))))%bool
  = (a && b && c && d)%bool.
Proof. exact (every_is_and a b c d). Qed.

Lemma historyOf_ensureSet ups uid :
  default [] (ensureSet ups uid !! uid) = historyOf ups uid.
Proof.
  unfold ensureSet, historyOf. destruct (ups !! uid) as [s|] eqn:E.
  - now rewrite E.
  - now rewrite lookup_insert_eq.
Qed.

Lemma historyOf_ensureSet_any ups uid u :
  historyOf (ensureSet ups uid) u = historyOf ups u.
Proof.
  unfold ensureSet, historyOf. destruct (ups !! uid) eqn:E; [reflexivity|].
  destruct (decide (uid = u)) as [->|Hne].
  - now rewrite lookup_insert_eq, E.
  - now rewrite lookup_insert_ne.
Qed.

Lemma conversion_filter_off h (i o : option Token) :
  ((strictEq (symbolNotAwaited h i) (JString "SOL")
    && includes stablecoinsOfFilter (symbolNotAwaited h o))
   || (strictEq (symbolNotAwaited h o) (JString "SOL")
       && includes stablecoinsOfFilter (symbolNotAwaited h i)))%bool = false.
Proof. reflexivity. Qed.

Ltac head_case :=
  match goal with
  | |- (if ?c then _ else _) = _ -> _ => destruct c eqn:?
  | |- (match ?c with _ => _ end) = _ -> _ => destruct c eqn:?
  end.

Ltac early_return :=
  let E := fresh "E" in
  intros E; injection E as <- <- <-; left; split; [discriminate | reflexivity].

(** A return is either one of the early ones, with both flags false, or
    the final one, reached with every global gate passed and carrying
    the conjunction of the four user-level checks and the computed
    first-mention flag. *)
Lemma matchesFilters_inv h ups swap uf fm uid cache ups' site v :
  matchesFilters h ups swap uf fm uid cache = (ups', Returned site v) ->
  (site <> AtEnd /\ v = rejected)
  \/ (site = AtEnd
      /\ notifications_enabled uf = true
      /\ set_has (historyOf ups uid) (swapIdOf swap) = false
      /\ (isSpamMint (mintOf (inputToken swap)) || isSpamMint (mintOf (outputToken swap)))%bool = false
      /\ (includes hardcodedBlacklist (of_opt (mintOf (inputToken swap)))
          || includes hardcodedBlacklist (of_opt (mintOf (outputToken swap))))%bool = false
      /\ includes hardcodedWhaleBlacklist (of_opt (feePayer swap)) = false
      /\ exists tok tc,
           relevantTokenOf swap = Some tok
           /\ tokenCheckOf h uf tok = Ok tc
           /\ matches v
              = (tc && checkWhaleBlacklist (feePayer swap) (whale_blacklist uf)
                 && checkMinimumPurchase (calculateSwapValueUSD h swap cache) (min_purchase uf)
                 && marketCapCheckOf h uf cache tok)%bool
           /\ isFirstMention v = computedFirstMention fm swap
           /\ ups' = if matches v
                     then <[uid := recordSwap (historyOf ups uid) (swapIdOf swap)]> (ensureSet ups uid)
                     else ensureSet ups uid).
Proof.
  unfold matchesFilters. cbv zeta. fold (ensureSet ups uid).
  rewrite historyOf_ensureSet, conversion_filter_off.
  fold (tokenCheckOf h uf).
  destruct (notifications_enabled uf) eqn:Hen; cbn [negb]; [|early_return].
  head_case; [early_return|].
  head_case; [early_return|].
  head_case; [early_return|].
  head_case; [|early_return].
  head_case; [early_return|].
  head_case; [|discriminate].
  head_case; [early_return|].
  intros E. injection E as <- <- <-. right. cbn [matches isFirstMention].
  rewrite every_is_and_unfolded.
  repeat (split; [first [reflexivity | assumption]|]).
  eexists _, _. repeat (split; [first [reflexivity | eassumption]|]).
  reflexivity.
Qed.

(** ** The market-cap filter *)

Lemma num_gt0_truthy (n : num) :
  num_gt0 n = true -> num_truthy n = true /\ num_le0 n = false.
Proof.
  destruct n as [| |q|]; cbn; try discriminate; try (split; reflexivity).
  intros H. apply negb_true_iff in H. split; [|exact H].
  apply negb_true_iff. destruct (Qeq_bool q 0) eqn:E; [|reflexivity].
  apply Qeq_bool_iff in E.
  assert (Hle : Qle_bool q 0 = true) by (apply Qle_bool_iff; rewrite E; apply Qle_refl).
  congruence.
Qed.

Lemma checkMarketCap_active h tok mx cache :
  num_gt0 mx = true ->
  checkMarketCap h tok (Some mx) cache
  = (negb (cap_is0 (marketCap (marketCapData h cache tok)))
     && cap_le_num (marketCap (marketCapData h cache tok)) mx)%bool.
Proof.
  intros Hgt. destruct (num_gt0_truthy mx Hgt) as [Ht Hle].
  unfold checkMarketCap. rewrite Ht, Hle. cbn [negb orb].
  destruct (isHardcodedSupply _); destruct (cap_is0 _); reflexivity.
Qed.

(** An active market-cap check passes only on a market cap that is a
    number, not 0 and at most the maximum. *)
Lemma checkMarketCap_passes h tok mx cache :
  num_gt0 mx = true ->
  checkMarketCap h tok (Some mx) cache = true ->
  exists mc, marketCap (marketCapData h cache tok) = Cap mc
             /\ Qeq_bool mc 0 = false /\ q_le_num mc mx = true.
Proof.
  intros Hgt. rewrite checkMarketCap_active by exact Hgt.
  destruct (marketCap (marketCapData h cache tok)) as [mc|]; cbn [cap_is0 cap_le_num].
  - intros H. apply andb_true_iff in H as [Hnz Hle]. apply negb_true_iff in Hnz. eauto.
  - discriminate.
Qed.

Lemma checkMarketCap_inactive h tok (mxo : option num) cache :
  (forall mx, mxo = Some mx -> num_gt0 mx = false) ->
  checkMarketCap h tok mxo cache = true.
Proof.
  intros Hoff. destruct mxo as [mx|]; [|reflexivity].
  specialize (Hoff mx eq_refl). unfold checkMarketCap.
  destruct mx as [| |q|]; cbn in *; try reflexivity; try discriminate.
  apply negb_false_iff in Hoff. rewrite Hoff, orb_true_r. reflexivity.
Qed.

Lemma knownSupply_positive (m : option string) (sym : jsval) (q : Q) :
  getTokenSupply m sym = Some (Supply q) -> (0 < q)%Q.
Proof.
  unfold getTokenSupply.
  assert (Htable : forall s q0, assoc s knownSupplies = Some q0 -> (0 < q0)%Q).
  { intros s q0. unfold knownSupplies. cbn [assoc].
    repeat match goal with
           | |- context [String.eqb s ?c] => destruct (String.eqb s c)
           end; intros [= <-] || discriminate; reflexivity. }
  destruct (supplyOf sym) as [v|] eqn:Hs.
  - intros [= ->]. destruct sym as [|s|p]; try discriminate. cbn [supplyOf] in Hs.
    destruct (assoc s knownSupplies) as [q0|] eqn:Ha.
    + injection Hs as Hq. subst q0. exact (Htable s q Ha).
    + destruct (existsb _ _); discriminate.
  - repeat match goal with
           | |- context [if ?c then _ else _] => destruct c
           end; intros [= <-] || discriminate; reflexivity.
Qed.

(** The supply table answers with an inherited member exactly for a
    symbol that is a string, not one of its keys, and a name of
    [Object.prototype]. *)
Lemma getTokenSupply_inherited (m : option string) (sym : jsval) :
  getTokenSupply m sym = Some InheritedMember <-> inheritedSymbol sym = true.
Proof.
  unfold getTokenSupply, inheritedSymbol, supplyOf.
  destruct sym as [|s|p].
  - repeat match goal with
           | |- context [if ?c then _ else _] => destruct c
           end; split; discriminate.
  - destruct (assoc s knownSupplies); [split; discriminate|].
    destruct (existsb (String.eqb s) inheritedKeys); [split; reflexivity|].
    repeat match goal with
           | |- context [if ?c then _ else _] => destruct c
           end; split; discriminate.
  - repeat match goal with
           | |- context [if ?c then _ else _] => destruct c
           end; split; discriminate.
Qed.

(** What [getTokenData] reports as market cap: NaN exactly when the
    symbol names an inherited member and there is a price, and otherwise
    a number that is not negative when DexScreener reports none. *)
Lemma getTokenData_market_cap h m sym :
  (forall k, (0 <= dexMarketCap (getDexScreenerData h k))%Q) ->
  (marketCap (getTokenData h m sym) = CapNaN
   <-> inheritedSymbol sym = true /\ (0 < price (getTokenData h m sym))%Q)
  /\ capNonneg (marketCap (getTokenData h m sym)).
Proof.
  intros Hfeed. unfold getTokenData. cbv zeta.
  destruct (getTokenSupply m sym) as [[q|]|] eqn:Hs; cbn [marketCap price].
  - assert (Hnot : inheritedSymbol sym = false).
    { destruct (inheritedSymbol sym) eqn:E; [|reflexivity].
      apply getTokenSupply_inherited with (m := m) in E. congruence. }
    destruct (negb (Qle_bool _ 0)) eqn:Hp; cbn [timesSupply capNonneg].
    + split; [split; [discriminate|intros [E _]; congruence]|].
      apply positive_price in Hp. apply knownSupply_positive in Hs.
      apply Qlt_le_weak. now apply Qmult_lt_0_compat.
    + split; [split; [discriminate|intros [E _]; congruence]|apply Qle_refl].
  - apply getTokenSupply_inherited in Hs.
    destruct (negb (Qle_bool _ 0)) eqn:Hp; cbn [timesSupply capNonneg].
    + apply positive_price in Hp. split; [|exact I]. split; auto.
    + split; [|apply Qle_refl]. split; [discriminate|].
      intros [_ Hpos]. apply positive_price in Hpos. congruence.
  - assert (Hnot : inheritedSymbol sym = false).
    { destruct (inheritedSymbol sym) eqn:E; [|reflexivity].
      apply getTokenSupply_inherited with (m := m) in E. congruence. }
    cbn [capNonneg]. split; [split; [discriminate|intros [E _]; congruence]|].
    unfold q_or. destruct (Qeq_bool _ 0); [apply Qle_refl|apply Hfeed].
Qed.

(** Market caps resolved from feeds and caches that report no negative
    market cap are not negative; off the cache they are numbers. *)
Lemma resolved_market_cap_nonneg h cache tok :
  (forall m, (0 <= dexMarketCap (getDexScreenerData h m))%Q) ->
  (forall c k d, cache = Some c -> c !! k = Some d -> capNonneg (marketCap d)) ->
  capNonneg (marketCap (marketCapData h cache tok)).
Proof.
  intros Hfeed Hcache.
  assert (Hfetch : forall m sym, capNonneg (marketCap (getTokenData h m sym)))
    by (intros m sym; apply getTokenData_market_cap, Hfeed).
  unfold marketCapData, cachedOrFetched. destruct cache as [c|]; [|apply Hfetch].
  destruct (mint tok ≫= (fun k => c !! k)) as [d|] eqn:Hd; [|apply Hfetch].
  destruct (mint tok) as [k|]; [|discriminate]. cbn in Hd. now apply (Hcache c k d).
Qed.

(** A match is always a return at the end of the function. *)
Lemma match_is_final h ups swap uf fm uid cache ups' site v :
  matchesFilters h ups swap uf fm uid cache = (ups', Returned site v) ->
  matches v = true ->
  exists tok tc,
    relevantTokenOf swap = Some tok
    /\ tokenCheckOf h uf tok = Ok tc
    /\ tc = true
    /\ checkWhaleBlacklist (feePayer swap) (whale_blacklist uf) = true
    /\ checkMinimumPurchase (calculateSwapValueUSD h swap cache) (min_purchase uf) = true
    /\ marketCapCheckOf h uf cache tok = true
    /\ set_has (historyOf ups uid) (swapIdOf swap) = false
    /\ ups' = <[uid := recordSwap (historyOf ups uid) (swapIdOf swap)]> (ensureSet ups uid).
Proof.
  intros Hcall Hm. destruct (matchesFilters_inv _ _ _ _ _ _ _ _ _ _ Hcall)
    as [[_ ->] | (_ & _ & Hdup & _ & _ & _ & tok & tc & Hrel & Htc & Hv & _ & Hups)].
  - discriminate.
  - rewrite Hm in Hv, Hups. symmetry in Hv.
    apply andb_true_iff in Hv as [Hv Hmc].
    apply andb_true_iff in Hv as [Hv Hmin].
    apply andb_true_iff in Hv as [Htrue Hwh].
    exists tok, tc. repeat (split; [assumption|]). assumption.
Qed.

(** C5.  While [max_market_cap] is set and positive, a swap matches only
    if the market cap resolved for its relevant token is a number,
    non-zero and at most the maximum, hence strictly positive since
    resolved market caps are never negative; a token whose resolved
    market cap is 0 (or not a number) never matches.  When the filter is unset or not positive, the market-cap
    check passes and the filter has no effect on the evaluation. *)
Theorem market_cap_filter (h : Host) (ups : gmap Z (list string)) (swap : Swap)
    (uf : Filters) (fm : option (list string)) (uid : Z)
    (cache : option (gmap string TokenData)) :
  (forall mx ups' site v,
      capActive uf mx ->
      matchesFilters h ups swap uf fm uid cache = (ups', Returned site v) ->
      matches v = true ->
      exists tok mc, relevantTokenOf swap = Some tok
        /\ marketCap (marketCapData h cache tok) = Cap mc
        /\ ~ (mc == 0)%Q /\ q_le_num mc mx = true
        /\ ((0 <= mc)%Q -> (0 < mc)%Q))
  /\ (forall mx tok ups' site v,
        capActive uf mx ->
        relevantTokenOf swap = Some tok ->
        capUnknown (marketCap (marketCapData h cache tok)) ->
        matchesFilters h ups swap uf fm uid cache = (ups', Returned site v) ->
        matches v = false)
  /\ ((forall mx, ~ capActive uf mx) ->
      (forall tok, checkMarketCap h tok (max_market_cap uf) cache = true)
      /\ matchesFilters h ups swap uf fm uid cache
         = matchesFilters h ups swap (withoutMarketCap uf) fm uid cache).
Proof.
  assert (Hmain : forall mx ups' site v,
             capActive uf mx ->
             matchesFilters h ups swap uf fm uid cache = (ups', Returned site v) ->
             matches v = true ->
             exists tok mc, relevantTokenOf swap = Some tok
               /\ marketCap (marketCapData h cache tok) = Cap mc
               /\ Qeq_bool mc 0 = false
               /\ q_le_num mc mx = true).
  { intros mx ups' site v [Hset Hgt] Hcall Hm.
    destruct (match_is_final _ _ _ _ _ _ _ _ _ _ Hcall Hm)
      as (tok & tc & Hrel & _ & _ & _ & _ & Hmc & _).
    unfold marketCapCheckOf in Hmc. rewrite Hset in Hmc.
    rewrite (proj1 (num_gt0_truthy mx Hgt)), Hgt in Hmc. cbn [andb] in Hmc.
    destruct (checkMarketCap_passes h tok mx cache Hgt Hmc) as (mc & Hcap & Hnz & Hle).
    exists tok, mc. repeat (split; [assumption|]). assumption. }
  split; [|split].
  - intros mx ups' site v Hact Hcall Hm.
    destruct (Hmain mx ups' site v Hact Hcall Hm) as (tok & mc & Hrel & Hcap & Hnz & Hle).
    exists tok, mc. split; [exact Hrel|]. split; [exact Hcap|].
    assert (Hne : ~ (mc == 0)%Q).
    { intros E. apply Qeq_bool_iff in E. congruence. }
    split; [exact Hne|]. split; [exact Hle|].
    intros Hpos. destruct (Qle_lt_or_eq _ _ Hpos) as [Hlt|Heq]; [exact Hlt|].
    exfalso. apply Hne. symmetry. exact Heq.
  - intros mx tok ups' site v Hact Hrel Hzero Hcall.
    destruct (matches v) eqn:Hm; [|reflexivity].
    destruct (Hmain mx ups' site v Hact Hcall Hm) as (tok' & mc & Hrel' & Hcap & Hnz & _).
    rewrite Hrel in Hrel'. injection Hrel' as <-.
    rewrite Hcap in Hzero. cbn [capUnknown] in Hzero.
    apply Qeq_bool_iff in Hzero. congruence.
  - intros Hoff.
    assert (Hgate : forall mx, max_market_cap uf = Some mx -> num_gt0 mx = false).
    { intros mx Hset. destruct (num_gt0 mx) eqn:Hgt; [|reflexivity].
      exfalso. exact (Hoff mx (conj Hset Hgt)). }
    split.
    + intros tok. now apply checkMarketCap_inactive.
    + unfold matchesFilters. cbn [withoutMarketCap tokens blacklist whale_blacklist
        min_purchase max_market_cap monitor_all notifications_enabled first_mention_only].
      destruct (max_market_cap uf) as [mx|] eqn:Hset; [|reflexivity].
      rewrite (Hgate mx eq_refl), (andb_false_r (num_truthy mx)). reflexivity.
Qed.

Lemma market_cap_filter_witness :
  capActive capProfile (Fin 1000000%Q)
  /\ exists tok mc, relevantTokenOf solToBonk = Some tok
       /\ marketCap (marketCapData quietHost (Some bonkCache) tok) = Cap mc
       /\ (0 < mc)%Q
       /\ q_le_num mc (Fin 1000000%Q) = true.
Proof.
  assert (Hact : capActive capProfile (Fin 1000000%Q)) by (split; reflexivity).
  split; [exact Hact|].
  assert (Hcall : matchesFilters quietHost ∅ solToBonk capProfile None 1 (Some bonkCache)
                  = (<[1 := ["sig-sol-bonk"]]> ∅,
                     Returned AtEnd {| matches := true; isFirstMention := false |})).
  { vm_compute. reflexivity. }
  destruct (proj1 (market_cap_filter quietHost ∅ solToBonk capProfile None 1 (Some bonkCache))
              _ _ _ _ Hact Hcall eq_refl) as (tok & mc & Hrel & Hcap & _ & Hle & Hpos).
  exists tok, mc. split; [exact Hrel|]. split; [exact Hcap|]. split; [|exact Hle].
  apply Hpos. injection Hrel as <-. injection Hcap as <-. vm_compute. discriminate.
Defined.

(** ** The first-mention flag of a rejection *)



(** ** The token-direction check *)

(** On a non-empty list both token checks call [toLowerCase] on the
    promise of [getTokenSymbol] and throw. *)
Lemma token_check_outcomes h uf tok :
  tokenCheckOf h uf tok
  = if monitor_all uf
    then (if Nat.eqb (List.length (blacklist uf)) 0 then Ok true else Err TypeError)
    else (if Nat.eqb (List.length (tokens uf)) 0 then Ok false else Err TypeError).
Proof.
  unfold tokenCheckOf, checkBlacklist, checkTokenWhitelist.
  destruct (monitor_all uf); reflexivity.
Qed.

(** In Token Filter mode an empty whitelist rejects every swap. *)
Lemma empty_whitelist_rejects h ups swap uf fm uid cache :
  monitor_all uf = false -> tokens uf = [] ->
  exists ups' site v,
    matchesFilters h ups swap uf fm uid cache = (ups', Returned site v)
    /\ matches v = false.
Proof.
  intros Hmode Hempty. unfold matchesFilters. cbv zeta.
  rewrite Hmode, Hempty. cbn [checkTokenWhitelist List.length Nat.eqb].
  repeat match goal with
         | |- exists _ _ _, (if ?c then _ else _) = _ /\ _ => destruct c
         | |- exists _ _ _, (match ?c with _ => _ end) = _ /\ _ => destruct c
         end;
    eexists _, _, _; (split; [reflexivity|reflexivity]).
Qed.

(** A match is only ever returned in monitor-all mode with an empty
    blacklist: no swap matches in Token Filter mode, whatever the
    whitelist. *)
Lemma match_needs_no_list h ups swap uf fm uid cache ups' site v :
  matchesFilters h ups swap uf fm uid cache = (ups', Returned site v) ->
  matches v = true ->
  monitor_all uf = true /\ blacklist uf = [].
Proof.
  intros Hcall Hm.
  destruct (match_is_final _ _ _ _ _ _ _ _ _ _ Hcall Hm)
    as (tok & tc & _ & Htc & -> & _).
  rewrite token_check_outcomes in Htc.
  destruct (monitor_all uf).
  - split; [reflexivity|]. destruct (blacklist uf); [reflexivity|discriminate].
  - destruct (tokens uf); discriminate.
Qed.

(** C4, at the failing input.  Token Filter mode with the whitelist
    [SOL], notifications on, SOL bought with 100 USDC: the stored rows
    give that profile and the swap is worth 100 USD, but the call does
    not return [matches = true]: the whitelist check throws a
    [TypeError].  It throws as well on a whitelist that names the
    relevant token of the swap ([USDC] here, [BONK] for 1 SOL spent on
    BONK), and the blacklist check throws on a blacklist that does not
    name it: the lists are never compared with the token. *)
Theorem whitelist_check_throws :
  processFilters quietHost (DbRows tokenFilterSolRows) = tokenFilterSol
  /\ calculateSwapValueUSD quietHost usdcToSol None = 100%Q
  /\ shouldNotify quietHost ∅ 1 usdcToSol (DbRows tokenFilterSolRows) None None
     = (<[1 := []]> ∅, Thrown TypeError)
  /\ (relevantTokenOf usdcToSol = Some (token USDC_MINT "USDC" 100)
      /\ listed quietHost (token USDC_MINT "USDC" 100) ["USDC"] = true
      /\ matchesFilters quietHost ∅ usdcToSol (whitelistOnly ["USDC"]) None 1 None
         = (<[1 := []]> ∅, Thrown TypeError))
  /\ (relevantTokenOf solToBonk = Some (token BONK_MINT "BONK" 5000)
      /\ listed quietHost (token BONK_MINT "BONK" 5000) ["BONK"] = true
      /\ matchesFilters quietHost ∅ solToBonk (whitelistOnly ["BONK"]) None 1 None
         = (<[1 := []]> ∅, Thrown TypeError))
  /\ (listed quietHost (token BONK_MINT "BONK" 5000) ["PEPE"] = false
      /\ matchesFilters quietHost ∅ solToBonk (blacklistOnly ["PEPE"]) None 1 None
         = (<[1 := []]> ∅, Thrown TypeError)).
Proof. repeat split; vm_compute; reflexivity. Qed.

(** ** The delivery history *)

Lemma set_has_In (s : list string) (x : string) : set_has s x = true <-> In x s.
Proof.
  unfold set_has. rewrite existsb_exists. split.
  - intros [y [Hin E]]. apply String.eqb_eq in E. now subst.
  - intros Hin. exists x. split; [exact Hin|apply String.eqb_refl].
Qed.

Lemma set_has_false (s : list string) (x : string) : set_has s x = false <-> ~ In x s.
Proof.
  rewrite <- set_has_In. destruct (set_has s x); split; congruence.
Qed.

Lemma set_delete_absent (l : list string) (x : string) :
  ~ In x l -> set_delete l x = l.
Proof.
  unfold set_delete. induction l as [|y l IH]; intros Hn; [reflexivity|].
  simpl. destruct (String.eqb_spec y x) as [E|E].
  - exfalso. apply Hn. left. exact E.
  - cbn [negb]. f_equal. apply IH. intros Hin. apply Hn. now right.
Qed.

Lemma set_delete_head (l : list string) (x : string) :
  ~ In x l -> set_delete (x :: l) x = l.
Proof.
  intros Hn. unfold set_delete. simpl. rewrite String.eqb_refl. cbn [negb].
  now apply set_delete_absent.
Qed.

(** Deleting the first [n] elements of a duplicate-free sequence one by
    one drops exactly that prefix. *)
Lemma delete_prefix (l : list string) : forall n,
  List.NoDup l -> fold_left set_delete (firstn n l) l = skipn n l.
Proof.
  induction l as [|x l IH]; intros n Hnd.
  - destruct n; reflexivity.
  - destruct n as [|n]; [reflexivity|].
    apply NoDup_cons_iff in Hnd as [Hx Hnd].
    cbn [firstn skipn fold_left]. rewrite set_delete_head by exact Hx.
    now apply IH.
Qed.

Lemma NoDup_skipn (l : list string) : forall n, List.NoDup l -> List.NoDup (skipn n l).
Proof.
  induction l as [|x l IH]; intros n Hnd.
  - destruct n; exact Hnd.
  - destruct n as [|n]; [exact Hnd|].
    apply NoDup_cons_iff in Hnd as [_ Hnd]. cbn [skipn]. now apply IH.
Qed.

Lemma NoDup_snoc (l : list string) (x : string) :
  List.NoDup l -> ~ In x l -> List.NoDup (l ++ [x]).
Proof.
  induction l as [|y l IH]; intros Hnd Hx.
  - simpl. apply NoDup_cons_iff. split; [intros []|constructor].
  - apply NoDup_cons_iff in Hnd as [Hy Hnd]. simpl. apply NoDup_cons_iff. split.
    + intros Hin. apply in_app_or in Hin as [Hin|[E|[]]]; [contradiction|].
      apply Hx. left. now symmetry.
    + apply IH; [exact Hnd|]. intros Hin. apply Hx. now right.
Qed.

(** What a match does to the user's set: the id becomes the newest
    element, and a full set first loses its fifty oldest. *)
Lemma recordSwap_fresh (s : list string) (id : string) :
  List.NoDup s -> (List.length s <= 100)%nat -> ~ In id s ->
  recordSwap s id
  = (if Nat.ltb (List.length s) 100 then s ++ [id] else skipn 50 s ++ [id])%list
  /\ List.NoDup (recordSwap s id)
  /\ (List.length (recordSwap s id) <= 100)%nat
  /\ In id (recordSwap s id).
Proof.
  intros Hnd Hlen Hfresh. unfold recordSwap, set_add.
  rewrite (proj2 (set_has_false s id) Hfresh).
  pose proof (NoDup_snoc s id Hnd Hfresh) as Hnd'.
  rewrite length_app. cbn [List.length].
  destruct (Nat.ltb_spec (List.length s) 100) as [Hlt|Hge].
  - destruct (Nat.ltb_spec 100 (List.length s + 1)) as [Hbig|_]; [lia|].
    split; [reflexivity|]. split; [exact Hnd'|]. split.
    + rewrite length_app. cbn [List.length]. lia.
    + apply in_or_app. right. now left.
  - destruct (Nat.ltb_spec 100 (List.length s + 1)) as [_|Hsmall]; [|lia].
    unfold evictOldest. rewrite delete_prefix by exact Hnd'.
    rewrite skipn_app. replace (50 - List.length s)%nat with 0%nat by lia.
    cbn [skipn]. split; [reflexivity|]. split.
    + replace (skipn 50 s ++ [id])%list with (skipn 50 (s ++ [id])).
      * now apply NoDup_skipn.
      * rewrite skipn_app.
        replace (50 - List.length s)%nat with 0%nat by lia. reflexivity.
    + split.
      * rewrite length_app, length_skipn. cbn [List.length]. lia.
      * apply in_or_app. right. now left.
Qed.

(** The three things a call can do to the history map, whatever it
    returns or throws. *)
Lemma matchesFilters_state h ups swap uf fm uid cache :
  let ups' := fst (matchesFilters h ups swap uf fm uid cache) in
  ups' = ups
  \/ ups' = ensureSet ups uid
  \/ (set_has (historyOf ups uid) (swapIdOf swap) = false
      /\ ups' = <[uid := recordSwap (historyOf ups uid) (swapIdOf swap)]>
                  (ensureSet ups uid)).
Proof.
  cbv zeta. unfold matchesFilters. cbv zeta. fold (ensureSet ups uid).
  rewrite historyOf_ensureSet.
  repeat match goal with
         | |- context [fst (if ?c then _ else _)] =>
             destruct c eqn:?; cbv beta iota
         | |- context [fst (match ?c with _ => _ end)] =>
             destruct c eqn:?; cbv beta iota
         end;
    cbn [fst]; auto.
  destruct (forallb _ _); auto.
Qed.

Lemma Bounded_ensureSet ups uid : Bounded ups -> Bounded (ensureSet ups uid).
Proof.
  intros Hb u s. unfold ensureSet. destruct (ups !! uid) eqn:E; [apply Hb|].
  destruct (decide (uid = u)) as [->|Hne].
  - rewrite lookup_insert_eq. intros [= <-]. split; [constructor|cbn; lia].
  - rewrite lookup_insert_ne by exact Hne. apply Hb.
Qed.

Lemma Bounded_historyOf ups uid :
  Bounded ups -> List.NoDup (historyOf ups uid) /\ (List.length (historyOf ups uid) <= 100)%nat.
Proof.
  intros Hb. unfold historyOf. destruct (ups !! uid) as [s|] eqn:E; cbn.
  - exact (Hb uid s E).
  - split; [constructor|lia].
Qed.

Lemma matchesFilters_bounded h ups swap uf fm uid cache :
  Bounded ups -> Bounded (fst (matchesFilters h ups swap uf fm uid cache)).
Proof.
  intros Hb.
  destruct (matchesFilters_state h ups swap uf fm uid cache) as [->|[->|[Hnew ->]]].
  - exact Hb.
  - now apply Bounded_ensureSet.
  - destruct (Bounded_historyOf ups uid Hb) as [Hnd Hlen].
    apply set_has_false in Hnew.
    destruct (recordSwap_fresh _ _ Hnd Hlen Hnew) as (_ & Hnd' & Hlen' & _).
    intros u s. destruct (decide (uid = u)) as [->|Hne].
    + rewrite lookup_insert_eq. intros [= <-]. split; assumption.
    + rewrite lookup_insert_ne by exact Hne. now apply Bounded_ensureSet.
Qed.

Lemma reachable_bounded ups : Reachable ups -> Bounded ups.
Proof.
  induction 1 as [|h ups swap uf fm uid cache _ IH].
  - intros u s E. rewrite lookup_empty in E. discriminate.
  - now apply matchesFilters_bounded.
Qed.

(** A swap id that is in the user's set is rejected before anything
    else is looked at, and the map is left as it is. *)
Lemma recorded_is_rejected h ups swap uf fm uid cache :
  In (swapIdOf swap) (historyOf ups uid) ->
  exists site,
    matchesFilters h ups swap uf fm uid cache = (ups, Returned site rejected).
Proof.
  intros Hin. unfold matchesFilters. cbv zeta.
  destruct (notifications_enabled uf); cbn [negb]; [|now exists AtDisabled].
  fold (ensureSet ups uid). rewrite historyOf_ensureSet.
  rewrite (proj2 (set_has_In _ _) Hin).
  exists AtDuplicate. f_equal. unfold ensureSet.
  unfold historyOf in Hin. destruct (ups !! uid); [reflexivity|].
  cbn in Hin. contradiction.
Qed.

(** A call that does not return a match, whether it rejects or throws,
    at most creates the caller's empty set. *)
Lemma matchesFilters_unmatched h ups swap uf fm uid cache :
  let r := matchesFilters h ups swap uf fm uid cache in
  (forall site v, snd r = Returned site v -> matches v = false) ->
  fst r = ups \/ fst r = ensureSet ups uid.
Proof.
  cbv zeta. unfold matchesFilters. cbv zeta. fold (ensureSet ups uid).
  repeat match goal with
         | |- context [fst (if ?c then _ else _)] =>
             destruct c eqn:?; cbv beta iota
         | |- context [fst (match ?c with _ => _ end)] =>
             destruct c eqn:?; cbv beta iota
         end;
    cbn [fst snd]; auto.
  intros H. specialize (H AtEnd _ eq_refl). cbn [matches] in H. rewrite H. auto.
Qed.

Lemma history_unmatched h ups swap uf fm uid cache :
  (forall site v, snd (matchesFilters h ups swap uf fm uid cache) = Returned site v ->
                  matches v = false) ->
  forall u, historyOf (fst (matchesFilters h ups swap uf fm uid cache)) u = historyOf ups u.
Proof.
  intros Hno u.
  destruct (matchesFilters_unmatched h ups swap uf fm uid cache Hno) as [->| ->];
    [reflexivity|apply historyOf_ensureSet_any].
Qed.

Lemma history_of_others h ups swap uf fm uid cache :
  forall u, u <> uid ->
    historyOf (fst (matchesFilters h ups swap uf fm uid cache)) u = historyOf ups u.
Proof.
  intros u Hne.
  destruct (matchesFilters_state h ups swap uf fm uid cache) as [->|[->|[_ ->]]];
    [reflexivity|apply historyOf_ensureSet_any|].
  unfold historyOf at 1. rewrite lookup_insert_ne by congruence.
  apply historyOf_ensureSet_any.
Qed.

(** An id that a call removes from a set is one of the fifty oldest of
    the caller's full set, and the call returns a match. *)
Lemma history_loses_by_eviction h ups swap uf fm uid cache :
  Bounded ups ->
  forall u x,
    In x (historyOf ups u) ->
    ~ In x (historyOf (fst (matchesFilters h ups swap uf fm uid cache)) u) ->
    u = uid
    /\ (exists site v, snd (matchesFilters h ups swap uf fm uid cache) = Returned site v
                       /\ matches v = true)
    /\ List.length (historyOf ups uid) = 100%nat
    /\ In x (firstn 50 (historyOf ups uid)).
Proof.
  intros Hb u x Hin Hout.
  destruct (decide (u = uid)) as [->|Hne];
    [|rewrite (history_of_others h ups swap uf fm uid cache u Hne) in Hout; contradiction].
  split; [reflexivity|].
  pose proof (history_unmatched h ups swap uf fm uid cache) as Hquiet.
  destruct (matchesFilters h ups swap uf fm uid cache) as [ups' out] eqn:Hcall.
  cbn [fst snd] in *.
  assert (Hmatch : exists site v, out = Returned site v /\ matches v = true).
  { destruct out as [site v|e].
    - destruct (matches v) eqn:Hm; [eauto|].
      exfalso. apply Hout. rewrite Hquiet; [exact Hin|].
      intros site' v' [= _ <-]. exact Hm.
    - exfalso. apply Hout. rewrite Hquiet; [exact Hin|]. intros site' v' E. discriminate E. }
  split; [exact Hmatch|].
  destruct Hmatch as (site & v & -> & Hm).
  destruct (match_is_final _ _ _ _ _ _ _ _ _ _ Hcall Hm)
    as (_ & _ & _ & _ & _ & _ & _ & _ & Hnew & ->).
  apply set_has_false in Hnew.
  destruct (Bounded_historyOf ups uid Hb) as [Hnd Hlen].
  destruct (recordSwap_fresh _ _ Hnd Hlen Hnew) as (Hshape & _ & _ & _).
  unfold historyOf at 1 in Hout. rewrite lookup_insert_eq in Hout.
  cbn [default] in Hout. rewrite Hshape in Hout.
  destruct (Nat.ltb_spec (List.length (historyOf ups uid)) 100) as [Hlt|Hge].
  - exfalso. apply Hout, in_or_app. now left.
  - split; [lia|].
    rewrite <- (firstn_skipn 50 (historyOf ups uid)) in Hin.
    apply in_app_or in Hin as [Hin|Hin]; [exact Hin|].
    exfalso. apply Hout, in_or_app. now left.
Qed.

(** C1 as stated fails: the first swap of the run matches, a hundred
    further matches evict its id, and the same swap matches again. *)
Lemma redelivered_after_eviction : ~ never_redelivered.
Proof.
  intros H.
  specialize (H quietHost enabledProfile 1 overflowingRun 0%nat 101%nat
                (nthSwap 0) (nthSwap 0)).
  assert (Hlast : deliveries quietHost ∅ enabledProfile 1 overflowingRun !! 101%nat
                  = Some true) by (vm_compute; reflexivity).
  rewrite H in Hlast; [discriminate| lia | reflexivity | reflexivity | reflexivity |].
  vm_compute. reflexivity.
Qed.

(** C1, amended.  In every state of a running engine each user's set
    holds at most 100 swap ids.  When a call returns [matches = true] the
    id was not in the user's set and is now its newest element, the fifty
    oldest ids having been dropped if the set already held a hundred; any
    call for that user with that id then returns [matches = false] and
    leaves the history untouched.  More generally a call whose id is in
    the user's set returns [matches = false] and changes nothing: a
    delivered swap is suppressed for as long as its id has not been
    evicted.  And eviction is the only way out of a set: a call touches
    no set but the caller's, a call that returns no match (it rejects or
    throws) leaves every set as it was, and an id that a call removes
    from a set is one of the fifty oldest of the caller's full set, on a
    call that returns a match. *)
Theorem delivery_history_dedup (h : Host) (ups : gmap Z (list string))
    (swap : Swap) (uf : Filters) (fm : option (list string)) (uid : Z)
    (cache : option (gmap string TokenData))
    (Hreach : Reachable ups) :
  let r := matchesFilters h ups swap uf fm uid cache in
  let id := swapIdOf swap in
  (forall u s, fst r !! u = Some s -> (List.length s <= 100)%nat)
  /\ (forall site v,
        snd r = Returned site v -> matches v = true ->
        ~ In id (historyOf ups uid)
        /\ historyOf (fst r) uid
           = (if Nat.ltb (List.length (historyOf ups uid)) 100
              then historyOf ups uid ++ [id]
              else skipn 50 (historyOf ups uid) ++ [id])%list
        /\ forall h2 swap2 uf2 fm2 cache2,
             swapIdOf swap2 = id ->
             exists site2,
               matchesFilters h2 (fst r) swap2 uf2 fm2 uid cache2
               = (fst r, Returned site2 {| matches := false; isFirstMention := false |}))
  /\ (In id (historyOf ups uid) ->
      exists site,
        r = (ups, Returned site {| matches := false; isFirstMention := false |}))
  /\ (forall u, u <> uid -> historyOf (fst r) u = historyOf ups u)
  /\ ((forall site v, snd r = Returned site v -> matches v = false) ->
      forall u, historyOf (fst r) u = historyOf ups u)
  /\ (forall u x,
        In x (historyOf ups u) -> ~ In x (historyOf (fst r) u) ->
        u = uid
        /\ (exists site v, snd r = Returned site v /\ matches v = true)
        /\ List.length (historyOf ups uid) = 100%nat
        /\ In x (firstn 50 (historyOf ups uid))).
Proof.
  cbv zeta. pose proof (reachable_bounded ups Hreach) as Hb.
  split; [|split; [|split; [|split; [|split]]]];
    [| | |apply history_of_others|apply history_unmatched
     |apply history_loses_by_eviction; exact Hb].
  - intros u s E.
    exact (proj2 (matchesFilters_bounded h ups swap uf fm uid cache Hb u s E)).
  - intros site v Hout Hm.
    destruct (matchesFilters h ups swap uf fm uid cache) as [ups' out] eqn:Hcall.
    cbn [fst snd] in *. subst out.
    destruct (match_is_final _ _ _ _ _ _ _ _ _ _ Hcall Hm)
      as (_ & _ & _ & _ & _ & _ & _ & _ & Hnew & ->).
    apply set_has_false in Hnew. split; [exact Hnew|].
    destruct (Bounded_historyOf ups uid Hb) as [Hnd Hlen].
    destruct (recordSwap_fresh _ _ Hnd Hlen Hnew) as (Hshape & _ & _ & Hin).
    assert (Hhist : historyOf (<[uid := recordSwap (historyOf ups uid) (swapIdOf swap)]>
                                 (ensureSet ups uid)) uid
                    = recordSwap (historyOf ups uid) (swapIdOf swap)).
    { unfold historyOf at 1. now rewrite lookup_insert_eq. }
    split; [now rewrite Hhist|].
    intros h2 swap2 uf2 fm2 cache2 Hid.
    apply recorded_is_rejected. now rewrite Hid, Hhist.
  - intros Hin. now apply recorded_is_rejected.
Qed.

Lemma delivery_history_dedup_witness :
  Reachable ∅
  /\ historyOf (fst (matchesFilters quietHost ∅ solToBonk enabledProfile None 1 None)) 1
     = ["sig-sol-bonk"]
  /\ (exists site2,
       matchesFilters quietHost
         (fst (matchesFilters quietHost ∅ solToBonk enabledProfile None 1 None))
         solToBonk enabledProfile None 1 None
       = (fst (matchesFilters quietHost ∅ solToBonk enabledProfile None 1 None),
          Returned site2 {| matches := false; isFirstMention := false |}))
  /\ historyOf
       (fst (matchesFilters quietHost
               (fst (matchesFilters quietHost ∅ solToBonk enabledProfile None 1 None))
               solToBonk enabledProfile None 2 None)) 1
     = ["sig-sol-bonk"].
Proof.
  split; [exact reach_new|].
  destruct (delivery_history_dedup quietHost ∅ solToBonk enabledProfile None 1 None reach_new)
    as (_ & Hmatch & _).
  assert (Hout : snd (matchesFilters quietHost ∅ solToBonk enabledProfile None 1 None)
                 = Returned AtEnd {| matches := true; isFirstMention := false |}).
  { vm_compute. reflexivity. }
  destruct (Hmatch _ _ Hout eq_refl) as (_ & Hshape & Hagain).
  split; [exact Hshape|].
  split; [exact (Hagain quietHost solToBonk enabledProfile None None eq_refl)|].
  cbv zeta in Hshape.
  destruct (delivery_history_dedup quietHost
              (fst (matchesFilters quietHost ∅ solToBonk enabledProfile None 1 None))
              solToBonk enabledProfile None 2 None
              (reach_call quietHost ∅ solToBonk enabledProfile None 1 None reach_new))
    as (_ & _ & _ & Hothers & _).
  cbv zeta in Hothers. rewrite (Hothers 1) by discriminate. exact Hshape.
Defined.

(** ** The first-mention lifecycle *)

Lemma appends_refl P w : appends P w w.
Proof. exists []. split; [now rewrite app_nil_r|reflexivity]. Qed.

Lemma appends_trans P w1 w2 w3 : appends P w1 w2 -> appends P w2 w3 -> appends P w1 w3.
Proof.
  intros [e1 [H1 F1]] [e2 [H2 F2]]. exists (e1 ++ e2)%list. split.
  - now rewrite H2, H1, app_assoc.
  - rewrite forallb_app, F1, F2. reflexivity.
Qed.

Lemma sameTables_refl w : sameTables w w.
Proof. repeat split. Qed.

Lemma sameTables_trans w1 w2 w3 : sameTables w1 w2 -> sameTables w2 w3 -> sameTables w1 w3.
Proof. intros (A & B & C) (A' & B' & C'). repeat split; congruence. Qed.

Lemma set_add_In (s : list string) (x y : string) :
  In y (set_add s x) <-> In y s \/ y = x.
Proof.
  unfold set_add. destruct (set_has s x) eqn:E.
  - apply set_has_In in E. split; [now left|]. intros [H| ->]; assumption.
  - split.
    + intros H. apply in_app_or in H as [H|[H|[]]]; [now left|right; now symmetry].
    + intros [H| ->]; apply in_or_app; [now left|right; now left].
Qed.

Lemma set_add_NoDup (s : list string) (x : string) :
  List.NoDup s -> List.NoDup (set_add s x).
Proof.
  intros Hnd. unfold set_add. destruct (set_has s x) eqn:E; [exact Hnd|].
  apply NoDup_snoc; [exact Hnd|]. now apply set_has_false.
Qed.

(** [isTokenKnown] reads: it adds one SELECT to the trace, says "not
    known" only of a mint that is not in the table, and changes no
    table. *)
Lemma isTokenKnown_spec (k : string) (w : World) :
  let r := isTokenKnown k w in
  sameTables w (snd r)
  /\ trace (snd r) = (trace w ++ [EvSelectToken k])%list
  /\ (fst r = false -> unique_tokens w !! k = None)
  /\ (outages w = [] ->
      outages (snd r) = [] /\ (unique_tokens w !! k = None -> fst r = false)).
Proof.
  unfold isTokenKnown, bind, emit, poolQuery, readTokens, ret. cbn.
  destruct (outages w) as [|[|] rest] eqn:Ho; cbn;
    destruct (unique_tokens w !! k) eqn:Hk; cbn;
    repeat split; try rewrite Ho; congruence.
Qed.

Lemma detectMint_spec (fm : list string) (m : option string) (w : World) :
  let r := detectMint fm m w in
  sameTables w (snd r)
  /\ appends isSelectToken w (snd r)
  /\ (List.NoDup fm -> List.NoDup (fst r))
  /\ (forall x, In x (fst r) ->
                In x fm \/ (whenTruthy m = Some x /\ unique_tokens w !! x = None))
  /\ (forall x, In x fm -> In x (fst r))
  /\ (outages w = [] ->
      outages (snd r) = []
      /\ forall x, whenTruthy m = Some x -> unique_tokens w !! x = None -> In x (fst r)).
Proof.
  unfold detectMint. destruct (whenTruthy m) as [k|].
  2:{ cbn. repeat split; auto using appends_refl; discriminate. }
  unfold bind. pose proof (isTokenKnown_spec k w) as Hk. cbv zeta in Hk.
  destruct (isTokenKnown k w) as [known w1]. cbn [fst snd] in Hk.
  destruct Hk as (Hsame & Htr & Hfalse & Hquiet). unfold ret. cbn [fst snd].
  split; [exact Hsame|]. split; [exists [EvSelectToken k]; now split|].
  destruct known; cbn [negb].
  - repeat split; auto.
    + now apply Hquiet.
    + intros x [= ->] Hx. destruct Hquiet as [_ Hq]; [assumption|].
      specialize (Hq Hx). discriminate.
  - repeat split.
    + now apply set_add_NoDup.
    + intros x Hx. apply set_add_In in Hx as [Hx| ->]; [now left|].
      right. split; [reflexivity|now apply Hfalse].
    + intros x Hx. apply set_add_In. now left.
    + now apply Hquiet.
    + intros x [= ->] _. apply set_add_In. now right.
Qed.

Lemma batchMints_cons (s : Swap) (rest : list Swap) (x : string) :
  In x (batchMints (s :: rest))
  <-> whenTruthy (mintOf (inputToken s)) = Some x
      \/ whenTruthy (mintOf (outputToken s)) = Some x
      \/ In x (batchMints rest).
Proof.
  unfold batchMints. cbn [flat_map]. rewrite !in_app_iff.
  destruct (whenTruthy (mintOf (inputToken s))) as [a|];
    destruct (whenTruthy (mintOf (outputToken s))) as [b|]; cbn;
    intuition (try congruence); left + (right; left); congruence.
Qed.

(** Detection: only SELECTs on the known-token table, no table changed;
    the set it returns holds, once each, mints of the batch that are not
    in the table, and all of them when no query fails. *)
Lemma detectFirstMentions_spec (swaps : list Swap) : forall fm w,
  let r := detectFirstMentions fm swaps w in
  sameTables w (snd r)
  /\ appends isSelectToken w (snd r)
  /\ (List.NoDup fm -> List.NoDup (fst r))
  /\ (forall x, In x (fst r) ->
                In x fm \/ (In x (batchMints swaps) /\ unique_tokens w !! x = None))
  /\ (outages w = [] ->
      outages (snd r) = []
      /\ forall x, In x fm \/ (In x (batchMints swaps) /\ unique_tokens w !! x = None) ->
                   In x (fst r)).
Proof.
  induction swaps as [|s rest IH]; intros fm w.
  - cbn. repeat split; auto using appends_refl.
    intros x [Hx|[[] _]]. exact Hx.
  - cbn [detectFirstMentions]. unfold bind.
    pose proof (detectMint_spec fm (mintOf (inputToken s)) w) as H1. cbv zeta in H1.
    destruct (detectMint fm (mintOf (inputToken s)) w) as [fm1 w1]. cbn [fst snd] in H1.
    pose proof (detectMint_spec fm1 (mintOf (outputToken s)) w1) as H2. cbv zeta in H2.
    destruct (detectMint fm1 (mintOf (outputToken s)) w1) as [fm2 w2]. cbn [fst snd] in H2.
    specialize (IH fm2 w2). cbv zeta in IH.
    destruct (detectFirstMentions fm2 rest w2) as [fm3 w3]. cbn [fst snd] in IH |- *.
    destruct H1 as (S1 & A1 & N1 & I1 & K1 & Q1).
    destruct H2 as (S2 & A2 & N2 & I2 & K2 & Q2).
    destruct IH as (S3 & A3 & N3 & I3 & Q3).
    pose proof S1 as (T1 & _). pose proof S2 as (T2 & _).
    split; [eauto using sameTables_trans|].
    split; [eauto using appends_trans|].
    split; [auto|]. split.
    + intros x Hx. apply I3 in Hx as [Hx|[Hx Hu]].
      * apply I2 in Hx as [Hx|[Hx Hu]].
        -- apply I1 in Hx as [Hx|[Hx Hu]]; [now left|].
           right. split; [apply batchMints_cons; now left|exact Hu].
        -- right. split; [apply batchMints_cons; right; now left|congruence].
      * right. split; [apply batchMints_cons; right; now right|congruence].
    + intros Hq. destruct (Q1 Hq) as [Hq1 C1]. destruct (Q2 Hq1) as [Hq2 C2].
      destruct (Q3 Hq2) as [Hq3 C3]. split; [exact Hq3|].
      intros x [Hx|[Hx Hu]].
      * apply C3. left. auto.
      * apply batchMints_cons in Hx as [Hx|[Hx|Hx]].
        -- apply C3. left. apply K2. now apply C1.
        -- apply C3. left. apply C2; [exact Hx|congruence].
        -- apply C3. right. split; [exact Hx|congruence].
Qed.

Lemma getAllUsers_spec (w : World) :
  let r := getAllUsers w in
  sameTables w (snd r)
  /\ trace (snd r) = trace w
  /\ (forall us, fst r = Ok us -> us = usersTable w)
  /\ (outages w = [] -> fst r = Ok (usersTable w) /\ outages (snd r) = []).
Proof.
  unfold getAllUsers, bind, poolQuery, ret.
  destruct (outages w) as [|[|] rest] eqn:Ho; cbn;
    repeat split; try rewrite Ho; congruence.
Qed.

Lemma getUserFilters_spec (u : Z) (w : World) :
  let r := getUserFilters u w in
  sameTables w (snd r) /\ trace (snd r) = (trace w ++ [EvSelectFilters u])%list.
Proof.
  unfold getUserFilters, bind, emit, poolQuery, ret.
  destruct (outages w) as [|[|] rest]; cbn; repeat split.
Qed.

Lemma callShouldNotify_spec h u swap rows fm cache (w : World) :
  let r := callShouldNotify h u swap rows fm cache w in
  sameTables w (snd r)
  /\ trace (snd r) = (trace w ++ [EvShouldNotify u (swapIdOf swap)])%list.
Proof.
  unfold callShouldNotify, bind, emit. cbn.
  destruct (shouldNotify _ _ _ _ _ _ _). cbn. repeat split.
Qed.

Lemma notifyUser_spec h g u rows fm cache (swaps : list Swap) : forall w,
  let r := notifyUser h g u rows fm cache swaps w in
  sameTables w (snd r) /\ appends isUserEvent w (snd r).
Proof.
  induction swaps as [|s rest IH]; intros w.
  - cbn. split; [apply sameTables_refl|apply appends_refl].
  - cbn [notifyUser]. unfold bind.
    pose proof (callShouldNotify_spec h u s rows fm cache w) as Hc. cbv zeta in Hc.
    destruct (callShouldNotify h u s rows fm cache w) as [out w1]. cbn [fst snd] in Hc.
    destruct Hc as [S1 T1].
    assert (A1 : appends isUserEvent w w1) by (eexists; split; [exact T1|reflexivity]).
    assert (Hrest : sameTables w (snd (notifyUser h g u rows fm cache rest w1))
                    /\ appends isUserEvent w (snd (notifyUser h g u rows fm cache rest w1))).
    { specialize (IH w1). cbv zeta in IH. destruct IH as [S2 A2].
      split; [eauto using sameTables_trans|eauto using appends_trans]. }
    destruct out as [site v|e]; [|unfold ret; cbn; now split].
    destruct (matches v); [|exact Hrest]. cbv zeta.
    destruct (formatNotification h s (globalIsFirstMention fm s) (Some cache)) as [note|e].
    + unfold emit at 1.
      match goal with |- context [notifyUser _ _ _ _ _ _ _ ?w2] => specialize (IH w2) end.
      cbv zeta in IH. destruct IH as [S2 A2]. split.
      * eapply sameTables_trans; [exact S1|]. exact S2.
      * eapply appends_trans; [exact A1|]. eapply appends_trans; [|exact A2].
        eexists. split; [reflexivity|reflexivity].
    + destruct g; [exact Hrest|]. unfold ret. cbn [snd]. now split.
Qed.

Lemma processUser_spec h fm cache swaps (u : Z) (w : World) :
  let r := processUser h fm cache swaps u w in
  sameTables w (snd r)
  /\ exists evs, trace (snd r) = (trace w ++ EvSelectFilters u :: evs)%list
                 /\ forallb isUserEvent evs = true.
Proof.
  unfold processUser, bind.
  pose proof (getUserFilters_spec u w) as Hg. cbv zeta in Hg.
  destruct (getUserFilters u w) as [filters w1]. cbn [fst snd] in Hg.
  destruct Hg as [S1 T1].
  destruct filters as [rows|e].
  - cbv zeta.
    pose proof (notifyUser_spec h (notifications_enabled (processFilters h (DbRows rows)))
                  u rows fm cache swaps w1) as Hn. cbv zeta in Hn.
    destruct (notifyUser h _ u rows fm cache swaps w1) as [x w2]. unfold ret.
    cbn [fst snd] in Hn |- *.
    destruct Hn as [S2 [evs [T2 F2]]]. split; [eauto using sameTables_trans|].
    exists evs. split; [|exact F2]. rewrite T2, T1, <- app_assoc. reflexivity.
  - cbn. split; [exact S1|]. exists []. split; [exact T1|reflexivity].
Qed.

(** The user loop: only per-user events, no table changed, and every
    user visited. *)
Lemma processUsers_spec h fm cache swaps (users : list Z) : forall w,
  let r := processUsers h fm cache swaps users w in
  sameTables w (snd r)
  /\ exists evs, trace (snd r) = (trace w ++ evs)%list
                 /\ forallb isUserEvent evs = true
                 /\ forall u, In u users -> In (EvSelectFilters u) evs.
Proof.
  induction users as [|u rest IH]; intros w.
  - cbn. split; [apply sameTables_refl|]. exists []. rewrite app_nil_r.
    repeat split. intros u [].
  - cbn [processUsers]. unfold bind.
    pose proof (processUser_spec h fm cache swaps u w) as Hu. cbv zeta in Hu.
    destruct (processUser h fm cache swaps u w) as [x w1]. cbn [fst snd] in Hu.
    destruct Hu as [S1 [e1 [T1 F1]]].
    specialize (IH w1). cbv zeta in IH. destruct IH as [S2 [e2 [T2 [F2 V2]]]].
    split; [eauto using sameTables_trans|].
    exists (EvSelectFilters u :: e1 ++ e2)%list. split; [|split].
    + rewrite T2, T1, <- app_assoc. reflexivity.
    + cbn. rewrite forallb_app, F1, F2. reflexivity.
    + intros u' [<-|Hin]; [now left|]. right. apply in_or_app. right. now apply V2.
Qed.

(** The upsert: one INSERT on the trace; it reports success unless the
    query throws, and never touches a mint that is already known. *)
Lemma markTokenAsFirstMentioned_spec (m : string) (sym : option string) (w : World) :
  let r := markTokenAsFirstMentioned m sym w in
  trace (snd r) = (trace w ++ [EvInsertToken m sym])%list
  /\ fst r = negb (nextQueryFails w)
  /\ unique_tokens (snd r)
     = (if nextQueryFails w then unique_tokens w
        else match unique_tokens w !! m with
             | Some _ => unique_tokens w
             | None => <[m := sym]> (unique_tokens w)
             end).
Proof.
  unfold markTokenAsFirstMentioned, bind, emit, poolQuery, readTokens, writeTokens,
    ret, nextQueryFails.
  destruct (outages w) as [|[|] rest]; cbn;
    destruct (unique_tokens w !! m); cbn; repeat split.
Qed.

Lemma commitFirstMentions_spec cache (fm : list string) : forall w,
  let r := commitFirstMentions cache fm w in
  trace (snd r) = (trace w ++ commitEvents cache fm)%list
  /\ forall k s, unique_tokens w !! k = Some s -> unique_tokens (snd r) !! k = Some s.
Proof.
  induction fm as [|m rest IH]; intros w.
  - cbn. rewrite app_nil_r. split; auto.
  - cbn [commitFirstMentions]. unfold bind.
    pose proof (markTokenAsFirstMentioned_spec m (commitSymbol cache m) w) as Hm.
    cbv zeta in Hm.
    destruct (markTokenAsFirstMentioned m (commitSymbol cache m) w) as [b w1].
    cbn [fst snd] in Hm. destruct Hm as (T1 & _ & U1).
    specialize (IH w1). cbv zeta in IH. destruct IH as [T2 K2]. split.
    + rewrite T2, T1, <- app_assoc. reflexivity.
    + intros k s Hk. apply K2. rewrite U1.
      destruct (nextQueryFails w); [exact Hk|].
      destruct (unique_tokens w !! m) eqn:Em; [exact Hk|].
      destruct (decide (m = k)) as [->|Hne]; [congruence|].
      now rewrite lookup_insert_ne.
Qed.

(** On a working database the upsert makes an unknown mint known, with
    the symbol it was given, and the database stays working. *)
Lemma markTokenAsFirstMentioned_quiet (m : string) (sym : option string) (w : World) :
  outages w = [] ->
  let r := markTokenAsFirstMentioned m sym w in
  outages (snd r) = []
  /\ unique_tokens (snd r)
     = match unique_tokens w !! m with
       | Some _ => unique_tokens w
       | None => <[m := sym]> (unique_tokens w)
       end.
Proof.
  intros Hq. cbv zeta.
  pose proof (markTokenAsFirstMentioned_spec m sym w) as Hm. cbv zeta in Hm.
  destruct Hm as (_ & _ & U1). split.
  - unfold markTokenAsFirstMentioned, bind, emit, poolQuery, readTokens, writeTokens, ret.
    cbn. rewrite Hq. cbn. destruct (unique_tokens w !! m); reflexivity.
  - rewrite U1. unfold nextQueryFails. now rewrite Hq.
Qed.

(** The commit loop writes no mint but those it is given. *)
Lemma commitFirstMentions_frame cache (fm : list string) : forall w k,
  ~ In k fm ->
  unique_tokens (snd (commitFirstMentions cache fm w)) !! k = unique_tokens w !! k.
Proof.
  induction fm as [|m rest IH]; intros w k Hk; [reflexivity|].
  cbn [commitFirstMentions]. unfold bind.
  pose proof (markTokenAsFirstMentioned_spec m (commitSymbol cache m) w) as Hm.
  cbv zeta in Hm.
  destruct (markTokenAsFirstMentioned m (commitSymbol cache m) w) as [b w1].
  cbn [fst snd] in Hm. destruct Hm as (_ & _ & U1).
  rewrite IH by (intros Hin; apply Hk; now right). rewrite U1.
  destruct (nextQueryFails w); [reflexivity|].
  destruct (unique_tokens w !! m); [reflexivity|].
  apply lookup_insert_ne. intros ->. apply Hk. now left.
Qed.

(** On a working database the commit loop makes every mint of a
    duplicate-free set of unknown mints known, each with the symbol the
    cache holds for it. *)
Lemma commitFirstMentions_commits cache (fm : list string) : forall w,
  outages w = [] -> List.NoDup fm ->
  (forall m, In m fm -> unique_tokens w !! m = None) ->
  forall m, In m fm ->
    unique_tokens (snd (commitFirstMentions cache fm w)) !! m
    = Some (commitSymbol cache m).
Proof.
  induction fm as [|x rest IH]; intros w Hq Hnd Hnew m Hin; [destruct Hin|].
  apply NoDup_cons_iff in Hnd as [Hx Hnd].
  cbn [commitFirstMentions]. unfold bind.
  pose proof (markTokenAsFirstMentioned_quiet x (commitSymbol cache x) w Hq) as Hm.
  cbv zeta in Hm.
  destruct (markTokenAsFirstMentioned x (commitSymbol cache x) w) as [b w1] eqn:Hrun.
  cbn [fst snd] in Hm. destruct Hm as (Hq1 & U1).
  rewrite (Hnew x (or_introl eq_refl)) in U1.
  destruct Hin as [<-|Hin].
  - replace w1 with (snd (markTokenAsFirstMentioned x (commitSymbol cache x) w))
      by now rewrite Hrun.
    rewrite Hrun. cbn [snd].
    rewrite commitFirstMentions_frame by exact Hx.
    rewrite U1. apply lookup_insert_eq.
  - apply IH; [exact Hq1|exact Hnd| |exact Hin].
    intros m' Hm'. rewrite U1.
    rewrite lookup_insert_ne by (intros ->; contradiction).
    apply Hnew. now right.
Qed.

Lemma notifyUser_outages h g u rows fm cache (swaps : list Swap) : forall w,
  outages (snd (notifyUser h g u rows fm cache swaps w)) = outages w.
Proof.
  induction swaps as [|s rest IH]; intros w; [reflexivity|].
  cbn [notifyUser]. unfold bind.
  assert (Hc : outages (snd (callShouldNotify h u s rows fm cache w)) = outages w).
  { unfold callShouldNotify, bind, emit. cbn.
    destruct (shouldNotify _ _ _ _ _ _ _). reflexivity. }
  destruct (callShouldNotify h u s rows fm cache w) as [out w1]. cbn [snd] in Hc.
  destruct out as [site v|e]; [|exact Hc].
  destruct (matches v); [|now rewrite IH]. cbv zeta.
  destruct (formatNotification _ _ _ _).
  - unfold emit at 1. rewrite IH. exact Hc.
  - destruct g; [now rewrite IH|exact Hc].
Qed.

Lemma processUsers_outages h fm cache swaps (users : list Z) : forall w,
  outages w = [] -> outages (snd (processUsers h fm cache swaps users w)) = [].
Proof.
  induction users as [|u rest IH]; intros w Hq; [exact Hq|].
  cbn [processUsers]. unfold bind.
  assert (Hu : outages (snd (processUser h fm cache swaps u w)) = []).
  { unfold processUser, bind.
    assert (Hg : outages (snd (getUserFilters u w)) = []).
    { unfold getUserFilters, bind, emit, poolQuery, ret. cbn. rewrite Hq. reflexivity. }
    destruct (getUserFilters u w) as [[rows|e] w1]; cbn [snd] in Hg; [|exact Hg].
    cbv zeta.
    pose proof (notifyUser_outages h (notifications_enabled (processFilters h (DbRows rows)))
                  u rows fm cache swaps w1) as Hn.
    destruct (notifyUser _ _ _ _ _ _ _ _) as [x w2]. unfold ret. cbn [snd] in Hn |- *.
    congruence. }
  destruct (processUser h fm cache swaps u w) as [x w1]. cbn [snd] in Hu.
  now apply IH.
Qed.

(** C8.  Detection issues only SELECTs on the known-token table and
    leaves every table as it was.  The trace of a whole cycle is the
    detection SELECTs, then the events of the user loop, then one INSERT
    per first-mention mint and nothing after them: each mint of the
    first-mention set is committed once, after every user has been gone
    through.  The first-mention set holds mints of the batch that the
    store did not know (all of them when no query fails).  A cycle
    writes no mint outside that set, and on a working database every mint
    of the set is known after the cycle, with the symbol the cache holds
    for it.  The commit is an upsert: it reports success unless the query
    itself throws, leaves the table unchanged for a mint that is already
    known, and a repeated commit changes nothing; a successful commit of
    an unknown mint adds exactly that mint with the given symbol, so the
    mint is known afterwards, and a failed one changes nothing; entries
    of the table are never altered by a cycle. *)
Theorem first_mention_lifecycle (h : Host) (feed : option (list Swap))
    (enrich : list Swap -> gmap string TokenData) (w : World) :
  let w' := snd (checkForNewSwaps h feed enrich w) in
  let swaps := default [] feed in
  (forall fm0 batch,
      sameTables w (snd (detectFirstMentions fm0 batch w))
      /\ appends isSelectToken w (snd (detectFirstMentions fm0 batch w)))
  /\ (exists fm sel evs,
        trace w' = (trace w ++ sel ++ evs ++ commitEvents (enrich swaps) fm)%list
        /\ forallb isSelectToken sel = true
        /\ forallb isUserEvent evs = true
        /\ List.NoDup fm
        /\ (forall m, In m fm -> In m (batchMints swaps) /\ unique_tokens w !! m = None)
        /\ (fm <> [] -> forall u, In u (usersTable w) -> In (EvSelectFilters u) evs)
        /\ (outages w = [] ->
            forall m, In m (batchMints swaps) -> unique_tokens w !! m = None -> In m fm)
        /\ (forall k, ~ In k fm -> unique_tokens w' !! k = unique_tokens w !! k)
        /\ (outages w = [] ->
            forall m, In m fm ->
              unique_tokens w' !! m = Some (commitSymbol (enrich swaps) m)))
  /\ (forall k s, unique_tokens w !! k = Some s -> unique_tokens w' !! k = Some s)
  /\ (forall m sym w0,
        let r := markTokenAsFirstMentioned m sym w0 in
        fst r = negb (nextQueryFails w0)
        /\ (unique_tokens w0 !! m <> None -> unique_tokens (snd r) = unique_tokens w0)
        /\ (fst r = true ->
            forall sym2,
              unique_tokens (snd (markTokenAsFirstMentioned m sym2 (snd r)))
              = unique_tokens (snd r))
        /\ (fst r = true -> unique_tokens w0 !! m = None ->
            unique_tokens (snd r) = <[m := sym]> (unique_tokens w0))
        /\ (fst r = true -> unique_tokens (snd r) !! m <> None)
        /\ (fst r = false -> unique_tokens (snd r) = unique_tokens w0)).
Proof.
  cbv zeta. split; [|split; [|split]].
  - intros fm0 batch.
    pose proof (detectFirstMentions_spec batch fm0 w) as Hd. cbv zeta in Hd.
    destruct Hd as (Hs & Ha & _). now split.
  - destruct feed as [[|s rest]|].
    + exists [], [], []. cbn. rewrite app_nil_r.
      repeat split; try constructor; try contradiction.
    + cbn [default]. set (swaps := s :: rest).
      change (checkForNewSwaps h (Some swaps) enrich w)
        with (bind getAllUsers
                (fun users =>
                   match users with
                   | Err _ => ret tt
                   | Ok us =>
                       bind (detectFirstMentions [] swaps)
                         (fun fm =>
                            bind (processUsers h fm (enrich swaps) swaps us)
                              (fun _ => commitFirstMentions (enrich swaps) fm))
                   end) w).
      unfold bind.
      pose proof (getAllUsers_spec w) as Hg. cbv zeta in Hg.
      destruct (getAllUsers w) as [users w0]. cbn [fst snd] in Hg.
      destruct Hg as (S0 & T0 & Hus & Q0).
      destruct users as [us|e].
      2:{ unfold ret. cbn [snd]. exists [], [], []. cbn. rewrite app_nil_r.
          destruct S0 as (U0 & _).
          repeat split; try constructor; try contradiction; try congruence.
          intros Hq. destruct (Q0 Hq) as [Habs _]. discriminate. }
      rewrite (Hus us eq_refl) in *. clear Hus.
      pose proof (detectFirstMentions_spec swaps [] w0) as Hd. cbv zeta in Hd.
      destruct (detectFirstMentions [] swaps w0) as [fm w1]. cbn [fst snd] in Hd.
      destruct Hd as (S1 & [sel [T1 F1]] & N1 & I1 & Q1).
      pose proof (processUsers_spec h fm (enrich swaps) swaps (usersTable w) w1) as Hp.
      cbv zeta in Hp.
      destruct (processUsers h fm (enrich swaps) swaps (usersTable w) w1) as [x w2] eqn:Hrun2.
      cbn [fst snd] in Hp. destruct Hp as (S2 & evs & T2 & F2 & V2).
      pose proof (commitFirstMentions_spec (enrich swaps) fm w2) as Hc. cbv zeta in Hc.
      destruct (commitFirstMentions (enrich swaps) fm w2) as [y w3] eqn:Hrun3.
      cbn [fst snd] in Hc |- *. destruct Hc as [T3 _].
      destruct S0 as (U0 & _). destruct S1 as (U1 & _). destruct S2 as (U2 & _).
      assert (Hfresh : forall m, In m fm ->
                         In m (batchMints swaps) /\ unique_tokens w !! m = None).
      { intros m Hm. apply I1 in Hm as [[]|[Hm Hu]]. split; [exact Hm|congruence]. }
      exists fm, sel, evs. split; [|split; [exact F1|split; [exact F2|split]]].
      * rewrite T3, T2, T1, T0, <- !app_assoc. reflexivity.
      * apply N1. constructor.
      * split; [exact Hfresh|]. split; [|split; [|split]].
        -- intros _ u Hu. now apply V2.
        -- intros Hq m Hm Hu. destruct (Q0 Hq) as [_ Hq0].
           destruct (Q1 Hq0) as [_ C1]. apply C1. right. split; [exact Hm|congruence].
        -- intros k Hk.
           replace w3 with (snd (commitFirstMentions (enrich swaps) fm w2))
             by now rewrite Hrun3.
           rewrite commitFirstMentions_frame by exact Hk. congruence.
        -- intros Hq m Hm. destruct (Q0 Hq) as [_ Hq0]. destruct (Q1 Hq0) as [Hq1 _].
           pose proof (processUsers_outages h fm (enrich swaps) swaps (usersTable w) w1 Hq1)
             as Hq2.
           rewrite Hrun2 in Hq2. cbn [snd] in Hq2.
           replace w3 with (snd (commitFirstMentions (enrich swaps) fm w2))
             by now rewrite Hrun3.
           apply commitFirstMentions_commits; [exact Hq2|apply N1; constructor| |exact Hm].
           intros m' Hm'. destruct (Hfresh m' Hm') as [_ Hu]. congruence.
    + exists [], [], []. cbn. rewrite app_nil_r.
      repeat split; try constructor; try contradiction.
  - intros k s Hk. destruct feed as [[|s0 rest]|]; try exact Hk.
    set (swaps := s0 :: rest).
    change (checkForNewSwaps h (Some swaps) enrich w)
      with (bind getAllUsers
              (fun users =>
                 match users with
                 | Err _ => ret tt
                 | Ok us =>
                     bind (detectFirstMentions [] swaps)
                       (fun fm =>
                          bind (processUsers h fm (enrich swaps) swaps us)
                            (fun _ => commitFirstMentions (enrich swaps) fm))
                 end) w).
    unfold bind.
    pose proof (getAllUsers_spec w) as Hg. cbv zeta in Hg.
    destruct (getAllUsers w) as [users w0]. cbn [fst snd] in Hg.
    destruct Hg as ((U0 & _) & _).
    destruct users as [us|e]; [|unfold ret; cbn [snd]; congruence].
    pose proof (detectFirstMentions_spec swaps [] w0) as Hd. cbv zeta in Hd.
    destruct (detectFirstMentions [] swaps w0) as [fm w1]. cbn [fst snd] in Hd.
    destruct Hd as ((U1 & _) & _).
    pose proof (processUsers_spec h fm (enrich swaps) swaps us w1) as Hp. cbv zeta in Hp.
    destruct (processUsers h fm (enrich swaps) swaps us w1) as [x w2].
    cbn [fst snd] in Hp. destruct Hp as ((U2 & _) & _).
    pose proof (commitFirstMentions_spec (enrich swaps) fm w2) as Hc. cbv zeta in Hc.
    destruct (commitFirstMentions (enrich swaps) fm w2) as [y w3].
    cbn [fst snd] in Hc |- *. destruct Hc as [_ K3].
    apply K3. congruence.
  - intros m sym w0. cbv zeta.
    pose proof (markTokenAsFirstMentioned_spec m sym w0) as H1. cbv zeta in H1.
    destruct H1 as (_ & R1 & U1). split; [exact R1|]. split; [|split; [|split; [|split]]].
    + intros Hknown. rewrite U1. destruct (nextQueryFails w0); [reflexivity|].
      destruct (unique_tokens w0 !! m); [reflexivity|congruence].
    + intros Hok sym2.
      pose proof (markTokenAsFirstMentioned_spec m sym2
                    (snd (markTokenAsFirstMentioned m sym w0))) as H2.
      cbv zeta in H2. destruct H2 as (_ & _ & U2). rewrite U2.
      destruct (nextQueryFails (snd (markTokenAsFirstMentioned m sym w0))); [reflexivity|].
      rewrite U1. rewrite R1 in Hok. apply negb_true_iff in Hok. rewrite Hok.
      destruct (unique_tokens w0 !! m) eqn:Em; [now rewrite Em|].
      now rewrite lookup_insert_eq.
    + intros Hok Hnew. rewrite R1 in Hok. apply negb_true_iff in Hok.
      rewrite U1, Hok, Hnew. reflexivity.
    + intros Hok. rewrite R1 in Hok. apply negb_true_iff in Hok. rewrite U1, Hok.
      destruct (unique_tokens w0 !! m) eqn:Em; [now rewrite Em|].
      now rewrite lookup_insert_eq.
    + intros Hfail. rewrite R1 in Hfail. apply negb_false_iff in Hfail.
      now rewrite U1, Hfail.
Qed.

Lemma first_mention_lifecycle_witness :
  unique_tokens smallWorld !! SOL_MINT = Some (Some "SOL")
  /\ unique_tokens
       (snd (checkForNewSwaps quietHost (Some [solToBonk]) (fun _ => bonkCache) smallWorld))
     !! SOL_MINT = Some (Some "SOL")
  /\ trace (snd (checkForNewSwaps quietHost (Some [solToBonk]) (fun _ => bonkCache) smallWorld))
     = [ EvSelectToken SOL_MINT; EvSelectToken BONK_MINT;
         EvSelectFilters 7; EvShouldNotify 7 "sig-sol-bonk";
         EvSendMessage 7 "sig-sol-bonk" true;
         EvInsertToken BONK_MINT (Some "BONK") ]
  /\ unique_tokens smallWorld !! BONK_MINT = None
  /\ unique_tokens (snd (markTokenAsFirstMentioned BONK_MINT (Some "BONK") smallWorld))
     = <[BONK_MINT := Some "BONK"]> (unique_tokens smallWorld)
  /\ unique_tokens (snd (markTokenAsFirstMentioned BONK_MINT (Some "BONK") smallWorld))
     !! BONK_MINT <> None
  /\ unique_tokens
       (snd (checkForNewSwaps quietHost (Some [solToBonk]) (fun _ => bonkCache) smallWorld))
     !! BONK_MINT = Some (Some "BONK").
Proof.
  assert (Hknown : unique_tokens smallWorld !! SOL_MINT = Some (Some "SOL"))
    by reflexivity.
  assert (Hnew : unique_tokens smallWorld !! BONK_MINT = None) by reflexivity.
  pose proof (first_mention_lifecycle quietHost (Some [solToBonk]) (fun _ => bonkCache)
                smallWorld) as Hall.
  cbv zeta in Hall. destruct Hall as (_ & Hcycle & Hkept & Hcommit).
  destruct (Hcommit BONK_MINT (Some "BONK") smallWorld) as (_ & _ & _ & Hadds & Hthen & _).
  split; [exact Hknown|]. split; [exact (Hkept SOL_MINT (Some "SOL") Hknown)|].
  split; [vm_compute; reflexivity|]. split; [exact Hnew|].
  split; [exact (Hadds eq_refl Hnew)|]. split; [exact (Hthen eq_refl)|].
  destruct Hcycle as (fm & sel & evs & _ & _ & _ & _ & _ & _ & Hfound & _ & Hwritten).
  rewrite (Hwritten eq_refl BONK_MINT); [reflexivity|].
  apply (Hfound eq_refl); [|exact Hnew]. right. now left.
Defined.

(** * Further properties of the engine *)

(** ** processFilters, row by row *)

Lemma valuesOf_cons ty r rows :
  valuesOf ty (r :: rows)
  = ((if String.eqb (filter_type r) ty then [filter_value r] else []) ++ valuesOf ty rows)%list.
Proof. unfold valuesOf. cbn. destruct (String.eqb (filter_type r) ty); reflexivity. Qed.

Lemma valuesOf_app ty rows1 rows2 :
  valuesOf ty (rows1 ++ rows2) = (valuesOf ty rows1 ++ valuesOf ty rows2)%list.
Proof. unfold valuesOf. now rewrite List.filter_app, map_app. Qed.

Lemma lastOf_app_cons {A : Type} (l : list A) (x : A) (r : list A) :
  lastOf (l ++ x :: r) = lastOf (x :: r).
Proof.
  induction l as [|y l IH]; [reflexivity|].
  cbn [app]. change (lastOf (y :: l ++ x :: r))
    with (match (l ++ x :: r)%list with [] => Some y | _ :: _ => lastOf (l ++ x :: r) end).
  destruct (l ++ x :: r)%list eqn:E; [destruct l; discriminate|]. exact IH.
Qed.

Lemma lastOf_snoc {A : Type} (l : list A) (x : A) : lastOf (l ++ [x]) = Some x.
Proof. now rewrite lastOf_app_cons. Qed.

Lemma lastOf_cons {A : Type} (x : A) (l : list A) :
  lastOf (x :: l) = match lastOf l with Some y => Some y | None => Some x end.
Proof.
  destruct l as [|y l]; [reflexivity|].
  change (lastOf (x :: y :: l)) with (lastOf (y :: l)).
  destruct (lastOf (y :: l)) eqn:E; [reflexivity|].
  exfalso. revert y E. induction l as [|z l IH]; intros y E; [discriminate|].
  exact (IH z E).
Qed.

Ltac row_field r :=
  unfold applyRow; cbv zeta;
  repeat match goal with
         | |- context [String.eqb (filter_type r) ?c] =>
             destruct (String.eqb_spec (filter_type r) c) as [?E|?E]
         end;
  cbn; try reflexivity; try congruence.

Lemma applyRow_tokens h f r :
  tokens (applyRow h f r)
  = (tokens f ++ (if String.eqb (filter_type r) "token_whitelist" then [filter_value r] else []))%list.
Proof. row_field r; now rewrite app_nil_r. Qed.

Lemma applyRow_blacklist h f r :
  blacklist (applyRow h f r)
  = (blacklist f ++ (if String.eqb (filter_type r) "token_blacklist" then [filter_value r] else []))%list.
Proof. row_field r; now rewrite app_nil_r. Qed.

Lemma applyRow_whale_blacklist h f r :
  whale_blacklist (applyRow h f r)
  = (whale_blacklist f
     ++ (if String.eqb (filter_type r) "whale_blacklist" then [filter_value r] else []))%list.
Proof. row_field r; now rewrite app_nil_r. Qed.

Lemma applyRow_min_purchase h f r :
  min_purchase (applyRow h f r)
  = if String.eqb (filter_type r) "min_purchase"
    then Some (parseFloat h (filter_value r)) else min_purchase f.
Proof. row_field r. Qed.

Lemma applyRow_max_market_cap h f r :
  max_market_cap (applyRow h f r)
  = if String.eqb (filter_type r) "max_market_cap"
    then Some (parseFloat h (filter_value r)) else max_market_cap f.
Proof. row_field r. Qed.

Lemma applyRow_monitor_all h f r :
  monitor_all (applyRow h f r)
  = if String.eqb (filter_type r) "monitor_all"
    then String.eqb (filter_value r) "true" else monitor_all f.
Proof. row_field r. Qed.

Lemma applyRow_notifications_enabled h f r :
  notifications_enabled (applyRow h f r)
  = if String.eqb (filter_type r) "notifications_enabled"
    then String.eqb (filter_value r) "true" else notifications_enabled f.
Proof. row_field r. Qed.

Lemma applyRow_first_mention_only h f r :
  first_mention_only (applyRow h f r)
  = if String.eqb (filter_type r) "first_mention_only"
    then String.eqb (filter_value r) "true" else first_mention_only f.
Proof. row_field r. Qed.

Lemma fold_tokens h : forall rows f,
  tokens (fold_left (applyRow h) rows f) = (tokens f ++ valuesOf "token_whitelist" rows)%list.
Proof.
  induction rows as [|r rows IH]; intros f; cbn [fold_left].
  - unfold valuesOf. cbn. now rewrite app_nil_r.
  - now rewrite IH, applyRow_tokens, valuesOf_cons, app_assoc.
Qed.

Lemma fold_blacklist h : forall rows f,
  blacklist (fold_left (applyRow h) rows f)
  = (blacklist f ++ valuesOf "token_blacklist" rows)%list.
Proof.
  induction rows as [|r rows IH]; intros f; cbn [fold_left].
  - unfold valuesOf. cbn. now rewrite app_nil_r.
  - now rewrite IH, applyRow_blacklist, valuesOf_cons, app_assoc.
Qed.

Lemma fold_whale_blacklist h : forall rows f,
  whale_blacklist (fold_left (applyRow h) rows f)
  = (whale_blacklist f ++ valuesOf "whale_blacklist" rows)%list.
Proof.
  induction rows as [|r rows IH]; intros f; cbn [fold_left].
  - unfold valuesOf. cbn. now rewrite app_nil_r.
  - now rewrite IH, applyRow_whale_blacklist, valuesOf_cons, app_assoc.
Qed.

Ltac fold_last lem :=
  let rows := fresh "rows" in
  let r := fresh "r" in
  let IH := fresh "IH" in
  let f := fresh "f" in
  intros rows; induction rows as [|r rows IH]; intros f; cbn [fold_left];
  [ reflexivity
  | rewrite IH, lem, valuesOf_cons;
    destruct (String.eqb (filter_type r) _); cbn [app];
    [ rewrite lastOf_cons; destruct (lastOf (valuesOf _ rows)); reflexivity
    | reflexivity ] ].

Lemma fold_min_purchase h : forall rows f,
  min_purchase (fold_left (applyRow h) rows f)
  = match lastOf (valuesOf "min_purchase" rows) with
    | Some v => Some (parseFloat h v)
    | None => min_purchase f
    end.
Proof. fold_last applyRow_min_purchase. Qed.

Lemma fold_max_market_cap h : forall rows f,
  max_market_cap (fold_left (applyRow h) rows f)
  = match lastOf (valuesOf "max_market_cap" rows) with
    | Some v => Some (parseFloat h v)
    | None => max_market_cap f
    end.
Proof. fold_last applyRow_max_market_cap. Qed.

Lemma fold_monitor_all h : forall rows f,
  monitor_all (fold_left (applyRow h) rows f)
  = flagOr (monitor_all f) (lastOf (valuesOf "monitor_all" rows)).
Proof. fold_last applyRow_monitor_all. Qed.

Lemma fold_notifications_enabled h : forall rows f,
  notifications_enabled (fold_left (applyRow h) rows f)
  = flagOr (notifications_enabled f) (lastOf (valuesOf "notifications_enabled" rows)).
Proof. fold_last applyRow_notifications_enabled. Qed.

Lemma fold_first_mention_only h : forall rows f,
  first_mention_only (fold_left (applyRow h) rows f)
  = flagOr (first_mention_only f) (lastOf (valuesOf "first_mention_only" rows)).
Proof. fold_last applyRow_first_mention_only. Qed.

(** The profile as a function of the rows: each list holds the values of
    the rows of its type in row order, and each single-valued setting is
    decided by the last row of its type. *)
Lemma processFilters_fields h rows :
  processFilters h (DbRows rows)
  = {| tokens := valuesOf "token_whitelist" rows;
       blacklist := valuesOf "token_blacklist" rows;
       whale_blacklist := valuesOf "whale_blacklist" rows;
       min_purchase := option_map (parseFloat h) (lastOf (valuesOf "min_purchase" rows));
       max_market_cap := option_map (parseFloat h) (lastOf (valuesOf "max_market_cap" rows));
       monitor_all := flagOr true (lastOf (valuesOf "monitor_all" rows));
       notifications_enabled :=
         flagOr false (lastOf (valuesOf "notifications_enabled" rows));
       first_mention_only := flagOr false (lastOf (valuesOf "first_mention_only" rows)) |}.
Proof.
  cbn [processFilters].
  pose proof (fold_tokens h rows defaultFilters) as H1.
  pose proof (fold_blacklist h rows defaultFilters) as H2.
  pose proof (fold_whale_blacklist h rows defaultFilters) as H3.
  pose proof (fold_min_purchase h rows defaultFilters) as H4.
  pose proof (fold_max_market_cap h rows defaultFilters) as H5.
  pose proof (fold_monitor_all h rows defaultFilters) as H6.
  pose proof (fold_notifications_enabled h rows defaultFilters) as H7.
  pose proof (fold_first_mention_only h rows defaultFilters) as H8.
  destruct (fold_left (applyRow h) rows defaultFilters). cbn in *.
  subst. f_equal;
    match goal with |- context [lastOf ?l] => destruct (lastOf l) end; reflexivity.
Qed.

(** X1.  [processFilters] on an array of rows: the whitelist, the
    blacklist and the whale blacklist are the values of their rows in
    row order (duplicates kept), and of several rows for [min_purchase],
    [max_market_cap], [monitor_all], [notifications_enabled] or
    [first_mention_only] the last one decides; a flag is true only when
    the deciding value is exactly the text [true]. *)
Theorem processFilters_last_row_wins (h : Host) (rows : list FilterRow) :
  let f := processFilters h (DbRows rows) in
  tokens f = valuesOf "token_whitelist" rows
  /\ blacklist f = valuesOf "token_blacklist" rows
  /\ whale_blacklist f = valuesOf "whale_blacklist" rows
  /\ min_purchase f = option_map (parseFloat h) (lastOf (valuesOf "min_purchase" rows))
  /\ max_market_cap f = option_map (parseFloat h) (lastOf (valuesOf "max_market_cap" rows))
  /\ monitor_all f = flagOr true (lastOf (valuesOf "monitor_all" rows))
  /\ notifications_enabled f
     = flagOr false (lastOf (valuesOf "notifications_enabled" rows))
  /\ first_mention_only f = flagOr false (lastOf (valuesOf "first_mention_only" rows)).
Proof. cbv zeta. rewrite processFilters_fields. repeat split. Qed.

(** ** The ways through [matchesFilters] *)

Ltac open_body ups uid :=
  unfold matchesFilters; cbv zeta; fold (ensureSet ups uid);
  rewrite historyOf_ensureSet, conversion_filter_off.

(** Every call takes one of the ways of [Path]. *)
Lemma matchesFilters_path h ups swap uf fm uid cache :
  Path h ups swap uf fm uid cache
       (fst (matchesFilters h ups swap uf fm uid cache))
       (snd (matchesFilters h ups swap uf fm uid cache)).
Proof.
  open_body ups uid.
  destruct (notifications_enabled uf) eqn:Hen; cbn [negb fst snd];
    [|now apply path_disabled].
  destruct (set_has _ _) eqn:Hdup; cbn [fst snd]; [now apply path_duplicate|].
  destruct (isSpamMint _ || isSpamMint _)%bool eqn:Hspam; cbn [fst snd];
    [now apply path_spam|].
  destruct (includes _ _ || includes _ _)%bool eqn:Hblock; cbn [fst snd];
    [now apply path_blocklist|].
  destruct (relevantTokenOf swap) as [tok|] eqn:Hrel; cbn [fst snd];
    [|now apply path_no_token].
  destruct (first_mention_only uf && _)%bool eqn:Hfmo; cbn [fst snd];
    [now apply (path_first_mention_only _ _ _ _ _ _ _ tok)|].
  assert (Hreach : reachesTokenCheck ups swap uf fm uid tok) by (repeat split; assumption).
  change (if monitor_all uf
          then checkBlacklist h tok (blacklist uf)
          else checkTokenWhitelist h tok (tokens uf))
    with (tokenCheckOf h uf tok).
  destruct (tokenCheckOf h uf tok) as [tc|e] eqn:Htc; cbn [fst snd];
    [|now apply (path_throw _ _ _ _ _ _ _ tok)].
  destruct (includes hardcodedWhaleBlacklist _) eqn:Hwhale; cbn [fst snd];
    [now apply (path_whale _ _ _ _ _ _ _ tok tc)|].
  rewrite every_is_and.
  change (match max_market_cap uf with
          | Some mx =>
              if (num_truthy mx && num_gt0 mx)%bool
              then checkMarketCap h tok (max_market_cap uf) cache
              else true
          | None => true
          end) with (marketCapCheckOf h uf cache tok).
  fold (userChecks h swap uf cache tok tc).
  pose proof (path_end h ups swap uf fm uid cache tok tc Hreach Htc Hwhale) as P.
  destruct (userChecks h swap uf cache tok tc); exact P.
Qed.

(** The ways exclude one another: a way determines the outcome. *)
Lemma Path_outcome h ups swap uf fm uid cache ups' out :
  Path h ups swap uf fm uid cache ups' out ->
  matchesFilters h ups swap uf fm uid cache = (ups', out).
Proof.
  intros P.
  pose proof (matchesFilters_path h ups swap uf fm uid cache) as Q.
  destruct (matchesFilters h ups swap uf fm uid cache) as [u o]. cbn [fst snd] in Q.
  destruct P; destruct Q;
    repeat match goal with
           | H : reachesTokenCheck _ _ _ _ _ _ |- _ =>
               destruct H as (? & ? & ? & ? & ? & ?)
           end;
    try congruence.
  all: repeat match goal with
              | H1 : relevantTokenOf ?s = Some ?a, H2 : relevantTokenOf ?s = Some ?b |- _ =>
                  assert (a = b) by congruence; subst b; clear H2
              | H1 : tokenCheckOf ?h ?u ?t = _, H2 : tokenCheckOf ?h ?u ?t = _ |- _ =>
                  rewrite H1 in H2; injection H2 as <-
              end; try reflexivity; try congruence.
Qed.

Lemma globallyBlocked_false swap :
  (isSpamMint (mintOf (inputToken swap))
   || isSpamMint (mintOf (outputToken swap)))%bool = false ->
  (includes hardcodedBlacklist (of_opt (mintOf (inputToken swap)))
   || includes hardcodedBlacklist (of_opt (mintOf (outputToken swap))))%bool = false ->
  includes hardcodedWhaleBlacklist (of_opt (feePayer swap)) = false ->
  globallyBlocked swap = false.
Proof.
  intros H1 H2 H3. unfold globallyBlocked.
  apply orb_false_iff in H1 as [A B]. apply orb_false_iff in H2 as [C D].
  now rewrite A, B, C, D, H3.
Qed.

(** ** The fixed blocklists *)

(** X2.  A swap with an input or output mint that starts with [Xs] or
    is the hardcoded blocked mint, or whose fee payer is the hardcoded
    blocked whale, is never matched, whatever the profile and the
    first-mention set: every return carries both flags false, and no
    user's delivery history gains an id. *)
Theorem global_blocklists_never_match (h : Host) (ups : gmap Z (list string))
    (swap : Swap) (uf : Filters) (fm : option (list string)) (uid : Z)
    (cache : option (gmap string TokenData))
    (Hblocked : globallyBlocked swap = true) :
  let r := matchesFilters h ups swap uf fm uid cache in
  (forall site v, snd r = Returned site v
                  -> v = {| matches := false; isFirstMention := false |})
  /\ (forall u, historyOf (fst r) u = historyOf ups u).
Proof.
  cbv zeta. pose proof (matchesFilters_path h ups swap uf fm uid cache) as P.
  destruct (matchesFilters h ups swap uf fm uid cache) as [ups' out].
  cbn [fst snd] in *.
  destruct P;
    try (split; [intros site v [= <- <-]; reflexivity
                | intros u; first [reflexivity | apply historyOf_ensureSet_any]]).
  exfalso.
    match goal with H : reachesTokenCheck _ _ _ _ _ _ |- _ =>
      destruct H as (_ & _ & Hs & Hb & _ & _) end.
    match goal with Hw : includes hardcodedWhaleBlacklist _ = false |- _ =>
      rewrite (globallyBlocked_false swap Hs Hb Hw) in Hblocked end.
    discriminate.
Qed.

Lemma global_blocklists_never_match_witness :
  globallyBlocked
    (swapOf "sig-spam" "whale1" (token SOL_MINT "SOL" 1) (token "XsSpamMint" "FREE" 9)) = true
  /\ snd (matchesFilters quietHost ∅
            (swapOf "sig-spam" "whale1" (token SOL_MINT "SOL" 1) (token "XsSpamMint" "FREE" 9))
            enabledProfile (Some ["XsSpamMint"]) 1 None)
     = Returned AtSpamPrefix {| matches := false; isFirstMention := false |}.
Proof.
  split; [reflexivity|].
  pose proof (proj1 (global_blocklists_never_match quietHost ∅
                       (swapOf "sig-spam" "whale1" (token SOL_MINT "SOL" 1)
                               (token "XsSpamMint" "FREE" 9))
                       enabledProfile (Some ["XsSpamMint"]) 1 None eq_refl)) as H.
  cbv zeta in H.
  destruct (snd (matchesFilters quietHost ∅
                   (swapOf "sig-spam" "whale1" (token SOL_MINT "SOL" 1)
                           (token "XsSpamMint" "FREE" 9))
                   enabledProfile (Some ["XsSpamMint"]) 1 None)) as [site v|e] eqn:E.
  - rewrite (H site v eq_refl). vm_compute in E. injection E as <- _. reflexivity.
  - vm_compute in E. discriminate.
Defined.

(** ** Whose history a call touches *)

(** X3.  A call never touches the history of another user and never
    removes a set; it leaves the caller's own ids as they are unless it
    returns a match (before its first match a user only gets an empty
    set). *)
Theorem history_frame (h : Host) (ups : gmap Z (list string))
    (swap : Swap) (uf : Filters) (fm : option (list string)) (uid : Z)
    (cache : option (gmap string TokenData)) :
  let r := matchesFilters h ups swap uf fm uid cache in
  (forall u, u <> uid -> fst r !! u = ups !! u)
  /\ (forall u s, ups !! u = Some s -> exists s', fst r !! u = Some s')
  /\ ((forall site v, snd r = Returned site v -> matches v = false) ->
      historyOf (fst r) uid = historyOf ups uid).
Proof.
  cbv zeta. pose proof (matchesFilters_path h ups swap uf fm uid cache) as P.
  destruct (matchesFilters h ups swap uf fm uid cache) as [ups' out].
  cbn [fst snd] in *.
  assert (Hens : forall u, u <> uid -> ensureSet ups uid !! u = ups !! u).
  { intros u Hne. unfold ensureSet. destruct (ups !! uid); [reflexivity|].
    now rewrite lookup_insert_ne. }
  assert (Hkeep : forall u s, ups !! u = Some s -> exists s', ensureSet ups uid !! u = Some s').
  { intros u s Hs. unfold ensureSet. destruct (ups !! uid) eqn:E; [eauto|].
    destruct (decide (uid = u)) as [->|Hne]; [congruence|].
    rewrite lookup_insert_ne by exact Hne. eauto. }
  destruct P;
    try (split; [intros u Hne; first [reflexivity | now apply Hens]
                | split; [intros u s Hs; first [exists s; exact Hs | now apply (Hkeep u s)]
                         | intros _; first [reflexivity | apply historyOf_ensureSet]]]).
  match goal with
  | |- context [userChecks ?a ?b ?c ?d ?e ?f] => destruct (userChecks a b c d e f) eqn:Hm
  end.
  - split; [|split].
    + intros u Hne. rewrite lookup_insert_ne by congruence. now apply Hens.
    + intros u s Hs. destruct (decide (uid = u)) as [->|Hne].
      * rewrite lookup_insert_eq. eauto.
      * rewrite lookup_insert_ne by exact Hne. now apply (Hkeep u s).
    + intros Hno. specialize (Hno AtEnd _ eq_refl). discriminate.
  - split; [intros u Hne; now apply Hens|].
    split; [intros u s Hs; now apply (Hkeep u s)|].
    intros _. apply historyOf_ensureSet.
Qed.

(** The facts a match rests on, read off the last way of [Path]. *)
Lemma match_facts h ups swap uf fm uid cache ups' site v :
  matchesFilters h ups swap uf fm uid cache = (ups', Returned site v) ->
  matches v = true ->
  exists tok,
    reachesTokenCheck ups swap uf fm uid tok
    /\ checkWhaleBlacklist (feePayer swap) (whale_blacklist uf) = true
    /\ checkMinimumPurchase (calculateSwapValueUSD h swap cache) (min_purchase uf) = true
    /\ isFirstMention v = computedFirstMention fm swap.
Proof.
  intros Hcall Hm.
  pose proof (matchesFilters_path h ups swap uf fm uid cache) as P.
  rewrite Hcall in P. cbn [fst snd] in P.
  inversion P as [| | | | | | | |tok tc Hreach Htc Hwhale Hups Hout]; subst;
    try discriminate.
  cbn [matches isFirstMention] in *. exists tok. unfold userChecks in Hm.
  apply andb_true_iff in Hm as [Hm _]. apply andb_true_iff in Hm as [Hm Hmin].
  apply andb_true_iff in Hm as [_ Hwh].
  split; [exact Hreach|]. split; [exact Hwh|]. split; [exact Hmin|reflexivity].
Qed.

(** ** First-mention-only mode *)

Lemma isFirst_In (s : list string) (m : option string) :
  isFirst s m = true -> exists k, m = Some k /\ k <> "" /\ In k s.
Proof.
  unfold isFirst. intros H. apply andb_true_iff in H as [Ht Hin].
  destruct (truthy_inv m Ht) as [k [-> Hne]]. exists k.
  split; [reflexivity|]. split; [exact Hne|]. now apply set_has_In.
Qed.

(** X4.  In first-mention-only mode a swap matches only if one of its
    mints is in the first-mention set of the cycle; the returned flag is
    then true, and without a first-mention set nothing matches. *)
Theorem first_mention_only_mode (h : Host) (ups : gmap Z (list string))
    (swap : Swap) (uf : Filters) (fm : option (list string)) (uid : Z)
    (cache : option (gmap string TokenData))
    (ups' : gmap Z (list string)) (site : ReturnSite) (v : Verdict)
    (Hmode : first_mention_only uf = true)
    (Hcall : matchesFilters h ups swap uf fm uid cache = (ups', Returned site v))
    (Hmatch : matches v = true) :
  isFirstMention v = true
  /\ exists s m, fm = Some s /\ In m s /\ m <> ""
                 /\ (mintOf (inputToken swap) = Some m
                     \/ mintOf (outputToken swap) = Some m).
Proof.
  destruct (match_facts _ _ _ _ _ _ _ _ _ _ Hcall Hmatch)
    as (tok & (_ & _ & _ & _ & _ & Hgate) & _ & _ & Hflag).
  rewrite Hmode in Hgate. cbn [andb] in Hgate. apply negb_false_iff in Hgate.
  split; [congruence|].
  unfold computedFirstMention in Hgate. destruct fm as [s|]; [|discriminate].
  exists s. apply orb_true_iff in Hgate as [H|H];
    destruct (isFirst_In _ _ H) as (k & Hk & Hne & Hin); exists k; auto.
Qed.

Lemma first_mention_only_mode_witness :
  exists s m, Some [BONK_MINT] = Some s /\ In m s /\ m <> ""
              /\ (mintOf (inputToken solToBonk) = Some m
                  \/ mintOf (outputToken solToBonk) = Some m).
Proof.
  assert (Hcall : matchesFilters quietHost ∅ solToBonk
                    (processFilters quietHost
                       (DbRows [ {| filter_type := "first_mention_only"; filter_value := "true" |};
                                 {| filter_type := "notifications_enabled"; filter_value := "true" |} ]))
                    (Some [BONK_MINT]) 1 None
                  = (<[1 := ["sig-sol-bonk"]]> ∅,
                     Returned AtEnd {| matches := true; isFirstMention := true |})).
  { vm_compute. reflexivity. }
  exact (proj2 (first_mention_only_mode quietHost ∅ solToBonk
                  (processFilters quietHost
                     (DbRows [ {| filter_type := "first_mention_only"; filter_value := "true" |};
                               {| filter_type := "notifications_enabled";
                                  filter_value := "true" |} ]))
                  (Some [BONK_MINT]) 1 None _ _ _ eq_refl Hcall eq_refl)).
Defined.

(** ** The whale blacklist *)

Lemma checkWhaleBlacklist_spec (a : option string) (l : list string) :
  checkWhaleBlacklist a l = false
  <-> exists addr e, a = Some addr /\ In e l /\ toLower e = toLower addr.
Proof.
  unfold checkWhaleBlacklist. destruct l as [|x l].
  - cbn. split; [discriminate|]. intros (addr & e & _ & [] & _).
  - cbn [List.length Nat.eqb]. rewrite negb_false_iff, existsb_exists. split.
    + intros (e & Hin & Heq). destruct a as [addr|]; cbn in Heq; [|discriminate].
      apply String.eqb_eq in Heq. eauto.
    + intros (addr & e & -> & Hin & Heq). exists e. split; [exact Hin|].
      cbn. now apply String.eqb_eq.
Qed.

(** X5.  The whale blacklist blocks a fee payer exactly when one of its
    entries equals the address up to letter case; a swap without a fee
    payer is never blocked by it, and no swap matches for a user whose
    whale blacklist holds its fee payer in any casing. *)
Theorem whale_blacklist_rule (h : Host) (ups : gmap Z (list string))
    (swap : Swap) (uf : Filters) (fm : option (list string)) (uid : Z)
    (cache : option (gmap string TokenData)) :
  (forall a l, checkWhaleBlacklist a l = false
               <-> exists addr e, a = Some addr /\ In e l /\ toLower e = toLower addr)
  /\ (forall l, checkWhaleBlacklist None l = true)
  /\ (forall ups' site v addr e,
        matchesFilters h ups swap uf fm uid cache = (ups', Returned site v) ->
        matches v = true ->
        feePayer swap = Some addr -> In e (whale_blacklist uf) ->
        toLower e <> toLower addr).
Proof.
  split; [exact checkWhaleBlacklist_spec|]. split.
  - intros l. destruct (checkWhaleBlacklist None l) eqn:E; [reflexivity|].
    apply checkWhaleBlacklist_spec in E as (addr & e & Habs & _). discriminate.
  - intros ups' site v addr e Hcall Hm Hfee Hin Heq.
    destruct (match_facts _ _ _ _ _ _ _ _ _ _ Hcall Hm) as (_ & _ & Hw & _).
    assert (Hblocked : checkWhaleBlacklist (feePayer swap) (whale_blacklist uf) = false).
    { apply checkWhaleBlacklist_spec. eauto. }
    congruence.
Qed.

Lemma whale_blacklist_rule_witness :
  checkWhaleBlacklist (feePayer solToBonk) (whale_blacklist whaleBlockProfile) = false
  /\ toLower "WHALE1" = toLower "whale1"
  /\ toLower "whale2" <> toLower "whale1".
Proof.
  split; [|split; [reflexivity|]].
  - apply (proj1 (whale_blacklist_rule quietHost ∅ solToBonk whaleBlockProfile None 1 None)).
    exists "whale1", "WHALE1". repeat split. now left.
  - assert (Hcall : matchesFilters quietHost ∅ solToBonk
                      (processFilters quietHost
                         (DbRows [ {| filter_type := "whale_blacklist"; filter_value := "whale2" |};
                                   {| filter_type := "notifications_enabled";
                                      filter_value := "true" |} ]))
                      None 1 None
                    = (<[1 := ["sig-sol-bonk"]]> ∅,
                       Returned AtEnd {| matches := true; isFirstMention := false |})).
    { vm_compute. reflexivity. }
    apply (proj2 (proj2 (whale_blacklist_rule quietHost ∅ solToBonk _ None 1 None))
             _ _ _ "whale1" "whale2" Hcall eq_refl eq_refl).
    now left.
Defined.

(** ** The minimum purchase *)

Lemma checkMinimumPurchase_spec (v : Q) (m : option num) :
  checkMinimumPurchase v m = true
  <-> match m with
      | None | Some NaN | Some NegInf => True
      | Some PosInf => False
      | Some (Fin q) => (q <= 0)%Q \/ (q <= v)%Q
      end.
Proof.
  unfold checkMinimumPurchase. destruct m as [[| |q|]|]; cbn; try tauto.
  - rewrite negb_involutive.
    destruct (Qeq_bool q 0) eqn:Ez; cbn [orb].
    + apply Qeq_bool_iff in Ez. split; [|reflexivity]. intros _. left.
      rewrite Ez. apply Qle_refl.
    + destruct (Qle_bool q 0) eqn:El.
      * apply Qle_bool_iff in El. split; [now left|reflexivity].
      * rewrite Qle_bool_iff. split; [now right|].
        intros [H|H]; [|exact H]. apply Qle_bool_iff in H. congruence.
  - split; [discriminate|contradiction].
Qed.

(** X6.  The minimum-purchase check passes when no minimum is set or
    the stored minimum is not a positive number, and otherwise exactly
    when the USD value reaches it; it is monotone in the value, and a
    swap matches under a positive minimum only with a value of at least
    that minimum (a swap of unknown value, 0, never does). *)
Theorem minimum_purchase_rule (h : Host) (ups : gmap Z (list string))
    (swap : Swap) (uf : Filters) (fm : option (list string)) (uid : Z)
    (cache : option (gmap string TokenData)) :
  (forall v m, checkMinimumPurchase v m = true
               <-> match m with
                   | None | Some NaN | Some NegInf => True
                   | Some PosInf => False
                   | Some (Fin q) => (q <= 0)%Q \/ (q <= v)%Q
                   end)
  /\ (forall v v' m, (v <= v')%Q -> checkMinimumPurchase v m = true ->
                     checkMinimumPurchase v' m = true)
  /\ (forall ups' site v q,
        matchesFilters h ups swap uf fm uid cache = (ups', Returned site v) ->
        matches v = true ->
        min_purchase uf = Some (Fin q) -> (0 < q)%Q ->
        (q <= calculateSwapValueUSD h swap cache)%Q
        /\ (0 < calculateSwapValueUSD h swap cache)%Q).
Proof.
  split; [exact checkMinimumPurchase_spec|]. split.
  - intros v v' m Hle H. apply checkMinimumPurchase_spec in H.
    apply checkMinimumPurchase_spec. destruct m as [[| |q|]|]; try exact H.
    destruct H as [H|H]; [now left|right]. eapply Qle_trans; eassumption.
  - intros ups' site v q Hcall Hm Hmin Hpos.
    destruct (match_facts _ _ _ _ _ _ _ _ _ _ Hcall Hm) as (_ & _ & _ & Hc & _).
    rewrite Hmin in Hc. apply checkMinimumPurchase_spec in Hc.
    destruct Hc as [Hc|Hc]; [exfalso; exact (Qlt_not_le _ _ Hpos Hc)|].
    split; [exact Hc|]. eapply Qlt_le_trans; eassumption.
Qed.

Lemma minimum_purchase_rule_witness :
  (200 <= calculateSwapValueUSD quietHost solToBonk None)%Q.
Proof.
  assert (Hcall : matchesFilters quietHost ∅ solToBonk
                    {| tokens := []; blacklist := []; whale_blacklist := [];
                       min_purchase := Some (Fin 200%Q); max_market_cap := None;
                       monitor_all := true; notifications_enabled := true;
                       first_mention_only := false |}
                    None 1 None
                  = (<[1 := ["sig-sol-bonk"]]> ∅,
                     Returned AtEnd {| matches := true; isFirstMention := false |})).
  { vm_compute. reflexivity. }
  refine (proj1 (proj2 (proj2 (minimum_purchase_rule quietHost ∅ solToBonk _ None 1 None))
                   _ _ _ 200%Q Hcall eq_refl eq_refl _)).
  reflexivity.
Defined.

(** ** When the evaluation throws *)

(** X7.  [matchesFilters] throws exactly when the swap gets as far as
    the token check of a user whose active list (the blacklist in
    monitor-all mode, the whitelist otherwise) is not empty; what is
    thrown is a TypeError, and the history keeps the ids it had.  With
    an empty active list no call throws. *)
Theorem throws_on_nonempty_list (h : Host) (ups : gmap Z (list string))
    (swap : Swap) (uf : Filters) (fm : option (list string)) (uid : Z)
    (cache : option (gmap string TokenData)) :
  let r := matchesFilters h ups swap uf fm uid cache in
  (forall e, snd r = Thrown e
             <-> e = TypeError
                 /\ activeTokenList uf <> []
                 /\ exists tok, reachesTokenCheck ups swap uf fm uid tok)
  /\ (forall e, snd r = Thrown e -> forall u, historyOf (fst r) u = historyOf ups u).
Proof.
  cbv zeta.
  assert (Htc : forall tok e,
             tokenCheckOf h uf tok = Err e <-> e = TypeError /\ activeTokenList uf <> []).
  { intros tok e. rewrite token_check_outcomes. unfold activeTokenList.
    destruct (monitor_all uf).
    - destruct (blacklist uf); cbn; split; try discriminate.
      + intros [_ H]. contradiction.
      + intros [= <-]. split; [reflexivity|discriminate].
      + intros [-> _]. reflexivity.
    - destruct (tokens uf); cbn; split; try discriminate.
      + intros [_ H]. contradiction.
      + intros [= <-]. split; [reflexivity|discriminate].
      + intros [-> _]. reflexivity. }
  pose proof (matchesFilters_path h ups swap uf fm uid cache) as P.
  split.
  - intros e. split.
    + intros E. rewrite E in P.
      inversion P as [| | | | | |tok e' Hreach Hcheck| |]; subst.
      apply Htc in Hcheck as [-> Hne]. eauto.
    + intros (-> & Hne & tok & Hreach).
      assert (Hcheck : tokenCheckOf h uf tok = Err TypeError) by (apply Htc; auto).
      now rewrite (Path_outcome _ _ _ _ _ _ _ _ _
                     (path_throw h ups swap uf fm uid cache tok TypeError Hreach Hcheck)).
  - intros e E u.
    destruct (matchesFilters h ups swap uf fm uid cache) as [ups' out].
    cbn [fst snd] in *. subst out.
    inversion P as [| | | | | |tok e' Hreach Hcheck| |]; subst.
    apply historyOf_ensureSet_any.
Qed.

Lemma throws_on_nonempty_list_witness :
  snd (matchesFilters quietHost ∅ usdcToSol tokenFilterSol None 1 None) = Thrown TypeError
  /\ snd (matchesFilters quietHost ∅ solToBonk
            {| tokens := []; blacklist := ["PEPE"]; whale_blacklist := [];
               min_purchase := None; max_market_cap := None; monitor_all := true;
               notifications_enabled := true; first_mention_only := false |}
            None 1 None) = Thrown TypeError.
Proof.
  split.
  - apply (proj1 (throws_on_nonempty_list quietHost ∅ usdcToSol tokenFilterSol None 1 None)).
    split; [reflexivity|]. split; [discriminate|].
    exists (token USDC_MINT "USDC" 100). repeat split.
  - apply (proj1 (throws_on_nonempty_list quietHost ∅ solToBonk _ None 1 None)).
    split; [reflexivity|]. split; [discriminate|].
    exists (token BONK_MINT "BONK" 5000). repeat split.
Defined.

(** ** Resolved market caps *)

(** X8.  A market cap is never a negative number, provided
    DexScreener reports no negative market cap and the cycle cache holds
    none: a hardcoded supply only multiplies a positive price, and every
    other case falls back to 0.  It can fail to be a number: the supply
    table is read through [Object.prototype], so [getTokenData] returns
    NaN exactly for a priced token whose symbol is a string naming an
    inherited member ([constructor], [toString], ...), and it reports
    such a token as one of hardcoded supply.  The market-cap check
    itself passes the symbol as a promise, so off the cache (or on a
    cache of numbers) what it looks at is a number. *)
Theorem market_cap_never_negative (h : Host)
    (cache : option (gmap string TokenData)) (tok : Token)
    (Hfeed : forall m, (0 <= dexMarketCap (getDexScreenerData h m))%Q)
    (Hcache : forall c k d, cache = Some c -> c !! k = Some d -> capNonneg (marketCap d)) :
  capNonneg (marketCap (marketCapData h cache tok))
  /\ ((forall c k d, cache = Some c -> c !! k = Some d -> marketCap d <> CapNaN) ->
      exists q, marketCap (marketCapData h cache tok) = Cap q /\ (0 <= q)%Q)
  /\ (forall m sym,
        (forall q, marketCap (getTokenData h m sym) = Cap q -> (0 <= q)%Q)
        /\ (marketCap (getTokenData h m sym) = CapNaN
            <-> inheritedSymbol sym = true /\ (0 < price (getTokenData h m sym))%Q)
        /\ (inheritedSymbol sym = true -> isHardcodedSupply (getTokenData h m sym) = true)).
Proof.
  pose proof (resolved_market_cap_nonneg h cache tok Hfeed Hcache) as Hres.
  split; [exact Hres|]. split.
  - intros Hnum.
    assert (Hnot : marketCap (marketCapData h cache tok) <> CapNaN).
    { unfold marketCapData, cachedOrFetched.
      assert (Hfetch : marketCap (getTokenData h (mint tok) (symbolNotAwaited h (Some tok)))
                       <> CapNaN).
      { intros E. apply (getTokenData_market_cap h _ _ Hfeed) in E as [E _].
        unfold symbolNotAwaited in E. discriminate E. }
      destruct cache as [c|]; [|exact Hfetch].
      destruct (mint tok ≫= (fun k => c !! k)) as [d|] eqn:Hd; [|exact Hfetch].
      destruct (mint tok) as [k|]; [|discriminate]. cbn in Hd.
      exact (Hnum c k d eq_refl Hd). }
    destruct (marketCap (marketCapData h cache tok)) as [q|]; [|congruence].
    exists q. split; [reflexivity|exact Hres].
  - intros m sym. destruct (getTokenData_market_cap h m sym Hfeed) as [Hnan Hnn].
    split; [|split].
    + intros q E. rewrite E in Hnn. exact Hnn.
    + exact Hnan.
    + intros Hin. apply (getTokenSupply_inherited m) in Hin.
      unfold getTokenData. cbv zeta. rewrite Hin. reflexivity.
Qed.

Lemma market_cap_never_negative_witness :
  (exists q, marketCap (marketCapData dexOnlyHost (Some bonkCache) (token BONK_MINT "BONK" 1))
             = Cap q /\ (0 <= q)%Q)
  /\ (exists q, marketCap (marketCapData dexOnlyHost (Some bonkCache) pumpToken) = Cap q
                /\ (0 <= q)%Q)
  /\ marketCap (getTokenData pricedHost (Some BONK_MINT) (JString "constructor")) = CapNaN.
Proof.
  assert (Hfeed : forall m, (0 <= dexMarketCap (getDexScreenerData dexOnlyHost m))%Q)
    by (intros m; discriminate).
  assert (Hcache : forall c k d, Some bonkCache = Some c -> c !! k = Some d ->
                                 capNonneg (marketCap d)).
  { intros c k d [= <-] Hk. unfold bonkCache in Hk.
    apply lookup_singleton_Some in Hk as [_ <-]. discriminate. }
  assert (Hnum : forall c k d, Some bonkCache = Some c -> c !! k = Some d ->
                               marketCap d <> CapNaN).
  { intros c k d [= <-] Hk. unfold bonkCache in Hk.
    apply lookup_singleton_Some in Hk as [_ <-]. discriminate. }
  assert (Hfeed' : forall m, (0 <= dexMarketCap (getDexScreenerData pricedHost m))%Q)
    by (intros m; discriminate).
  assert (Hnone : forall c k d, @None (gmap string TokenData) = Some c -> c !! k = Some d ->
                                capNonneg (marketCap d)) by (intros c k d E; discriminate E).
  split; [|split].
  - exact (proj1 (proj2 (market_cap_never_negative dexOnlyHost (Some bonkCache) _
                           Hfeed Hcache)) Hnum).
  - exact (proj1 (proj2 (market_cap_never_negative dexOnlyHost (Some bonkCache) _
                           Hfeed Hcache)) Hnum).
  - apply (proj2 (proj2 (market_cap_never_negative pricedHost None pumpToken Hfeed' Hnone))
             (Some BONK_MINT) (JString "constructor")).
    split; [reflexivity|]. vm_compute. reflexivity.
Defined.

Lemma suffix_supply (k : string) (sym : jsval) :
  k <> "" -> supplyOf sym = None ->
  endsWith k "pump" = true \/ endsWith k "bonk" = true ->
  getTokenSupply (Some k) sym = Some (Supply 1000000000%Q).
Proof.
  intros Hne Hs Hsuffix. unfold getTokenSupply. rewrite Hs.
  rewrite (proj2 (truthy_Some k) Hne). cbn [andb].
  destruct (endsWith k "pump"); [reflexivity|].
  destruct Hsuffix as [H|H]; [discriminate|]. now rewrite H.
Qed.

(** X9.  For a token that is not in the cycle cache and whose mint ends
    in [pump] or [bonk], the market-cap check works on a hardcoded
    supply of one billion: the market cap is the resolved price times
    that supply, whatever DexScreener reports as market cap, and with no
    price from either feed it is 0, so an active market-cap filter
    rejects the token. *)
Theorem suffix_supply_overrides_feed (h : Host) (tok : Token) (k : string) (mx : num)
    (Hmint : mint tok = Some k) (Hne : k <> "")
    (Hsuffix : endsWith k "pump" = true \/ endsWith k "bonk" = true) :
  let d := marketCapData h None tok in
  isHardcodedSupply d = true
  /\ ((0 < price d)%Q -> marketCap d = Cap (price d * 1000000000)%Q)
  /\ (~ (0 < price d)%Q -> marketCap d = Cap 0%Q)
  /\ ((jupPrice (getJupiterPriceData h (Some k)) == 0)%Q ->
      (dexPrice (getDexScreenerData h (Some k)) == 0)%Q ->
      num_gt0 mx = true ->
      checkMarketCap h tok (Some mx) None = false).
Proof.
  cbv zeta.
  assert (Hd : marketCapData h None tok
               = {| price := q_or (jupPrice (getJupiterPriceData h (Some k)))
                                  (q_or (dexPrice (getDexScreenerData h (Some k))) 0%Q);
                    marketCap :=
                      if negb (Qle_bool
                                 (q_or (jupPrice (getJupiterPriceData h (Some k)))
                                       (q_or (dexPrice (getDexScreenerData h (Some k))) 0%Q)) 0)
                      then Cap (q_or (jupPrice (getJupiterPriceData h (Some k)))
                                      (q_or (dexPrice (getDexScreenerData h (Some k))) 0%Q)
                                 * 1000000000)%Q
                      else Cap 0%Q;
                    isHardcodedSupply := true;
                    cachedSymbol := None |}).
  { unfold marketCapData, cachedOrFetched, getTokenData. rewrite Hmint.
    now rewrite (suffix_supply k (symbolNotAwaited h (Some tok)) Hne eq_refl Hsuffix). }
  rewrite Hd. cbn [isHardcodedSupply price marketCap].
  split; [reflexivity|]. split; [|split].
  - intros Hp. now rewrite (proj2 (positive_price _) Hp).
  - intros Hp. destruct (negb (Qle_bool _ 0)) eqn:E; [|reflexivity].
    apply positive_price in E. contradiction.
  - intros Hj Hx Hgt. rewrite checkMarketCap_active by exact Hgt. rewrite Hd.
    cbn [marketCap]. unfold q_or.
    apply Qeq_bool_iff in Hj, Hx. rewrite Hj, Hx. reflexivity.
Qed.

Lemma suffix_supply_overrides_feed_witness :
  dexMarketCap (getDexScreenerData dexOnlyHost (mint pumpToken)) = 5000%Q
  /\ checkMarketCap dexOnlyHost pumpToken (Some (Fin 1000000%Q)) None = false.
Proof.
  split; [reflexivity|].
  apply (suffix_supply_overrides_feed dexOnlyHost pumpToken
           "7GCihgDB8fe6KNjn2MYtkzZcRjQy3t9GHdC8uHYmpump" (Fin 1000000%Q) eq_refl);
    [discriminate | left; reflexivity | reflexivity | reflexivity | reflexivity].
Defined.

(** * The bot: rate limit, user tables and settings handlers *)

(** ** Rows of a user under the table operations *)

Lemma rowsOf_app t1 t2 u : rowsOf (t1 ++ t2) u = (rowsOf t1 u ++ rowsOf t2 u)%list.
Proof. unfold rowsOf. now rewrite List.filter_app, map_app. Qed.

Lemma rowsOf_add t u ty v u' :
  rowsOf (t ++ [(u, row ty v)]) u'
  = (rowsOf t u' ++ (if Z.eqb u u' then [row ty v] else []))%list.
Proof. rewrite rowsOf_app. unfold rowsOf at 2. cbn. destruct (Z.eqb u u'); reflexivity. Qed.

Lemma rowsOf_filter (P : Z * FilterRow -> bool) (Q : FilterRow -> bool) t u :
  (forall r, fst r = u -> P r = Q (snd r)) ->
  rowsOf (List.filter P t) u = List.filter Q (rowsOf t u).
Proof.
  intros HPQ. unfold rowsOf. induction t as [|r t IH]; [reflexivity|].
  cbn [List.filter]. destruct (Z.eqb_spec (fst r) u) as [E|E].
  - rewrite (HPQ r E). destruct (Q (snd r)) eqn:Eq; cbn [List.filter map].
    + destruct (Z.eqb_spec (fst r) u); [|contradiction]. cbn. rewrite Eq. now f_equal.
    + rewrite Eq. exact IH.
  - destruct (P r); cbn [List.filter]; [|exact IH].
    destruct (Z.eqb_spec (fst r) u); [contradiction|]. exact IH.
Qed.

Lemma rowsOf_filter_other (P : Z * FilterRow -> bool) t u :
  (forall r, fst r = u -> P r = true) ->
  rowsOf (List.filter P t) u = rowsOf t u.
Proof.
  intros H. rewrite (rowsOf_filter P (fun _ => true)) by exact H.
  induction (rowsOf t u) as [|x l IH]; [reflexivity|]. cbn. now f_equal.
Qed.

Lemma rowsOf_clear_type t u ty u' :
  ty <> "" ->
  rowsOf (List.filter (fun r => negb (cleared u (Some ty) r)) t) u'
  = if Z.eqb u u' then withoutType ty (rowsOf t u') else rowsOf t u'.
Proof.
  intros Hne. assert (Hw : whenTruthy (Some ty) = Some ty).
  { unfold whenTruthy. now rewrite (proj2 (truthy_Some ty) Hne). }
  destruct (Z.eqb_spec u u') as [<-|Hd].
  - apply rowsOf_filter. intros r Hr. unfold cleared. rewrite Hw, Hr, Z.eqb_refl.
    reflexivity.
  - apply rowsOf_filter_other. intros r Hr. unfold cleared.
    destruct (Z.eqb_spec (fst r) u); [congruence|reflexivity].
Qed.

Lemma rowsOf_clear_all t u u' :
  rowsOf (List.filter (fun r => negb (cleared u None r)) t) u'
  = if Z.eqb u u' then [] else rowsOf t u'.
Proof.
  destruct (Z.eqb_spec u u') as [<-|Hd].
  - rewrite (rowsOf_filter _ (fun _ => false)).
    + induction (rowsOf t u) as [|x l IH]; [reflexivity|]. exact IH.
    + intros r Hr. unfold cleared. cbn. now rewrite Hr, Z.eqb_refl.
  - apply rowsOf_filter_other. intros r Hr. unfold cleared.
    destruct (Z.eqb_spec (fst r) u); [congruence|reflexivity].
Qed.

Lemma valuesOf_withoutType ty ty' rows :
  valuesOf ty' (withoutType ty rows)
  = if String.eqb ty' ty then [] else valuesOf ty' rows.
Proof.
  unfold valuesOf, withoutType. induction rows as [|r rows IH].
  - cbn. now destruct (String.eqb ty' ty).
  - cbn [List.filter]. destruct (String.eqb_spec (filter_type r) ty) as [E|E]; cbn [negb].
    + rewrite IH. destruct (String.eqb_spec ty' ty) as [->|E']; [reflexivity|].
      destruct (String.eqb_spec (filter_type r) ty'); [congruence|reflexivity].
    + cbn [List.filter]. destruct (String.eqb_spec (filter_type r) ty') as [E2|E2]; cbn [map].
      * rewrite IH. destruct (String.eqb_spec ty' ty); [congruence|reflexivity].
      * exact IH.
Qed.

Lemma valuesOf_snoc ty rows ty' v :
  valuesOf ty (rows ++ [row ty' v])
  = (valuesOf ty rows ++ (if String.eqb ty' ty then [v] else []))%list.
Proof.
  rewrite valuesOf_app. f_equal. unfold valuesOf. cbn.
  destruct (String.eqb ty' ty); reflexivity.
Qed.

Lemma quiet_world (w : World) : outages w = [] -> w = quietWorld (filtersTable w) w.
Proof. destruct w. cbn. intros ->. reflexivity. Qed.

(** ** The rate limiter *)

Lemma checkRateLimit_effect now u rl :
  let r := checkRateLimit now u rl in
  fst r = Nat.ltb (countOf rl u now) dailyLimit
  /\ countOf (snd r) u now = (if fst r then S (countOf rl u now) else countOf rl u now)
  /\ (fst r = false -> snd r = rl)
  /\ (forall key, key <> (u, dayOf now) -> snd r !! key = rl !! key).
Proof.
  cbv zeta. unfold checkRateLimit, countOf.
  destruct (Nat.leb_spec dailyLimit (default 0%nat (rl !! (u, dayOf now)))) as [Hge|Hlt];
    cbn [fst snd].
  - destruct (Nat.ltb_spec (default 0%nat (rl !! (u, dayOf now))) dailyLimit); [lia|].
    repeat split; reflexivity.
  - destruct (Nat.ltb_spec (default 0%nat (rl !! (u, dayOf now))) dailyLimit); [|lia].
    split; [reflexivity|]. split; [now rewrite lookup_insert_eq|].
    split; [discriminate|]. intros key Hk. now rewrite lookup_insert_ne.
Qed.

(** X10.  The rate limiter lets a user through exactly while fewer than
    500 interactions of that user were let through on the same day: of
    consecutive interactions within one day, the [i]-th (from 0) passes
    just when the count before the first plus [i] is below 500, so from
    a fresh limiter the first 500 pass and all later ones are refused.  A
    refused interaction changes nothing, and counters of other users or
    days are never touched. *)
Theorem daily_limit_of_500 (u d : Z) (times : list Z) (rl : gmap (Z * Z) nat)
    (Hday : forall t, In t times -> dayOf t = d) :
  rateRun u times rl
  = map (fun i => Nat.ltb (default 0%nat (rl !! (u, d)) + i) 500)
        (seq 0 (List.length times))
  /\ forall now,
       (fst (checkRateLimit now u rl) = false -> snd (checkRateLimit now u rl) = rl)
       /\ (forall key, key <> (u, dayOf now) ->
                       snd (checkRateLimit now u rl) !! key = rl !! key).
Proof.
  split.
  - revert rl. induction times as [|now rest IH]; intros rl; [reflexivity|].
    assert (Hnow : dayOf now = d) by (apply Hday; now left).
    assert (Hrest : forall t, In t rest -> dayOf t = d) by (intros t Ht; apply Hday; now right).
    specialize (IH Hrest). cbn [rateRun List.length seq map].
    pose proof (checkRateLimit_effect now u rl) as (Hok & Hcount & Hsame & _).
    destruct (checkRateLimit now u rl) as [ok rl']. cbn [fst snd] in *.
    unfold countOf in *. rewrite Hnow in *. rewrite IH, Nat.add_0_r.
    unfold dailyLimit in Hok. f_equal; [exact Hok|].
    rewrite <- seq_shift, map_map. apply map_ext_in. intros i _.
    destruct ok.
    + rewrite Hcount. f_equal. lia.
    + rewrite (Hsame eq_refl). symmetry in Hok. apply Nat.ltb_ge in Hok.
      destruct (Nat.ltb_spec (default 0%nat (rl !! (u, d)) + i) 500); [lia|].
      destruct (Nat.ltb_spec (default 0%nat (rl !! (u, d)) + S i) 500); [lia|reflexivity].
  - intros now. pose proof (checkRateLimit_effect now u rl) as (_ & _ & Hsame & Hother).
    split; assumption.
Qed.

Lemma daily_limit_of_500_witness :
  rateRun 7 [86400000; 86400001; 172799999] (<[(7, 1) := 499%nat]> ∅)
  = [true; false; false].
Proof.
  assert (Hday : forall t, In t [86400000; 86400001; 172799999] -> dayOf t = 1)
    by (intros t [<-|[<-|[<-|[]]]]; reflexivity).
  rewrite (proj1 (daily_limit_of_500 7 1 [86400000; 86400001; 172799999]
                    (<[(7, 1) := 499%nat]> ∅) Hday)).
  reflexivity.
Defined.

(** ** The settings handlers on a working database *)

Lemma rowsOf_tableWith t u rows u' :
  rowsOf (tableWith u rows t) u' = (rowsOf t u' ++ (if Z.eqb u u' then rows else []))%list.
Proof.
  unfold tableWith. rewrite rowsOf_app. f_equal. unfold rowsOf.
  induction rows as [|r rows IH]; cbn.
  - now destruct (Z.eqb u u').
  - destruct (Z.eqb u u') eqn:E; cbn; [now f_equal|exact IH].
Qed.

Lemma rowsOf_tableWithout t u ty u' :
  ty <> "" ->
  rowsOf (tableWithout u (Some ty) t) u'
  = if Z.eqb u u' then withoutType ty (rowsOf t u') else rowsOf t u'.
Proof. apply rowsOf_clear_type. Qed.

Lemma withoutType_app ty l1 l2 :
  withoutType ty (l1 ++ l2) = (withoutType ty l1 ++ withoutType ty l2)%list.
Proof. apply List.filter_app. Qed.

Lemma bindE_ok {A B : Type} (m : M (res A)) (k : A -> M (res B)) w a w' :
  m w = (Ok a, w') -> bindE m k w = k a w'.
Proof. unfold bindE, bind. intros ->. reflexivity. Qed.

Lemma getUserFilters_quiet u t w :
  getUserFilters u (quietWorld t w)
  = (Ok (rowsOf t u), quietWorld t (snd (emit (EvSelectFilters u) w))).
Proof. reflexivity. Qed.

Lemma clearFilters_quiet u ty t w :
  clearFilters u ty (quietWorld t w)
  = (Ok (List.length (List.filter (cleared u ty) t)), quietWorld (tableWithout u ty t) w).
Proof. reflexivity. Qed.

Lemma addFilter_quiet u ty v t w :
  addFilter u ty v (quietWorld t w) = (Ok tt, quietWorld (tableWith u [row ty v] t) w).
Proof. reflexivity. Qed.

Lemma removeFilter_quiet u ty v t w :
  removeFilter u ty v (quietWorld t w)
  = (Ok (List.length (List.filter (sameFilter u ty v) t)),
     quietWorld (List.filter (fun r => negb (sameFilter u ty v r)) t) w).
Proof. reflexivity. Qed.

Lemma tableWith_tableWith u r1 r2 t :
  tableWith u r2 (tableWith u r1 t) = tableWith u (r1 ++ r2) t.
Proof. unfold tableWith. now rewrite map_app, app_assoc. Qed.

Ltac quiet_steps :=
  repeat (erewrite bindE_ok;
          [| first [ apply getUserFilters_quiet | apply clearFilters_quiet
                   | apply addFilter_quiet | apply removeFilter_quiet ] ]).

Lemma cycleMonitorMode_quiet h u t w :
  let next := nextModeOf (currentModeOf (processFilters h (DbRows (rowsOf t u)))) in
  cycleMonitorMode h u (quietWorld t w)
  = (Ok next,
     quietWorld
       (tableWith u [row "notifications_enabled" "false"]
          (tableWithout u (Some "notifications_enabled")
             (tableWith u (modeRows next)
                (tableWithout u (Some "first_mention_only")
                   (tableWithout u (Some "monitor_all") t)))))
       (snd (emit (EvSelectFilters u) w))).
Proof.
  cbv zeta. unfold cycleMonitorMode. quiet_steps.
  destruct (nextModeOf (currentModeOf (processFilters h (DbRows (rowsOf t u)))));
    quiet_steps; unfold ret, quietWorld, tableWith, modeRows;
    cbn [filtersTable unique_tokens usersTable history trace outages map];
    rewrite <- ?app_assoc; reflexivity.
Qed.

Ltac values_norm :=
  repeat rewrite ?valuesOf_app, ?withoutType_app, ?valuesOf_withoutType;
  cbn [String.eqb Ascii.eqb Bool.eqb app].

Lemma withoutType_modeRows m :
  withoutType "notifications_enabled" (modeRows m) = modeRows m.
Proof. destruct m; reflexivity. Qed.

(** The profile after the mode rows and the notification row have been
    rewritten. *)
Lemma profile_after_mode h rows next :
  processFilters h
    (DbRows (withoutType "notifications_enabled"
               (withoutType "first_mention_only" (withoutType "monitor_all" rows)
                ++ modeRows next)
             ++ [row "notifications_enabled" "false"]))
  = {| tokens := tokens (processFilters h (DbRows rows));
       blacklist := blacklist (processFilters h (DbRows rows));
       whale_blacklist := whale_blacklist (processFilters h (DbRows rows));
       min_purchase := min_purchase (processFilters h (DbRows rows));
       max_market_cap := max_market_cap (processFilters h (DbRows rows));
       monitor_all := match next with TokenFilter => false | _ => true end;
       notifications_enabled := false;
       first_mention_only := match next with FirstMention => true | _ => false end |}.
Proof.
  rewrite !processFilters_fields.
  cbn [tokens blacklist whale_blacklist min_purchase max_market_cap].
  values_norm.
  destruct next; cbn; rewrite ?app_nil_r; reflexivity.
Qed.

Lemma checkRateLimit_under s chatId now :
  underLimit s chatId now ->
  checkRateLimit now chatId (rateLimiter s)
  = (true, <[(chatId, dayOf now) := S (countOf (rateLimiter s) chatId now)]> (rateLimiter s)).
Proof.
  unfold underLimit, checkRateLimit, countOf. intros H.
  destruct (Nat.leb_spec dailyLimit (default 0%nat (rateLimiter s !! (chatId, dayOf now))));
    [lia|reflexivity].
Qed.

Lemma rows_after_mode t u next :
  rowsOf (tableWith u [row "notifications_enabled" "false"]
            (tableWithout u (Some "notifications_enabled")
               (tableWith u (modeRows next)
                  (tableWithout u (Some "first_mention_only")
                     (tableWithout u (Some "monitor_all") t))))) u
  = (withoutType "notifications_enabled"
       (withoutType "first_mention_only" (withoutType "monitor_all" (rowsOf t u))
        ++ modeRows next)
     ++ [row "notifications_enabled" "false"])%list.
Proof.
  rewrite rowsOf_tableWith, rowsOf_tableWithout by discriminate.
  rewrite rowsOf_tableWith, !rowsOf_tableWithout by discriminate.
  now rewrite Z.eqb_refl.
Qed.

Lemma rows_of_others t u u' rows tys :
  u' <> u ->
  rowsOf (tableWith u rows t) u' = rowsOf t u'
  /\ rowsOf (tableWithout u tys t) u' = rowsOf t u'.
Proof.
  intros Hne. split.
  - rewrite rowsOf_tableWith. destruct (Z.eqb_spec u u'); [congruence|].
    now rewrite app_nil_r.
  - apply rowsOf_filter_other. intros r Hr. unfold cleared.
    destruct (Z.eqb_spec (fst r) u); [congruence|reflexivity].
Qed.

Lemma onCallbackQuery_mode h parseInt now chatId s :
  outages (world s) = [] -> underLimit s chatId now ->
  let next := nextModeOf (currentModeOf (profileOf h (world s) chatId)) in
  onCallbackQuery h parseInt now chatId "cycle_monitor_mode" s
  = reply chatId (ModeChanged next)
      (withWorld
         (quietWorld
            (tableWith chatId [row "notifications_enabled" "false"]
               (tableWithout chatId (Some "notifications_enabled")
                  (tableWith chatId (modeRows next)
                     (tableWithout chatId (Some "first_mention_only")
                        (tableWithout chatId (Some "monitor_all")
                           (filtersTable (world s)))))))
            (snd (emit (EvSelectFilters chatId) (world s))))
         (withLimiter
            (<[(chatId, dayOf now) := S (countOf (rateLimiter s) chatId now)]> (rateLimiter s))
            s)).
Proof.
  intros Hquiet Hrate. cbv zeta. unfold onCallbackQuery.
  rewrite (checkRateLimit_under s chatId now Hrate).
  cbn [negb assoc promptButtons String.eqb Ascii.eqb Bool.eqb].
  cbn [world withLimiter].
  pose proof (cycleMonitorMode_quiet h chatId (filtersTable (world s)) (world s)) as Hc.
  cbv zeta in Hc. rewrite <- (quiet_world (world s) Hquiet) in Hc. rewrite Hc.
  reflexivity.
Qed.

(** X11.  The mode button, on a working database and under the rate
    limit: the user's mode moves one step along All Tokens, Token
    Filter, First Mention Only and back to All Tokens; notifications are
    switched off; the user's lists and thresholds and every other user's
    rows stay as they were; and the reply names the new mode. *)
Theorem mode_button_rotates (h : Host) (parseInt : string -> option Z)
    (now chatId : Z) (s : BotState)
    (Hquiet : outages (world s) = [])
    (Hrate : underLimit s chatId now) :
  let s' := onCallbackQuery h parseInt now chatId "cycle_monitor_mode" s in
  let before := profileOf h (world s) chatId in
  let after := profileOf h (world s') chatId in
  currentModeOf after = nextModeOf (currentModeOf before)
  /\ notifications_enabled after = false
  /\ tokens after = tokens before
  /\ blacklist after = blacklist before
  /\ whale_blacklist after = whale_blacklist before
  /\ min_purchase after = min_purchase before
  /\ max_market_cap after = max_market_cap before
  /\ (forall u, u <> chatId ->
                rowsOf (filtersTable (world s')) u = rowsOf (filtersTable (world s)) u)
  /\ outbox s' = (outbox s ++ [(chatId, ModeChanged (nextModeOf (currentModeOf before)))])%list.
Proof.
  cbv zeta. pose proof (onCallbackQuery_mode h parseInt now chatId s Hquiet Hrate) as Hs.
  cbv zeta in Hs. rewrite Hs. clear Hs.
  cbn [reply withWorld world outbox withLimiter].
  unfold profileOf. cbn [quietWorld filtersTable].
  rewrite rows_after_mode, profile_after_mode.
  cbn [notifications_enabled tokens blacklist whale_blacklist min_purchase max_market_cap].
  split.
  { unfold currentModeOf at 1. cbn [first_mention_only monitor_all].
    destruct (nextModeOf _); reflexivity. }
  repeat (split; [reflexivity|]).
  split; [|reflexivity].
  intros u Hne.
  repeat match goal with
         | |- context [rowsOf (tableWith chatId ?r ?t) u] =>
             rewrite (proj1 (rows_of_others t chatId u r None Hne))
         | |- context [rowsOf (tableWithout chatId ?ty ?t) u] =>
             rewrite (proj2 (rows_of_others t chatId u [] ty Hne))
         end.
  reflexivity.
Qed.

Lemma mode_button_rotates_witness :
  currentModeOf (profileOf quietHost (world freshBot) 7) = AllTokens
  /\ notifications_enabled (profileOf quietHost (world freshBot) 7) = true
  /\ currentModeOf
       (profileOf quietHost
          (world (onCallbackQuery quietHost smallParseInt 0 7 "cycle_monitor_mode" freshBot)) 7)
     = TokenFilter
  /\ notifications_enabled
       (profileOf quietHost
          (world (onCallbackQuery quietHost smallParseInt 0 7 "cycle_monitor_mode" freshBot)) 7)
     = false.
Proof.
  split; [reflexivity|]. split; [reflexivity|].
  assert (Hrate : underLimit freshBot 7 0) by (unfold underLimit, countOf, dailyLimit; cbn [freshBot rateLimiter];
        rewrite lookup_empty; cbn; lia).
  destruct (mode_button_rotates quietHost smallParseInt 0 7 freshBot eq_refl Hrate)
    as (Hmode & Hoff & _).
  split; [exact Hmode|exact Hoff].
Defined.

Lemma toggleNotifications_quiet h u t w :
  let newValue := negb (notifications_enabled (processFilters h (DbRows (rowsOf t u)))) in
  toggleNotifications h u (quietWorld t w)
  = (Ok newValue,
     quietWorld
       (tableWith u [row "notifications_enabled" (boolText newValue)]
          (tableWithout u (Some "notifications_enabled") t))
       (snd (emit (EvSelectFilters u) w))).
Proof. cbv zeta. unfold toggleNotifications. quiet_steps. reflexivity. Qed.

Lemma onCallbackQuery_toggle h parseInt now chatId s :
  outages (world s) = [] -> underLimit s chatId now ->
  let newValue := negb (notifications_enabled (profileOf h (world s) chatId)) in
  onCallbackQuery h parseInt now chatId "toggle_notifications" s
  = reply chatId (NotificationsSet newValue)
      (withWorld
         (quietWorld
            (tableWith chatId [row "notifications_enabled" (boolText newValue)]
               (tableWithout chatId (Some "notifications_enabled")
                  (filtersTable (world s))))
            (snd (emit (EvSelectFilters chatId) (world s))))
         (withLimiter
            (<[(chatId, dayOf now) := S (countOf (rateLimiter s) chatId now)]> (rateLimiter s))
            s)).
Proof.
  intros Hquiet Hrate. cbv zeta. unfold onCallbackQuery.
  rewrite (checkRateLimit_under s chatId now Hrate).
  cbn [negb assoc promptButtons String.eqb Ascii.eqb Bool.eqb].
  cbn [world withLimiter].
  pose proof (toggleNotifications_quiet h chatId (filtersTable (world s)) (world s)) as Hc.
  cbv zeta in Hc. rewrite <- (quiet_world (world s) Hquiet) in Hc. rewrite Hc.
  reflexivity.
Qed.

Lemma valuesOf_single ty ty' v :
  valuesOf ty [row ty' v] = if String.eqb ty' ty then [v] else [].
Proof. unfold valuesOf. cbn. destruct (String.eqb ty' ty); reflexivity. Qed.

Lemma profile_after_switch h rows b :
  processFilters h
    (DbRows (withoutType "notifications_enabled" rows
             ++ [row "notifications_enabled" (boolText b)]))
  = {| tokens := tokens (processFilters h (DbRows rows));
       blacklist := blacklist (processFilters h (DbRows rows));
       whale_blacklist := whale_blacklist (processFilters h (DbRows rows));
       min_purchase := min_purchase (processFilters h (DbRows rows));
       max_market_cap := max_market_cap (processFilters h (DbRows rows));
       monitor_all := monitor_all (processFilters h (DbRows rows));
       notifications_enabled := b;
       first_mention_only := first_mention_only (processFilters h (DbRows rows)) |}.
Proof.
  rewrite !processFilters_fields.
  cbn [tokens blacklist whale_blacklist min_purchase max_market_cap monitor_all
       first_mention_only].
  values_norm. rewrite !valuesOf_single.
  cbn [String.eqb Ascii.eqb Bool.eqb app lastOf flagOr].
  rewrite ?app_nil_r. destruct b; reflexivity.
Qed.

(** X12.  The notifications button, on a working database and under the
    rate limit: the switch is flipped (whatever number of rows stored it
    before, a single row stores it afterwards) and nothing else of the
    user's profile, and no row of any other user, changes. *)
Theorem notifications_button_flips (h : Host) (parseInt : string -> option Z)
    (now chatId : Z) (s : BotState)
    (Hquiet : outages (world s) = [])
    (Hrate : underLimit s chatId now) :
  let s' := onCallbackQuery h parseInt now chatId "toggle_notifications" s in
  let before := profileOf h (world s) chatId in
  let after := profileOf h (world s') chatId in
  notifications_enabled after = negb (notifications_enabled before)
  /\ tokens after = tokens before
  /\ blacklist after = blacklist before
  /\ whale_blacklist after = whale_blacklist before
  /\ min_purchase after = min_purchase before
  /\ max_market_cap after = max_market_cap before
  /\ monitor_all after = monitor_all before
  /\ first_mention_only after = first_mention_only before
  /\ List.length (valuesOf "notifications_enabled"
                    (rowsOf (filtersTable (world s')) chatId)) = 1%nat
  /\ (forall u, u <> chatId ->
                rowsOf (filtersTable (world s')) u = rowsOf (filtersTable (world s)) u).
Proof.
  cbv zeta. pose proof (onCallbackQuery_toggle h parseInt now chatId s Hquiet Hrate) as Hs.
  cbv zeta in Hs. rewrite Hs. clear Hs.
  cbn [reply withWorld world outbox withLimiter].
  unfold profileOf. cbn [quietWorld filtersTable].
  rewrite rowsOf_tableWith, rowsOf_tableWithout, Z.eqb_refl by discriminate.
  rewrite profile_after_switch.
  cbn [notifications_enabled tokens blacklist whale_blacklist min_purchase max_market_cap
       monitor_all first_mention_only].
  repeat (split; [reflexivity|]). split.
  - rewrite valuesOf_app, valuesOf_withoutType. reflexivity.
  - intros u Hne.
    rewrite (proj1 (rows_of_others _ chatId u _ None Hne)).
    now rewrite (proj2 (rows_of_others _ chatId u [] _ Hne)).
Qed.

Lemma notifications_button_flips_witness :
  notifications_enabled
    (profileOf quietHost
       (world (onCallbackQuery quietHost smallParseInt 0 7 "toggle_notifications" freshBot)) 7)
  = false.
Proof.
  assert (Hrate : underLimit freshBot 7 0) by (unfold underLimit, countOf, dailyLimit; cbn [freshBot rateLimiter];
        rewrite lookup_empty; cbn; lia).
  exact (proj1 (notifications_button_flips quietHost smallParseInt 0 7 freshBot eq_refl Hrate)).
Defined.

Lemma onCallbackQuery_clear h parseInt now chatId s :
  underLimit s chatId now ->
  onCallbackQuery h parseInt now chatId "clear_all_filters" s
  = let s1 := withLimiter
                (<[(chatId, dayOf now) := S (countOf (rateLimiter s) chatId now)]>
                   (rateLimiter s)) s in
    match fst (clearAllFilters chatId (world s)) with
    | Ok _ => reply chatId AllCleared
                (withWorld (snd (clearAllFilters chatId (world s))) s1)
    | Err _ => reply chatId CallbackFailed
                 (withWorld (snd (clearAllFilters chatId (world s))) s1)
    end.
Proof.
  intros Hrate. unfold onCallbackQuery.
  rewrite (checkRateLimit_under s chatId now Hrate).
  cbn [negb assoc promptButtons String.eqb Ascii.eqb Bool.eqb].
  cbn [world withLimiter].
  destruct (clearAllFilters chatId (world s)) as [[x|e] w]; reflexivity.
Qed.

(** What [clearAllFilters] leaves behind, for every schedule of
    database failures. *)
Lemma clearAllFilters_outcomes chatId w :
  let r := clearAllFilters chatId w in
  (exists e, fst r = Err e /\ filtersTable (snd r) = filtersTable w)
  \/ (exists e, fst r = Err e
                /\ filtersTable (snd r) = tableWithout chatId None (filtersTable w))
  \/ (fst r = Ok tt
      /\ filtersTable (snd r)
         = tableWith chatId [row "notifications_enabled" "false"]
             (tableWithout chatId None (filtersTable w))).
Proof.
  cbv zeta. unfold clearAllFilters, bindE, bind, clearFilters, addFilter, poolQuery, ret,
    setFiltersTable.
  unfold tableWith, tableWithout, row.
  destruct w as [ut us ft o hi tr].
  destruct o as [|[|] rest]; cbn.
  - right; right. split; reflexivity.
  - left. exists QueryError. split; reflexivity.
  - destruct rest as [|[|] rest]; cbn.
    + right; right. split; reflexivity.
    + right; left. exists QueryError. split; reflexivity.
    + right; right. split; reflexivity.
Qed.

(** X13.  The clear-all button, under the rate limit and for every
    schedule of database failures: either nothing was deleted and the
    user's rows are as before, or all rows of the user are gone and the
    profile is the default one, notifications off; rows of other users
    are never touched.  On a working database the user is left with the
    single row that stores notifications off. *)
Theorem clear_all_resets (h : Host) (parseInt : string -> option Z)
    (now chatId : Z) (s : BotState)
    (Hrate : underLimit s chatId now) :
  let s' := onCallbackQuery h parseInt now chatId "clear_all_filters" s in
  (rowsOf (filtersTable (world s')) chatId = rowsOf (filtersTable (world s)) chatId
   \/ profileOf h (world s') chatId = defaultFilters)
  /\ (forall u, u <> chatId ->
                rowsOf (filtersTable (world s')) u = rowsOf (filtersTable (world s)) u)
  /\ (outages (world s) = [] ->
      rowsOf (filtersTable (world s')) chatId = [row "notifications_enabled" "false"]
      /\ outbox s' = (outbox s ++ [(chatId, AllCleared)])%list).
Proof.
  cbv zeta. rewrite (onCallbackQuery_clear h parseInt now chatId s Hrate). cbv zeta.
  pose proof (clearAllFilters_outcomes chatId (world s)) as Hcases. cbv zeta in Hcases.
  assert (Hgone : rowsOf (tableWithout chatId None (filtersTable (world s))) chatId = []).
  { unfold tableWithout. now rewrite rowsOf_clear_all, Z.eqb_refl. }
  assert (Htab : filtersTable (world
            match fst (clearAllFilters chatId (world s)) with
            | Ok _ => reply chatId AllCleared
                        (withWorld (snd (clearAllFilters chatId (world s)))
                           (withLimiter
                              (<[(chatId, dayOf now) := S (countOf (rateLimiter s) chatId now)]>
                                 (rateLimiter s)) s))
            | Err _ => reply chatId CallbackFailed
                         (withWorld (snd (clearAllFilters chatId (world s)))
                            (withLimiter
                               (<[(chatId, dayOf now) := S (countOf (rateLimiter s) chatId now)]>
                                  (rateLimiter s)) s))
            end) = filtersTable (snd (clearAllFilters chatId (world s)))).
  { destruct (fst (clearAllFilters chatId (world s))); reflexivity. }
  unfold profileOf. rewrite Htab.
  split; [|split].
  - destruct Hcases as [(e & _ & Ht)|[(e & _ & Ht)|(_ & Ht)]]; rewrite Ht.
    + now left.
    + right. now rewrite Hgone.
    + right. rewrite rowsOf_tableWith, Hgone, Z.eqb_refl. reflexivity.
  - intros u Hne.
    destruct Hcases as [(e & _ & Ht)|[(e & _ & Ht)|(_ & Ht)]]; rewrite Ht;
      rewrite ?(proj1 (rows_of_others _ chatId u _ None Hne));
      rewrite ?(proj2 (rows_of_others _ chatId u [] _ Hne)); reflexivity.
  - intros Hquiet. clear Htab Hcases.
    assert (Hrun : clearAllFilters chatId (world s)
                   = (Ok tt,
                      quietWorld
                        (tableWith chatId [row "notifications_enabled" "false"]
                           (tableWithout chatId None (filtersTable (world s))))
                        (world s))).
    { rewrite (quiet_world (world s) Hquiet) at 1. unfold clearAllFilters. quiet_steps.
      rewrite addFilter_quiet. reflexivity. }
    rewrite Hrun. cbn [fst snd reply withWorld world outbox withLimiter quietWorld filtersTable].
    split; [|reflexivity].
    now rewrite rowsOf_tableWith, Hgone, Z.eqb_refl.
Qed.

Lemma clear_all_resets_witness :
  profileOf quietHost
    (world (onCallbackQuery quietHost smallParseInt 0 7 "clear_all_filters" freshBot)) 7
  = defaultFilters.
Proof.
  assert (Hrate : underLimit freshBot 7 0)
    by (unfold underLimit, countOf, dailyLimit; cbn [freshBot rateLimiter];
        rewrite lookup_empty; cbn; lia).
  destruct (proj2 (proj2 (clear_all_resets quietHost smallParseInt 0 7 freshBot Hrate))
              eq_refl) as [Hrows _].
  unfold profileOf. rewrite Hrows. reflexivity.
Defined.

(** ** What the handlers keep true of the store *)

Lemma bindE_inv {A B : Type} (m : M (res A)) (k : A -> M (res B)) w r w' :
  bindE m k w = (r, w') ->
  (exists e, m w = (Err e, w') /\ r = Err e)
  \/ (exists a w1, m w = (Ok a, w1) /\ k a w1 = (r, w')).
Proof.
  unfold bindE, bind. destruct (m w) as [[a|e] w1]; intros H.
  - right. now exists a, w1.
  - left. exists e. unfold ret in H. now inversion H.
Qed.

Lemma entries_app t1 t2 u ty :
  entries (t1 ++ t2) u ty = (entries t1 u ty + entries t2 u ty)%nat.
Proof. unfold entries. now rewrite rowsOf_app, valuesOf_app, length_app. Qed.

Lemma entries_filter_le (P : Z * FilterRow -> bool) t u ty :
  (entries (List.filter P t) u ty <= entries t u ty)%nat.
Proof.
  induction t as [|r t IH]; [reflexivity|].
  change (r :: t) with ([r] ++ t)%list at 2. rewrite entries_app.
  cbn [List.filter]. destruct (P r).
  - change (r :: List.filter P t) with ([r] ++ List.filter P t)%list.
    rewrite entries_app. lia.
  - lia.
Qed.

Lemma entries_tableWithout u' fty t u ty :
  entries (tableWithout u' fty t) u ty
  = if hits u' fty u ty then 0%nat else entries t u ty.
Proof.
  unfold tableWithout.
  induction t as [|r t IH]; [now destruct (hits u' fty u ty)|].
  change (r :: t) with ([r] ++ t)%list at 2. rewrite entries_app.
  assert (Hone : entries (if negb (cleared u' fty r) then [r] else []) u ty
                 = if hits u' fty u ty then 0%nat else entries [r] u ty).
  { unfold hits, cleared, entries, rowsOf, valuesOf. destruct r as [ur [rt rv]]. cbn.
    destruct (Z.eqb_spec ur u') as [->|Hu]; cbn.
    - destruct (Z.eqb_spec u' u) as [->|Hu2]; cbn.
      + destruct (whenTruthy fty) as [ty'|]; cbn.
        * destruct (String.eqb_spec rt ty') as [->|Ht]; cbn.
          -- now destruct (String.eqb ty' ty).
          -- rewrite Z.eqb_refl. cbn.
             destruct (String.eqb_spec ty' ty) as [E2|Ht2]; [|reflexivity].
             destruct (String.eqb_spec rt ty); [congruence|reflexivity].
        * reflexivity.
      + destruct (match whenTruthy fty with
                  | Some ty' => String.eqb rt ty'
                  | None => true
                  end); cbn; [reflexivity|].
        destruct (Z.eqb_spec u' u); [contradiction|reflexivity].
    - destruct (Z.eqb_spec ur u) as [->|Hu2]; cbn.
      + destruct (Z.eqb_spec u' u); [congruence|reflexivity].
      + now destruct (Z.eqb u' u && _)%bool. }
  cbn [List.filter]. destruct (negb (cleared u' fty r)).
  - change (r :: List.filter (fun r0 => negb (cleared u' fty r0)) t)
      with ([r] ++ List.filter (fun r0 => negb (cleared u' fty r0)) t)%list.
    rewrite entries_app, IH, Hone. now destruct (hits u' fty u ty).
  - rewrite IH. change (entries [] u ty) with 0%nat in Hone.
    destruct (hits u' fty u ty); [reflexivity|]. now rewrite <- Hone.
Qed.

Lemma entries_tableWith u' ty' v t u ty :
  entries (tableWith u' [row ty' v] t) u ty
  = (entries t u ty + if (Z.eqb u' u && String.eqb ty' ty)%bool then 1 else 0)%nat.
Proof.
  unfold tableWith. rewrite entries_app. f_equal.
  unfold entries, rowsOf, valuesOf. cbn.
  destruct (Z.eqb u' u); cbn; [|reflexivity]. now destruct (String.eqb ty' ty).
Qed.

Lemma getUserFilters_run u' w r w' :
  getUserFilters u' w = (r, w') ->
  usersTable w' = usersTable w
  /\ filtersTable w' = filtersTable w
  /\ (forall rows, r = Ok rows -> rows = rowsOf (filtersTable w) u').
Proof.
  unfold getUserFilters, bind, emit, poolQuery, ret, rowsOf.
  destruct w as [ut us ft o hi tr]. destruct o as [|[|] rest]; cbn;
    intros H; inversion H; subst; cbn; repeat split; congruence.
Qed.

Lemma clearFilters_run u' fty w r w' :
  clearFilters u' fty w = (r, w') ->
  usersTable w' = usersTable w
  /\ (forall u ty,
        (entries (filtersTable w') u ty
         <= if (isOk r && hits u' fty u ty)%bool then 0 else entries (filtersTable w) u ty)%nat).
Proof.
  unfold clearFilters, bind, poolQuery, ret, setFiltersTable.
  destruct w as [ut us ft o hi tr]. destruct o as [|[|] rest]; cbn;
    intros H; inversion H; subst; split; try reflexivity; intros u ty;
    first [ exact (le_n _)
          | exact (Nat.eq_le_incl _ _ (entries_tableWithout u' fty ft u ty)) ].
Qed.

Lemma removeFilter_run u' fty v w r w' :
  removeFilter u' fty v w = (r, w') ->
  usersTable w' = usersTable w
  /\ (forall u ty, (entries (filtersTable w') u ty <= entries (filtersTable w) u ty)%nat).
Proof.
  unfold removeFilter, bind, poolQuery, ret, setFiltersTable.
  destruct w as [ut us ft o hi tr]. destruct o as [|[|] rest]; cbn;
    intros H; inversion H; subst; split; try reflexivity; intros u ty;
    first [ exact (le_n _) | exact (entries_filter_le _ ft u ty) ].
Qed.

Lemma addFilter_run u' ty' v w r w' :
  addFilter u' ty' v w = (r, w') ->
  usersTable w' = usersTable w
  /\ (forall u ty,
        (entries (filtersTable w') u ty
         <= entries (filtersTable w) u ty
            + if (isOk r && (Z.eqb u' u && String.eqb ty' ty))%bool then 1 else 0)%nat).
Proof.
  unfold addFilter, bind, poolQuery, ret, setFiltersTable.
  destruct w as [ut us ft o hi tr]. destruct o as [|[|] rest]; cbn;
    intros H; inversion H; subst; split; try reflexivity; intros u ty;
    first [ exact (Nat.eq_le_incl _ _ (eq_sym (Nat.add_0_r _)))
          | exact (Nat.eq_le_incl _ _ (entries_tableWith u' ty' v ft u ty)) ].
Qed.

Lemma capOf_cases ty n :
  capOf ty = Some n ->
  (n = 20%nat /\ (ty = "token_whitelist" \/ ty = "token_blacklist" \/ ty = "whale_blacklist"))
  \/ (n = 1%nat /\ (ty = "min_purchase" \/ ty = "max_market_cap" \/ ty = "monitor_all"
                    \/ ty = "notifications_enabled" \/ ty = "first_mention_only")).
Proof.
  unfold capOf, isListType, isSingleType, isNumericType.
  repeat match goal with
         | |- context [String.eqb ty ?s] =>
             destruct (String.eqb_spec ty s) as [->|?]; cbn [orb]
         end;
    intros H; inversion H; subst; auto 10.
Qed.

Ltac cap_cases H :=
  apply capOf_cases in H;
  destruct H as [[-> [->|[->| ->]]] | [-> [->|[->|[->|[->| ->]]]]]].

Ltac use_op H :=
  lazymatch type of H with
  | getUserFilters _ _ = _ => apply getUserFilters_run in H
  | clearFilters _ _ _ = _ => apply clearFilters_run in H
  | addFilter _ _ _ _ = _ => apply addFilter_run in H
  | removeFilter _ _ _ _ = _ => apply removeFilter_run in H
  | ret _ _ = _ => unfold ret in H; inversion H; subst; clear H
  | _ => idtac
  end.

Ltac run_step H :=
  lazymatch type of H with
  | bindE _ _ _ = _ =>
      let Hm := fresh "Hm" in
      apply bindE_inv in H;
      destruct H as [(? & Hm & ?) | (? & ? & Hm & H)];
      [ try match goal with
            | E : Ok _ = Err _ |- _ => discriminate E
            end;
        repeat match goal with
               | E : Err _ = Err _ |- _ => inversion E; clear E
               end;
        subst; run_step Hm
      | run_step Hm; cbv beta in H; run_step H ]
  | _ => use_op H
  end.

(** Reads the bounds of a finished run off the facts of its steps. *)
Ltac bounds :=
  repeat match goal with
         | H : _ /\ _ |- _ => destruct H
         end;
  repeat match goal with
         | H : forall (u0 : Z) (ty0 : string), (_ <= _)%nat
           |- (entries _ ?u ?ty <= _)%nat =>
             specialize (H u ty); unfold hits in H
         end;
  repeat match goal with
         | H : filtersTable _ = filtersTable _ |- _ => rewrite H in *; clear H
         end.

Ltac same_user Eu :=
  rewrite ?Eu in *;
  repeat match goal with
         | H : context [isOk ?r] |- _ => is_var r; destruct r
         end;
  cbn [isOk andb whenTruthy truthy negb String.eqb Ascii.eqb Bool.eqb] in *;
  lia.

Lemma cycleMonitorMode_keeps h chatId w r w' :
  cycleMonitorMode h chatId w = (r, w') ->
  usersTable w' = usersTable w
  /\ (WellFormed (filtersTable w) -> WellFormed (filtersTable w')).
Proof.
  intros H. unfold cycleMonitorMode in H.
  apply bindE_inv in H. destruct H as [(e & Hm & ->) | (rows & w1 & Hm & H)];
    apply getUserFilters_run in Hm; destruct Hm as (Hu & Ht & _).
  { split; [exact Hu|]. now rewrite Ht. }
  split.
  - destruct (nextModeOf _) in H; run_step H;
      repeat match goal with H : _ /\ _ |- _ => destruct H end; congruence.
  - intros Hwf u ty n Hcap. specialize (Hwf u ty n Hcap). rewrite <- Ht in Hwf.
    destruct (Z.eqb chatId u) eqn:Eu;
    destruct (nextModeOf _) in H; run_step H; cap_cases Hcap; bounds;
      same_user Eu.
Qed.

Ltac split_match H :=
  repeat lazymatch type of H with
         | (match ?x with _ => _ end) _ = _ => destruct x
         end.

Ltac users_frame :=
  repeat match goal with H : _ /\ _ |- _ => destruct H end; congruence.

Lemma toggleNotifications_keeps h chatId w r w' :
  toggleNotifications h chatId w = (r, w') ->
  usersTable w' = usersTable w
  /\ (WellFormed (filtersTable w) -> WellFormed (filtersTable w')).
Proof.
  intros H. unfold toggleNotifications in H.
  apply bindE_inv in H. destruct H as [(e & Hm & ->) | (rows & w1 & Hm & H)];
    apply getUserFilters_run in Hm; destruct Hm as (Hu & Ht & _).
  { split; [exact Hu|]. now rewrite Ht. }
  split.
  - run_step H; users_frame.
  - intros Hwf u ty n Hcap. specialize (Hwf u ty n Hcap). rewrite <- Ht in Hwf.
    destruct (Z.eqb chatId u) eqn:Eu;
      run_step H; cap_cases Hcap; bounds; same_user Eu.
Qed.

Lemma clearAllFilters_keeps chatId w r w' :
  clearAllFilters chatId w = (r, w') ->
  usersTable w' = usersTable w
  /\ (WellFormed (filtersTable w) -> WellFormed (filtersTable w')).
Proof.
  intros H. unfold clearAllFilters in H. split.
  - run_step H; users_frame.
  - intros Hwf u ty n Hcap. specialize (Hwf u ty n Hcap).
    destruct (Z.eqb chatId u) eqn:Eu;
      run_step H; cap_cases Hcap; bounds; same_user Eu.
Qed.

Lemma deleteFilter_keeps parseInt chatId data w r w' :
  deleteFilter parseInt chatId data w = (r, w') ->
  usersTable w' = usersTable w
  /\ (WellFormed (filtersTable w) -> WellFormed (filtersTable w')).
Proof.
  intros H. unfold deleteFilter in H. cbv zeta in H.
  apply bindE_inv in H. destruct H as [(e & Hm & ->) | (rows & w1 & Hm & H)];
    apply getUserFilters_run in Hm; destruct Hm as (Hu & Ht & _).
  { split; [exact Hu|]. now rewrite Ht. }
  cbv beta in H. split.
  - split_match H; run_step H; users_frame.
  - intros Hwf u ty n Hcap. specialize (Hwf u ty n Hcap). rewrite <- Ht in Hwf.
    destruct (Z.eqb chatId u) eqn:Eu;
      split_match H; run_step H; cap_cases Hcap; bounds; same_user Eu.
Qed.

Lemma under_cap (t : list (Z * FilterRow)) (u : Z) (ty : string) :
  Nat.leb 20 (List.length (List.filter (fun f => String.eqb (filter_type f) ty)
                                       (rowsOf t u)))
  = false ->
  (entries t u ty < 20)%nat.
Proof.
  intros H. unfold entries, valuesOf. rewrite length_map.
  now apply Nat.leb_gt in H.
Qed.

Lemma addFromText_keeps parseInt chatId ft text w r w' :
  In ft (map snd promptButtons) ->
  addFromText parseInt chatId ft text w = (r, w') ->
  usersTable w' = usersTable w
  /\ (WellFormed (filtersTable w) -> WellFormed (filtersTable w')).
Proof.
  intros Hft H. unfold addFromText in H. cbv zeta in H.
  cbn [map snd promptButtons In] in Hft.
  split.
  - destruct Hft as [<-|[<-|[<-|[<-|[<-|[]]]]]];
      cbn [isNumericType isListType String.eqb Ascii.eqb Bool.eqb orb] in H;
      split_match H; run_step H;
      try match goal with
          | Hk : (if ?b then _ else _) _ = _ |- _ => destruct b; run_step Hk
          end;
      users_frame.
  - intros Hwf u ty n Hcap. specialize (Hwf u ty n Hcap).
    destruct (Z.eqb_spec chatId u) as [Eu|Eu];
      [ subst u; pose proof (Z.eqb_refl chatId) as Eu
      | apply Z.eqb_neq in Eu ];
      (destruct Hft as [<-|[<-|[<-|[<-|[<-|[]]]]]];
       cbn [isNumericType isListType String.eqb Ascii.eqb Bool.eqb orb] in H;
       split_match H; run_step H;
       repeat match goal with
              | Hc : _ /\ _ |- _ => destruct Hc
              end;
       try match goal with
           | Hr : forall rows, Ok ?x = Ok rows -> rows = _ |- _ =>
               specialize (Hr x eq_refl); subst x
           end;
       try match goal with
           | Hk : (if ?b then _ else _) _ = _ |- _ =>
               let Hb := fresh "Hb" in
               destruct b eqn:Hb; [| apply under_cap in Hb];
               run_step Hk
           end;
       cap_cases Hcap; bounds; same_user Eu).
Qed.

Lemma NoDup_snoc_id (l : list Z) (x : Z) :
  List.NoDup l -> ~ In x l -> List.NoDup (l ++ [x]).
Proof.
  induction l as [|y l IH]; intros Hnd Hx.
  - simpl. apply NoDup_cons_iff. split; [intros []|constructor].
  - apply NoDup_cons_iff in Hnd as [Hy Hnd]. simpl. apply NoDup_cons_iff. split.
    + intros Hin. apply in_app_or in Hin as [Hin|[E|[]]]; [contradiction|].
      apply Hx. left. now symmetry.
    + apply IH; [exact Hnd|]. intros Hin. apply Hx. now right.
Qed.

Lemma addUser_run u w r w' :
  addUser u w = (r, w') ->
  filtersTable w' = filtersTable w
  /\ (List.NoDup (usersTable w) -> List.NoDup (usersTable w')).
Proof.
  unfold addUser, bind, poolQuery, ret, setUsersTable.
  destruct w as [ut us ft o hi tr].
  assert (Hadd : List.NoDup us -> existsb (Z.eqb u) us = false ->
                 List.NoDup (us ++ [u])%list).
  { intros Hnd Hex. apply NoDup_snoc_id; [exact Hnd|]. intros Hx.
    assert (existsb (Z.eqb u) us = true)
      by (apply existsb_exists; exists u; split; [exact Hx|apply Z.eqb_refl]).
    congruence. }
  destruct o as [|[|] rest]; cbn; try destruct (existsb (Z.eqb u) us) eqn:Hex;
    intros H; inversion H; subst; cbn; split; auto.
Qed.

Lemma checkRateLimit_limited now u rl :
  Limited rl -> Limited (snd (checkRateLimit now u rl)).
Proof.
  intros Hl. unfold checkRateLimit.
  destruct (Nat.leb_spec dailyLimit (default 0%nat (rl !! (u, dayOf now)))) as [Hge|Hlt];
    cbn [snd]; [exact Hl|].
  intros key n. destruct (decide (key = (u, dayOf now))) as [->|Hne].
  - rewrite lookup_insert_eq. intros [= <-]. lia.
  - rewrite lookup_insert_ne by congruence. apply Hl.
Qed.

Lemma assoc_In {A : Type} (k : string) (l : list (string * A)) (v : A) :
  assoc k l = Some v -> In v (map snd l).
Proof.
  induction l as [|[k' v'] l IH]; cbn; [discriminate|].
  destruct (String.eqb k k'); [intros [= ->]; now left|right; auto].
Qed.

Lemma Awaits_insert a u ty :
  Awaits a -> In ty (map snd promptButtons) -> Awaits (<[u := ty]> a).
Proof.
  intros Ha Hty u' ty'. destruct (decide (u' = u)) as [->|Hne].
  - rewrite lookup_insert_eq. now intros [= <-].
  - rewrite lookup_insert_ne by congruence. apply Ha.
Qed.

Lemma Awaits_delete a u : Awaits a -> Awaits (delete u a).
Proof.
  intros Ha u' ty'. destruct (decide (u' = u)) as [->|Hne].
  - now rewrite lookup_delete_eq.
  - rewrite lookup_delete_ne by congruence. apply Ha.
Qed.

Ltac sound_parts :=
  unfold Sound, reply, withWorld, withLimiter, withAwaiting;
  cbn [world rateLimiter awaitingInput outbox].

Ltac keep_with lem Hrun :=
  apply lem in Hrun; destruct Hrun as [Husers Htable];
  repeat match goal with |- context [match ?r with _ => _ end] => destruct r end;
  sound_parts; rewrite ?Husers; auto.

Lemma onCallbackQuery_sound h parseInt now chatId data s :
  Sound s -> Sound (onCallbackQuery h parseInt now chatId data s).
Proof.
  intros (Hwf & Hnd & Haw & Hlim). unfold onCallbackQuery.
  pose proof (checkRateLimit_limited now chatId (rateLimiter s) Hlim) as Hlim'.
  destruct (checkRateLimit now chatId (rateLimiter s)) as [ok rl]. cbn [snd] in Hlim'.
  destruct ok; cbn [negb]; [|sound_parts; auto].
  destruct (assoc data promptButtons) as [ty|] eqn:Ha.
  { sound_parts. repeat split; auto. apply Awaits_insert; [exact Haw|].
    exact (assoc_In _ _ _ Ha). }
  cbn [world withLimiter].
  destruct (String.eqb data "view_filters"); [sound_parts; auto|].
  destruct (String.eqb data "cycle_monitor_mode").
  { destruct (cycleMonitorMode h chatId (world s)) as [r w'] eqn:Hrun.
    keep_with cycleMonitorMode_keeps Hrun. }
  destruct (String.eqb data "toggle_notifications").
  { destruct (toggleNotifications h chatId (world s)) as [r w'] eqn:Hrun.
    keep_with toggleNotifications_keeps Hrun. }
  destruct (String.eqb data "clear_all_filters").
  { destruct (clearAllFilters chatId (world s)) as [r w'] eqn:Hrun.
    keep_with clearAllFilters_keeps Hrun. }
  destruct (String.eqb data "back_to_menu"); [sound_parts; auto|].
  destruct (startsWith data "del_"); [|sound_parts; auto].
  destruct (deleteFilter parseInt chatId data (world s)) as [r w'] eqn:Hrun.
  keep_with deleteFilter_keeps Hrun.
Qed.

Lemma onText_sound parseInt chatId text s :
  Sound s -> Sound (onText parseInt chatId text s).
Proof.
  intros (Hwf & Hnd & Haw & Hlim). unfold onText.
  destruct (startsWith text "/"); [now repeat split|].
  destruct (whenTruthy (awaitingInput s !! chatId)) as [ft|] eqn:Hft; [|now repeat split].
  assert (Hin : In ft (map snd promptButtons)).
  { apply (Haw chatId). unfold whenTruthy in Hft.
    destruct (truthy (awaitingInput s !! chatId)); [exact Hft|discriminate]. }
  cbn [world withAwaiting].
  destruct (addFromText parseInt chatId ft text (world s)) as [r w'] eqn:Hrun.
  apply (addFromText_keeps _ _ _ _ _ _ _ Hin) in Hrun. destruct Hrun as [Husers Htable].
  pose proof (Awaits_delete _ chatId Haw).
  repeat match goal with |- context [match ?r with _ => _ end] => destruct r end;
    sound_parts; rewrite ?Husers; auto.
Qed.

Lemma onStart_sound now chatId s : Sound s -> Sound (onStart now chatId s).
Proof.
  intros (Hwf & Hnd & Haw & Hlim). unfold onStart.
  pose proof (checkRateLimit_limited now chatId (rateLimiter s) Hlim) as Hlim'.
  destruct (checkRateLimit now chatId (rateLimiter s)) as [ok rl]. cbn [snd] in Hlim'.
  destruct ok; cbn [negb]; [|sound_parts; auto].
  cbn [world withLimiter].
  destruct (addUser chatId (world s)) as [r w'] eqn:Hrun.
  apply addUser_run in Hrun. destruct Hrun as [Htable Husers].
  destruct r; sound_parts; rewrite ?Htable; auto.
Qed.

Lemma onMenu_sound now chatId s : Sound s -> Sound (onMenu now chatId s).
Proof.
  intros (Hwf & Hnd & Haw & Hlim). unfold onMenu.
  pose proof (checkRateLimit_limited now chatId (rateLimiter s) Hlim) as Hlim'.
  destruct (checkRateLimit now chatId (rateLimiter s)) as [ok rl]. cbn [snd] in Hlim'.
  destruct ok; cbn [negb]; sound_parts; auto.
Qed.

Lemma onFilters_sound chatId s : Sound s -> Sound (onFilters chatId s).
Proof.
  intros (Hwf & Hnd & Haw & Hlim). unfold onFilters.
  destruct (getUserFilters chatId (world s)) as [r w'] eqn:Hrun.
  apply getUserFilters_run in Hrun. destruct Hrun as (Husers & Htable & _).
  destruct r as [rows|e]; [destruct (Nat.eqb _ _)|]; sound_parts;
    rewrite ?Husers, ?Htable; auto.
Qed.

Lemma handle_sound h parseInt up s : Sound s -> Sound (handle h parseInt up s).
Proof.
  destruct up; cbn [handle].
  - apply onStart_sound.
  - apply onMenu_sound.
  - now intros (Hwf & Hnd & Haw & Hlim).
  - apply onFilters_sound.
  - apply onCallbackQuery_sound.
  - apply onText_sound.
Qed.

(** X14.  Through any run of updates (commands, buttons and texts,
    handled one at a time) and under any schedule of database failures
    the store stays sound: no user holds more than 20 entries in a token
    whitelist, token blacklist or whale blacklist, nor more than one
    value for a threshold or a switch; no telegram id is registered
    twice; only the filter types of the prompt buttons are awaited; and
    no counter of the rate limiter exceeds 500. *)
Theorem store_stays_sound (h : Host) (parseInt : string -> option Z)
    (ups : list Update) (s : BotState)
    (Hs : Sound s) :
  Sound (handleAll h parseInt ups s).
Proof.
  unfold handleAll. revert s Hs.
  induction ups as [|up ups IH]; intros s Hs; cbn [fold_left]; [exact Hs|].
  apply IH. now apply handle_sound.
Qed.

Lemma emptyBot_sound : Sound emptyBot.
Proof.
  unfold Sound, emptyBot. cbn. repeat split.
  - intros u ty n _. unfold entries. cbn. lia.
  - constructor.
  - intros u ty. rewrite lookup_empty. discriminate.
  - intros key n. rewrite lookup_empty. discriminate.
Qed.

Lemma store_stays_sound_witness :
  Sound emptyBot /\ Sound (handleAll quietHost smallParseInt someUpdates emptyBot).
Proof.
  split; [exact emptyBot_sound|].
  exact (store_stays_sound quietHost smallParseInt someUpdates emptyBot emptyBot_sound).
Defined.

(** ** The text handler on a working database *)

Lemma isListType_cases ty :
  isListType ty = true ->
  ty = "token_whitelist" \/ ty = "token_blacklist" \/ ty = "whale_blacklist".
Proof.
  unfold isListType.
  destruct (String.eqb_spec ty "token_whitelist"); [auto|].
  destruct (String.eqb_spec ty "token_blacklist"); [auto|].
  destruct (String.eqb_spec ty "whale_blacklist"); [auto|discriminate].
Qed.

Lemma isNumericType_cases ty :
  isNumericType ty = true -> ty = "min_purchase" \/ ty = "max_market_cap".
Proof.
  unfold isNumericType.
  destruct (String.eqb_spec ty "min_purchase"); [auto|].
  destruct (String.eqb_spec ty "max_market_cap"); [auto|discriminate].
Qed.

Lemma addFromText_list_quiet parseInt u ty text t w :
  isListType ty = true ->
  addFromText parseInt u ty text (quietWorld t w)
  = if Nat.leb 20 (entries t u ty)
    then (Ok TooMany, quietWorld t (snd (emit (EvSelectFilters u) w)))
    else (Ok Added,
          quietWorld
            (tableWith u [row "notifications_enabled" "false"]
               (tableWithout u (Some "notifications_enabled")
                  (tableWith u [row ty text] t)))
            (snd (emit (EvSelectFilters u) w))).
Proof.
  intros Hty. unfold entries, valuesOf. rewrite length_map.
  apply isListType_cases in Hty. unfold addFromText. cbv zeta.
  destruct Hty as [->|[->| ->]];
    cbn [isNumericType isListType String.eqb Ascii.eqb Bool.eqb orb];
    (erewrite bindE_ok; [|reflexivity]);
    (erewrite bindE_ok;
     [|erewrite bindE_ok; [reflexivity|apply getUserFilters_quiet]]);
    match goal with |- context [Nat.leb 20 ?n] => destruct (Nat.leb 20 n) end;
    try reflexivity; quiet_steps; reflexivity.
Qed.

Lemma addFromText_number_quiet parseInt u ty text t w :
  isNumericType ty = true ->
  addFromText parseInt u ty text (quietWorld t w)
  = if wholePositive parseInt text
    then (Ok Added,
          quietWorld
            (tableWith u [row "notifications_enabled" "false"]
               (tableWithout u (Some "notifications_enabled")
                  (tableWith u [row ty text] (tableWithout u (Some ty) t))))
            w)
    else (Ok InvalidNumber, quietWorld t w).
Proof.
  intros Hty. apply isNumericType_cases in Hty. unfold addFromText, wholePositive. cbv zeta.
  destruct Hty as [->| ->];
    cbn [isNumericType isListType String.eqb Ascii.eqb Bool.eqb orb];
    (destruct (parseInt text) as [v|]; [|reflexivity]);
    rewrite Z.ltb_antisym;
    (destruct (Z.leb v 0); cbn [orb andb negb]; [reflexivity|]);
    (destruct (containsChar "." text); cbn [negb]; [reflexivity|]);
    quiet_steps; (erewrite bindE_ok; [|reflexivity]); quiet_steps; reflexivity.
Qed.

Lemma onText_awaited parseInt chatId ty text s :
  ty <> "" -> startsWith text "/" = false -> awaitingInput s !! chatId = Some ty ->
  onText parseInt chatId text s
  = let s1 := withAwaiting (delete chatId (awaitingInput s)) s in
    match fst (addFromText parseInt chatId ty text (world s)) with
    | Ok Added =>
        reply chatId FilterAdded
          (withWorld (snd (addFromText parseInt chatId ty text (world s))) s1)
    | Ok InvalidNumber =>
        reply chatId NotANumber
          (withWorld (snd (addFromText parseInt chatId ty text (world s))) s1)
    | Ok TooMany =>
        reply chatId TooManyItems
          (withWorld (snd (addFromText parseInt chatId ty text (world s))) s1)
    | Err _ =>
        reply chatId AddFailed
          (withWorld (snd (addFromText parseInt chatId ty text (world s))) s1)
    end.
Proof.
  intros Hne Htext Haw. unfold onText. rewrite Htext, Haw.
  unfold whenTruthy. rewrite (proj2 (truthy_Some ty) Hne).
  cbn [world withAwaiting].
  destruct (addFromText parseInt chatId ty text (world s)) as [[[| |]|e] w]; reflexivity.
Qed.

(** The rows of a user once a value was added and notifications were
    switched off. *)
Lemma rows_after_add t u ty text :
  rowsOf (tableWith u [row "notifications_enabled" "false"]
            (tableWithout u (Some "notifications_enabled")
               (tableWith u [row ty text] t))) u
  = (withoutType "notifications_enabled" (rowsOf t u ++ [row ty text])
     ++ [row "notifications_enabled" "false"])%list.
Proof.
  rewrite rowsOf_tableWith, rowsOf_tableWithout by discriminate.
  now rewrite rowsOf_tableWith, Z.eqb_refl.
Qed.

Lemma others_after_add t u u' ty text :
  u' <> u ->
  rowsOf (tableWith u [row "notifications_enabled" "false"]
            (tableWithout u (Some "notifications_enabled")
               (tableWith u [row ty text] t))) u'
  = rowsOf t u'.
Proof.
  intros Hne.
  rewrite (proj1 (rows_of_others _ u u' _ None Hne)).
  rewrite (proj2 (rows_of_others _ u u' [] _ Hne)).
  exact (proj1 (rows_of_others _ u u' _ None Hne)).
Qed.

(** X15.  A text sent after the prompt for a whitelist, blacklist or
    whale blacklist, on a working database: the prompt is used up; with
    20 entries already stored nothing is written and the user is told
    so; otherwise the text becomes the last entry of that list (as
    typed, duplicates allowed), notifications are switched off, and no
    other setting of the user and no row of another user changes. *)
Theorem text_extends_list (h : Host) (parseInt : string -> option Z)
    (chatId : Z) (ty text : string) (s : BotState)
    (Hty : isListType ty = true)
    (Htext : startsWith text "/" = false)
    (Hawait : awaitingInput s !! chatId = Some ty)
    (Hquiet : outages (world s) = []) :
  let s' := onText parseInt chatId text s in
  let rows := rowsOf (filtersTable (world s)) chatId in
  let rows' := rowsOf (filtersTable (world s')) chatId in
  awaitingInput s' !! chatId = None
  /\ (forall u, u <> chatId ->
                rowsOf (filtersTable (world s')) u = rowsOf (filtersTable (world s)) u)
  /\ if Nat.leb 20 (List.length (valuesOf ty rows))
     then rows' = rows /\ outbox s' = (outbox s ++ [(chatId, TooManyItems)])%list
     else valuesOf ty rows' = (valuesOf ty rows ++ [text])%list
          /\ notifications_enabled (profileOf h (world s') chatId) = false
          /\ (forall ty', ty' <> ty -> ty' <> "notifications_enabled" ->
                          valuesOf ty' rows' = valuesOf ty' rows)
          /\ outbox s' = (outbox s ++ [(chatId, FilterAdded)])%list.
Proof.
  cbv zeta.
  assert (Hne : ty <> "")
    by (destruct (isListType_cases ty Hty) as [->|[->| ->]]; discriminate).
  assert (Hnn : ty <> "notifications_enabled")
    by (destruct (isListType_cases ty Hty) as [->|[->| ->]]; discriminate).
  rewrite (onText_awaited parseInt chatId ty text s Hne Htext Hawait). cbv zeta.
  pose proof (addFromText_list_quiet parseInt chatId ty text (filtersTable (world s))
                (world s) Hty) as Hrun.
  rewrite <- (quiet_world (world s) Hquiet) in Hrun. rewrite Hrun. clear Hrun.
  fold (entries (filtersTable (world s)) chatId ty).
  destruct (Nat.leb 20 (entries (filtersTable (world s)) chatId ty));
    cbn [fst snd reply withWorld withAwaiting world outbox awaitingInput quietWorld
         filtersTable];
    unfold profileOf; cbn [quietWorld filtersTable].
  - split; [apply lookup_delete_eq|]. split; [reflexivity|]. split; reflexivity.
  - split; [apply lookup_delete_eq|]. split; [intros u Hu; now apply others_after_add|].
    rewrite rows_after_add. split; [|split; [|split; [|reflexivity]]].
    + values_norm. rewrite !valuesOf_single.
      rewrite (proj2 (String.eqb_neq ty "notifications_enabled") Hnn).
      rewrite String.eqb_refl.
      destruct (String.eqb_spec "notifications_enabled" ty); [congruence|].
      now rewrite app_nil_r.
    + rewrite processFilters_fields. cbn [notifications_enabled].
      values_norm. reflexivity.
    + intros ty' H1 H2. values_norm. rewrite !valuesOf_single.
      rewrite (proj2 (String.eqb_neq ty' "notifications_enabled") H2).
      destruct (String.eqb_spec ty ty'); [congruence|].
      destruct (String.eqb_spec "notifications_enabled" ty'); [congruence|].
      now rewrite !app_nil_r.
Qed.

Lemma text_extends_list_witness :
  valuesOf "token_whitelist"
    (rowsOf (filtersTable (world (onText smallParseInt 7 "BONK"
                                    (promptedBot "token_whitelist")))) 7)
  = ["BONK"].
Proof.
  exact (proj1 (proj2 (proj2
           (text_extends_list quietHost smallParseInt 7 "token_whitelist" "BONK"
              (promptedBot "token_whitelist") eq_refl eq_refl eq_refl eq_refl)))).
Defined.

(** X16.  A text sent after the prompt for the minimum purchase or the
    maximum market cap, on a working database: the prompt is used up; a
    text that [parseInt] does not read as a number above 0, or that
    holds a decimal point, is refused and nothing is written; otherwise
    the text as typed becomes the only stored value of that threshold
    (so the engine works with [parseFloat] of the text, not with the
    integer that was checked), notifications are switched off, and no
    other setting of the user and no row of another user changes. *)
Theorem text_sets_threshold (h : Host) (parseInt : string -> option Z)
    (chatId : Z) (ty text : string) (s : BotState)
    (Hty : isNumericType ty = true)
    (Htext : startsWith text "/" = false)
    (Hawait : awaitingInput s !! chatId = Some ty)
    (Hquiet : outages (world s) = []) :
  let s' := onText parseInt chatId text s in
  let rows := rowsOf (filtersTable (world s)) chatId in
  let rows' := rowsOf (filtersTable (world s')) chatId in
  let after := profileOf h (world s') chatId in
  awaitingInput s' !! chatId = None
  /\ (forall u, u <> chatId ->
                rowsOf (filtersTable (world s')) u = rowsOf (filtersTable (world s)) u)
  /\ if wholePositive parseInt text
     then valuesOf ty rows' = [text]
          /\ (ty = "min_purchase" -> min_purchase after = Some (parseFloat h text))
          /\ (ty = "max_market_cap" -> max_market_cap after = Some (parseFloat h text))
          /\ notifications_enabled after = false
          /\ (forall ty', ty' <> ty -> ty' <> "notifications_enabled" ->
                          valuesOf ty' rows' = valuesOf ty' rows)
          /\ outbox s' = (outbox s ++ [(chatId, FilterAdded)])%list
     else rows' = rows /\ outbox s' = (outbox s ++ [(chatId, NotANumber)])%list.
Proof.
  cbv zeta.
  assert (Hne : ty <> "")
    by (destruct (isNumericType_cases ty Hty) as [->| ->]; discriminate).
  assert (Hnn : ty <> "notifications_enabled")
    by (destruct (isNumericType_cases ty Hty) as [->| ->]; discriminate).
  rewrite (onText_awaited parseInt chatId ty text s Hne Htext Hawait). cbv zeta.
  pose proof (addFromText_number_quiet parseInt chatId ty text (filtersTable (world s))
                (world s) Hty) as Hrun.
  rewrite <- (quiet_world (world s) Hquiet) in Hrun. rewrite Hrun. clear Hrun.
  destruct (wholePositive parseInt text);
    cbn [fst snd reply withWorld withAwaiting world outbox awaitingInput quietWorld
         filtersTable];
    unfold profileOf; cbn [quietWorld filtersTable].
  2:{ split; [apply lookup_delete_eq|]. split; [reflexivity|]. split; reflexivity. }
  split; [apply lookup_delete_eq|]. split.
  { intros u Hu. rewrite others_after_add by exact Hu.
    exact (proj2 (rows_of_others _ chatId u [] _ Hu)). }
  rewrite rows_after_add, rowsOf_tableWithout, Z.eqb_refl by exact Hne.
  assert (Hval : valuesOf ty
                   (withoutType "notifications_enabled"
                      (withoutType ty (rowsOf (filtersTable (world s)) chatId)
                       ++ [row ty text])
                    ++ [row "notifications_enabled" "false"]) = [text]).
  { values_norm. rewrite !valuesOf_single.
    rewrite (proj2 (String.eqb_neq ty "notifications_enabled") Hnn).
    rewrite !String.eqb_refl.
    destruct (String.eqb_spec "notifications_enabled" ty); [congruence|].
    reflexivity. }
  split; [exact Hval|].
  rewrite processFilters_fields.
  cbn [min_purchase max_market_cap notifications_enabled].
  split; [intros ->; now rewrite Hval|]. split; [intros ->; now rewrite Hval|].
  split; [values_norm; reflexivity|]. split; [|reflexivity].
  intros ty' H1 H2. values_norm. rewrite !valuesOf_single.
  rewrite (proj2 (String.eqb_neq ty' "notifications_enabled") H2).
  rewrite (proj2 (String.eqb_neq ty' ty) H1).
  destruct (String.eqb_spec ty ty'); [congruence|].
  destruct (String.eqb_spec "notifications_enabled" ty'); [congruence|].
  now rewrite !app_nil_r.
Qed.

Lemma text_sets_threshold_witness :
  valuesOf "min_purchase"
    (rowsOf (filtersTable (world (onText smallParseInt 7 "250"
                                    (promptedBot "min_purchase")))) 7)
  = ["250"].
Proof.
  exact (proj1 (proj2 (proj2
           (text_sets_threshold quietHost smallParseInt 7 "min_purchase" "250"
              (promptedBot "min_purchase") eq_refl eq_refl eq_refl eq_refl)))).
Defined.

(** ** The delete buttons on a working database *)

Lemma splitOn_plain (c : ascii) (s : string) :
  containsChar c s = false -> splitOn c s = [s].
Proof.
  induction s as [|a r IH]; [reflexivity|]. cbn.
  destruct (Ascii.eqb a c); cbn; [discriminate|]. intros H. now rewrite IH.
Qed.

Lemma typeMapping_cases short ty :
  assoc short typeMapping = Some ty ->
  (short = "tw" /\ ty = "token_whitelist") \/ (short = "mp" /\ ty = "min_purchase")
  \/ (short = "mc" /\ ty = "max_market_cap") \/ (short = "tb" /\ ty = "token_blacklist")
  \/ (short = "wb" /\ ty = "whale_blacklist").
Proof.
  unfold typeMapping. cbn [assoc].
  repeat match goal with
         | |- context [String.eqb short ?k] => destruct (String.eqb_spec short k)
         end;
    intros [= <-]; auto 10. 
Qed.

Lemma split_button short ty idx :
  assoc short typeMapping = Some ty -> containsChar "_" idx = false ->
  splitOn "_" (deleteButton short idx) = ["del"; short; idx]
  /\ startsWith (deleteButton short idx) "del_" = true
  /\ assoc (deleteButton short idx) promptButtons = None.
Proof.
  intros Hs Hidx. pose proof (splitOn_plain "_" idx Hidx) as Hsp.
  destruct (typeMapping_cases short ty Hs) as [[-> _]|[[-> _]|[[-> _]|[[-> _]|[-> _]]]]];
    unfold deleteButton; cbv [String.append]; cbn; rewrite Hsp; repeat split.
Qed.

Lemma nth_error_values ty (rows : list FilterRow) (i : Z) :
  (if (Z.leb 0 i && Z.ltb i (Z.of_nat (List.length (rowsOfType (Some ty) rows))))%bool
   then option_map filter_value (nth_error (rowsOfType (Some ty) rows) (Z.to_nat i))
   else None)
  = if Z.leb 0 i then nth_error (valuesOf ty rows) (Z.to_nat i) else None.
Proof.
  unfold valuesOf, rowsOfType. cbn [of_opt strictEq].
  destruct (Z.leb_spec 0 i) as [Hi|Hi]; cbn [andb]; [|reflexivity].
  rewrite nth_error_map.
  destruct (Z.ltb_spec i (Z.of_nat (List.length
              (List.filter (fun f => String.eqb (filter_type f) ty) rows)))) as [Hlt|Hge];
    [reflexivity|].
  symmetry. 
  assert (Hn : nth_error (List.filter (fun f => String.eqb (filter_type f) ty) rows)
                 (Z.to_nat i) = None) by (apply nth_error_None; lia).
  now rewrite Hn.
Qed.

Lemma deleteFilter_quiet parseInt u short ty idx t w :
  assoc short typeMapping = Some ty -> containsChar "_" idx = false ->
  deleteFilter parseInt u (deleteButton short idx) (quietWorld t w)
  = match chosenEntry parseInt idx (valuesOf ty (rowsOf t u)) with
    | Some v =>
        (Ok (Removed v),
         quietWorld
           (tableWith u [row "notifications_enabled" "false"]
              (tableWithout u (Some "notifications_enabled")
                 (List.filter (fun r => negb (sameFilter u ty v r)) t)))
           (snd (emit (EvSelectFilters u) w)))
    | None => (Ok NotFound, quietWorld t (snd (emit (EvSelectFilters u) w)))
    end.
Proof.
  intros Hs Hidx. unfold deleteFilter. cbv zeta.
  rewrite (proj1 (split_button short ty idx Hs Hidx)). cbn [nth_error]. rewrite Hs.
  erewrite bindE_ok by apply getUserFilters_quiet.
  unfold chosenEntry. destruct (parseInt idx) as [i|]; [|reflexivity].
  rewrite <- nth_error_values.
  destruct (Z.leb 0 i && Z.ltb i _)%bool; [|reflexivity].
  destruct (nth_error (rowsOfType (Some ty) (rowsOf t u)) (Z.to_nat i)) as [f|];
    cbn [option_map]; [|reflexivity].
  quiet_steps. reflexivity.
Qed.

Lemma rowsOf_remove t u ty v u' :
  rowsOf (List.filter (fun r => negb (sameFilter u ty v r)) t) u'
  = if Z.eqb u u' then withoutValue ty v (rowsOf t u') else rowsOf t u'.
Proof.
  destruct (Z.eqb_spec u u') as [<-|Hd].
  - apply rowsOf_filter. intros r Hr. unfold sameFilter. now rewrite Hr, Z.eqb_refl.
  - apply rowsOf_filter_other. intros r Hr. unfold sameFilter.
    destruct (Z.eqb_spec (fst r) u); [congruence|reflexivity].
Qed.

Lemma valuesOf_withoutValue ty v ty' rows :
  valuesOf ty' (withoutValue ty v rows)
  = if String.eqb ty ty'
    then List.filter (fun x => negb (String.eqb x v)) (valuesOf ty' rows)
    else valuesOf ty' rows.
Proof.
  unfold valuesOf, withoutValue. induction rows as [|r rows IH].
  - cbn. now destruct (String.eqb ty ty').
  - cbn [List.filter].
    destruct (String.eqb_spec (filter_type r) ty) as [E1|E1];
      destruct (String.eqb_spec (filter_type r) ty') as [E2|E2];
      destruct (String.eqb_spec ty ty') as [E3|E3]; try congruence;
      cbn [andb negb List.filter map];
      rewrite ?IH;
      try (destruct (String.eqb (filter_value r) v); cbn [negb List.filter map]);
      rewrite ?IH;
      repeat match goal with
             | |- context [String.eqb (filter_type r) ?x] =>
                 destruct (String.eqb_spec (filter_type r) x); try congruence
             end;
      cbn [map]; rewrite ?IH; try reflexivity; try congruence.
Qed.

Lemma onCallbackQuery_delete h parseInt now chatId short ty idx s :
  assoc short typeMapping = Some ty -> containsChar "_" idx = false ->
  underLimit s chatId now ->
  onCallbackQuery h parseInt now chatId (deleteButton short idx) s
  = let s1 := withLimiter
                (<[(chatId, dayOf now) := S (countOf (rateLimiter s) chatId now)]>
                   (rateLimiter s)) s in
    let run := deleteFilter parseInt chatId (deleteButton short idx) (world s) in
    match fst run with
    | Ok (Removed v) => reply chatId (FilterRemoved v) (withWorld (snd run) s1)
    | Ok NotFound => reply chatId FilterNotFound (withWorld (snd run) s1)
    | Err _ => reply chatId RemoveFailed (withWorld (snd run) s1)
    end.
Proof.
  intros Hs Hidx Hrate. unfold onCallbackQuery.
  rewrite (checkRateLimit_under s chatId now Hrate). cbn [negb].
  destruct (split_button short ty idx Hs Hidx) as (_ & Hstart & Hprompt).
  rewrite Hprompt, Hstart.
  assert (Hno : forall k, In k ["view_filters"; "cycle_monitor_mode"; "toggle_notifications";
                                 "clear_all_filters"; "back_to_menu"] ->
                          String.eqb (deleteButton short idx) k = false).
  { intros k Hk. apply String.eqb_neq. intros E.
    assert (Hp : startsWith k "del_" = true) by (rewrite <- E; exact Hstart).
    cbn [In] in Hk. destruct Hk as [<-|[<-|[<-|[<-|[<-|[]]]]]]; discriminate Hp. }
  rewrite !Hno by (cbn; auto 10).
  cbn [world withLimiter]. cbv zeta.
  destruct (deleteFilter parseInt chatId (deleteButton short idx) (world s))
    as [[[v|]|e] w]; reflexivity.
Qed.

(** What a delete button does on a working database. *)
Lemma delete_effect (h : Host) (parseInt : string -> option Z)
    (now chatId : Z) (short ty idx : string) (s : BotState)
    (Hshort : assoc short typeMapping = Some ty)
    (Hidx : containsChar "_" idx = false)
    (Hquiet : outages (world s) = [])
    (Hrate : underLimit s chatId now) :
  let s' := onCallbackQuery h parseInt now chatId (deleteButton short idx) s in
  let rows := rowsOf (filtersTable (world s)) chatId in
  let rows' := rowsOf (filtersTable (world s')) chatId in
  (forall u, u <> chatId ->
             rowsOf (filtersTable (world s')) u = rowsOf (filtersTable (world s)) u)
  /\ match chosenEntry parseInt idx (valuesOf ty rows) with
     | Some v =>
         valuesOf ty rows'
         = List.filter (fun x => negb (String.eqb x v)) (valuesOf ty rows)
         /\ notifications_enabled (profileOf h (world s') chatId) = false
         /\ (forall ty', ty' <> ty -> ty' <> "notifications_enabled" ->
                         valuesOf ty' rows' = valuesOf ty' rows)
         /\ outbox s' = (outbox s ++ [(chatId, FilterRemoved v)])%list
     | None =>
         rows' = rows /\ outbox s' = (outbox s ++ [(chatId, FilterNotFound)])%list
     end.
Proof.
  cbv zeta.
  assert (Hnn : ty <> "notifications_enabled")
    by (destruct (typeMapping_cases short ty Hshort)
          as [[_ ->]|[[_ ->]|[[_ ->]|[[_ ->]|[_ ->]]]]]; discriminate).
  rewrite (onCallbackQuery_delete h parseInt now chatId short ty idx s Hshort Hidx Hrate).
  cbv zeta.
  pose proof (deleteFilter_quiet parseInt chatId short ty idx (filtersTable (world s))
                (world s) Hshort Hidx) as Hrun.
  rewrite <- (quiet_world (world s) Hquiet) in Hrun. rewrite Hrun. clear Hrun.
  destruct (chosenEntry parseInt idx (valuesOf ty (rowsOf (filtersTable (world s)) chatId)))
    as [v|];
    cbn [fst snd reply withWorld withLimiter world outbox quietWorld filtersTable];
    unfold profileOf; cbn [quietWorld filtersTable].
  2:{ split; [reflexivity|]. split; reflexivity. }
  split.
  { intros u Hu.
    rewrite (proj1 (rows_of_others _ chatId u _ None Hu)).
    rewrite (proj2 (rows_of_others _ chatId u [] _ Hu)).
    rewrite rowsOf_remove. destruct (Z.eqb_spec chatId u); [congruence|reflexivity]. }
  rewrite rowsOf_tableWith, rowsOf_tableWithout, rowsOf_remove, Z.eqb_refl by discriminate.
  split; [|split; [|split; [|reflexivity]]].
  - values_norm. rewrite valuesOf_single, valuesOf_withoutValue.
    rewrite (proj2 (String.eqb_neq ty "notifications_enabled") Hnn).
    rewrite String.eqb_refl.
    destruct (String.eqb_spec "notifications_enabled" ty); [congruence|].
    now rewrite app_nil_r.
  - rewrite processFilters_fields. cbn [notifications_enabled]. values_norm. reflexivity.
  - intros ty' H1 H2. values_norm. rewrite valuesOf_single, valuesOf_withoutValue.
    rewrite (proj2 (String.eqb_neq ty' "notifications_enabled") H2).
    destruct (String.eqb_spec ty ty'); [congruence|].
    destruct (String.eqb_spec "notifications_enabled" ty'); [congruence|].
    now rewrite app_nil_r.
Qed.

(** X17.  A delete button of the filter list, on a working database and
    under the rate limit.  The button carries a type and an index; when
    the index points at one of the user's current values of that type,
    every row of the user with that type and value is deleted (the
    entry and all its duplicates), notifications are switched off and
    nothing else of the user changes; when it does not (a stale or
    unreadable index), nothing is written and the user is told the
    filter was not found.  Rows of other users stay as they are. *)
Theorem delete_button_removes (h : Host) (parseInt : string -> option Z)
    (now chatId : Z) (short ty idx : string) (s : BotState)
    (Hshort : assoc short typeMapping = Some ty)
    (Hidx : containsChar "_" idx = false)
    (Hquiet : outages (world s) = [])
    (Hrate : underLimit s chatId now) :
  let s' := onCallbackQuery h parseInt now chatId (deleteButton short idx) s in
  let rows := rowsOf (filtersTable (world s)) chatId in
  let rows' := rowsOf (filtersTable (world s')) chatId in
  (forall u, u <> chatId ->
             rowsOf (filtersTable (world s')) u = rowsOf (filtersTable (world s)) u)
  /\ match chosenEntry parseInt idx (valuesOf ty rows) with
     | Some v =>
         valuesOf ty rows'
         = List.filter (fun x => negb (String.eqb x v)) (valuesOf ty rows)
         /\ notifications_enabled (profileOf h (world s') chatId) = false
         /\ (forall ty', ty' <> ty -> ty' <> "notifications_enabled" ->
                         valuesOf ty' rows' = valuesOf ty' rows)
         /\ outbox s' = (outbox s ++ [(chatId, FilterRemoved v)])%list
     | None =>
         rows' = rows /\ outbox s' = (outbox s ++ [(chatId, FilterNotFound)])%list
     end.
Proof.
  exact (delete_effect h parseInt now chatId short ty idx s Hshort Hidx Hquiet Hrate).
Qed.

Lemma delete_button_removes_witness :
  valuesOf "token_whitelist"
    (rowsOf (filtersTable (world (onCallbackQuery quietHost smallParseInt 0 7
                                    (deleteButton "tw" "0") listedBot))) 7)
  = ["WIF"].
Proof.
  assert (Hrate : underLimit listedBot 7 0)
    by (unfold underLimit, countOf, dailyLimit; cbn [listedBot freshBot withWorld rateLimiter];
        rewrite lookup_empty; cbn; lia).
  exact (proj1 (proj2
           (delete_button_removes quietHost smallParseInt 0 7 "tw" "token_whitelist" "0"
              listedBot eq_refl eq_refl eq_refl Hrate))).
Defined.

Lemma history_frame_witness :
  fst (matchesFilters quietHost ∅ solToBonk enabledProfile None 1 None) !! 2
  = (∅ : gmap Z (list string)) !! 2.
Proof.
  apply (proj1 (history_frame quietHost ∅ solToBonk enabledProfile None 1 None)).
  discriminate.
Defined.

(** ** A user with notifications off in a poll cycle *)

Lemma leavesAlone_refl u w : leavesAlone u w w.
Proof.
  split; [reflexivity|]. split; [reflexivity|].
  exists []. now rewrite app_nil_r.
Qed.

Lemma leavesAlone_trans u w1 w2 w3 :
  leavesAlone u w1 w2 -> leavesAlone u w2 w3 -> leavesAlone u w1 w3.
Proof.
  intros (F1 & H1 & e1 & T1 & N1) (F2 & H2 & e2 & T2 & N2).
  split; [congruence|]. split; [congruence|].
  exists (e1 ++ e2)%list. split; [now rewrite T2, T1, app_assoc|].
  now rewrite forallb_app, N1, N2.
Qed.

Lemma leavesAlone_step u w w' e :
  filtersTable w' = filtersTable w -> history w' = history w ->
  trace w' = (trace w ++ e)%list -> forallb (fun e => negb (isSendTo u e)) e = true ->
  leavesAlone u w w'.
Proof.
  intros F H T N. split; [exact F|]. split; [now rewrite H|]. now exists e.
Qed.

Lemma isTokenKnown_alone u k w : leavesAlone u w (snd (isTokenKnown k w)).
Proof.
  apply (leavesAlone_step u _ _ [EvSelectToken k]);
    unfold isTokenKnown, bind, emit, poolQuery, readTokens, ret; cbn;
    destruct (outages w) as [|[|] rest]; reflexivity.
Qed.

Lemma detectFirstMentions_alone u swaps : forall fm w,
  leavesAlone u w (snd (detectFirstMentions fm swaps w)).
Proof.
  assert (Hmint : forall fm m w, leavesAlone u w (snd (detectMint fm m w))).
  { intros fm m w. unfold detectMint. destruct (whenTruthy m) as [k|].
    - unfold bind. pose proof (isTokenKnown_alone u k w) as Hk.
      destruct (isTokenKnown k w) as [b w1]. exact Hk.
    - apply leavesAlone_refl. }
  induction swaps as [|s rest IH]; intros fm w; [apply leavesAlone_refl|].
  cbn [detectFirstMentions]. unfold bind.
  pose proof (Hmint fm (mintOf (inputToken s)) w) as H1.
  destruct (detectMint fm (mintOf (inputToken s)) w) as [fm1 w1].
  pose proof (Hmint fm1 (mintOf (outputToken s)) w1) as H2.
  destruct (detectMint fm1 (mintOf (outputToken s)) w1) as [fm2 w2].
  cbn [snd] in H1, H2.
  eauto using leavesAlone_trans.
Qed.

Lemma commitFirstMentions_alone u cache fm : forall w,
  leavesAlone u w (snd (commitFirstMentions cache fm w)).
Proof.
  induction fm as [|m rest IH]; intros w; [apply leavesAlone_refl|].
  cbn [commitFirstMentions]. unfold bind.
  assert (H1 : leavesAlone u w
                 (snd (markTokenAsFirstMentioned m (commitSymbol cache m) w))).
  { apply (leavesAlone_step u _ _ [EvInsertToken m (commitSymbol cache m)]);
      unfold markTokenAsFirstMentioned, bind, emit, poolQuery, readTokens, writeTokens, ret;
      cbn; destruct (outages w) as [|[|] later]; cbn;
      destruct (unique_tokens w !! m); reflexivity. }
  destruct (markTokenAsFirstMentioned m (commitSymbol cache m) w) as [b w1].
  cbn [snd] in H1. eauto using leavesAlone_trans.
Qed.

Lemma getAllUsers_alone u w : leavesAlone u w (snd (getAllUsers w)).
Proof.
  apply (leavesAlone_step u _ _ []);
    unfold getAllUsers, bind, poolQuery, ret;
    destruct (outages w) as [|[|] rest]; cbn; rewrite ?app_nil_r; reflexivity.
Qed.

Lemma getUserFilters_alone u u' w : leavesAlone u w (snd (getUserFilters u' w)).
Proof.
  apply (leavesAlone_step u _ _ [EvSelectFilters u']);
    unfold getUserFilters, bind, emit, poolQuery, ret; cbn;
    destruct (outages w) as [|[|] rest]; reflexivity.
Qed.

(** The engine call of the user loop, seen from a user who is not the
    caller or whose rows switch notifications off. *)
Lemma callShouldNotify_alone h u u' swap rows fm cache w :
  u' <> u \/ notifications_enabled (processFilters h (DbRows rows)) = false ->
  let r := callShouldNotify h u' swap rows fm cache w in
  filtersTable (snd r) = filtersTable w
  /\ history (snd r) !! u = history w !! u
  /\ trace (snd r) = (trace w ++ [EvShouldNotify u' (swapIdOf swap)])%list
  /\ (u' = u -> forall site v, fst r = Returned site v -> matches v = false).
Proof.
  intros Hcase. cbv zeta. unfold callShouldNotify, bind, emit, shouldNotify.
  cbn [fst snd history filtersTable trace unique_tokens usersTable outages]. cbv beta iota.
  cbn [fst snd history filtersTable trace unique_tokens usersTable outages].
  pose proof (matchesFilters_state h (history w) swap (processFilters h (DbRows rows))
                (Some fm) u' (Some cache)) as Hst. cbv zeta in Hst.
  destruct (matchesFilters h (history w) swap (processFilters h (DbRows rows)) (Some fm) u'
              (Some cache)) as [hist out] eqn:Hm.
  cbn [fst snd history filtersTable trace] in *.
  split; [reflexivity|].
  destruct (decide (u' = u)) as [->|Hne].
  - destruct Hcase as [Hx|Hoff]; [congruence|].
    unfold matchesFilters in Hm. rewrite Hoff in Hm. inversion Hm; subst.
    split; [reflexivity|]. split; [reflexivity|].
    intros _ site v [= _ <-]. reflexivity.
  - split; [|split; [reflexivity|congruence]].
    assert (Hens : ensureSet (history w) u' !! u = history w !! u).
    { unfold ensureSet. destruct (history w !! u'); [reflexivity|].
      now rewrite lookup_insert_ne. }
    destruct Hst as [->|[->|[_ ->]]]; [reflexivity|exact Hens|].
    rewrite lookup_insert_ne by exact Hne. exact Hens.
Qed.

Lemma notifyUser_alone h g u u' rows fm cache (swaps : list Swap) :
  u' <> u \/ notifications_enabled (processFilters h (DbRows rows)) = false ->
  forall w, leavesAlone u w (snd (notifyUser h g u' rows fm cache swaps w)).
Proof.
  intros Hcase. induction swaps as [|s rest IH]; intros w; [apply leavesAlone_refl|].
  cbn [notifyUser]. unfold bind.
  pose proof (callShouldNotify_alone h u u' s rows fm cache w Hcase) as Hc. cbv zeta in Hc.
  destruct (callShouldNotify h u' s rows fm cache w) as [out w1]. cbn [fst snd] in Hc.
  destruct Hc as (F1 & H1 & T1 & M1).
  assert (A1 : leavesAlone u w w1).
  { split; [exact F1|]. split; [exact H1|]. now exists [EvShouldNotify u' (swapIdOf s)]. }
  assert (Hrest : leavesAlone u w (snd (notifyUser h g u' rows fm cache rest w1)))
    by (eapply leavesAlone_trans; [exact A1|apply IH]).
  destruct out as [site v|e]; [|exact A1].
  destruct (matches v) eqn:Hv; [|exact Hrest]. cbv zeta.
  destruct (formatNotification h s (globalIsFirstMention fm s) (Some cache)) as [note|e].
  - destruct (Z.eqb_spec u' u) as [E|E].
    { rewrite (M1 E site v eq_refl) in Hv. discriminate. }
    unfold emit at 1.
    eapply leavesAlone_trans; [exact A1|].
    eapply leavesAlone_trans; [|apply IH].
    apply (leavesAlone_step u _ _
             [EvSendMessage u' (swapIdOf s) (noteFirstMention note)]);
      try reflexivity.
    cbn. destruct (Z.eqb_spec u' u); [contradiction|reflexivity].
  - destruct g; [exact Hrest|exact A1].
Qed.

Lemma processUser_alone h fm cache swaps u u' w :
  notifications_enabled (profileOf h w u) = false ->
  leavesAlone u w (snd (processUser h fm cache swaps u' w)).
Proof.
  intros Hoff. unfold processUser, bind.
  pose proof (getUserFilters_alone u u' w) as Hg.
  pose proof (getUserFilters_run u' w) as Hr.
  destruct (getUserFilters u' w) as [filters w1]. cbn [snd] in Hg.
  destruct (Hr _ _ eq_refl) as (_ & _ & Hrows).
  destruct filters as [rows|e]; [|exact Hg].
  specialize (Hrows rows eq_refl).
  cbv zeta.
  pose proof (notifyUser_alone h (notifications_enabled (processFilters h (DbRows rows)))
                u u' rows fm cache swaps) as Hn.
  destruct (notifyUser h _ u' rows fm cache swaps w1) as [x w2] eqn:Hrun. unfold ret.
  cbn [snd]. eapply leavesAlone_trans; [exact Hg|].
  replace w2 with (snd (notifyUser h (notifications_enabled (processFilters h (DbRows rows)))
                          u' rows fm cache swaps w1)) by now rewrite Hrun.
  apply Hn. destruct (decide (u' = u)) as [->|Hne]; [right|now left].
  subst rows. exact Hoff.
Qed.

Lemma processUsers_alone h fm cache swaps u (users : list Z) : forall w,
  notifications_enabled (profileOf h w u) = false ->
  leavesAlone u w (snd (processUsers h fm cache swaps users w)).
Proof.
  induction users as [|u' rest IH]; intros w Hoff; [apply leavesAlone_refl|].
  cbn [processUsers]. unfold bind.
  pose proof (processUser_alone h fm cache swaps u u' w Hoff) as H1.
  destruct (processUser h fm cache swaps u' w) as [x w1]. cbn [snd] in H1.
  eapply leavesAlone_trans; [exact H1|]. apply IH.
  unfold profileOf in *. destruct H1 as (F1 & _). now rewrite F1.
Qed.

Lemma checkForNewSwaps_alone h feed enrich w u :
  notifications_enabled (profileOf h w u) = false ->
  leavesAlone u w (snd (checkForNewSwaps h feed enrich w)).
Proof.
  intros Hoff.
  unfold checkForNewSwaps. destruct feed as [[|s swaps]|]; try apply leavesAlone_refl.
  unfold bind.
  pose proof (getAllUsers_alone u w) as H1.
  destruct (getAllUsers w) as [[us|e] w1]; cbn [snd] in H1; [|exact H1].
  pose proof (detectFirstMentions_alone u (s :: swaps) [] w1) as H2.
  destruct (detectFirstMentions [] (s :: swaps) w1) as [fm w2]. cbn [snd] in H2.
  assert (Hoff2 : notifications_enabled (profileOf h w2 u) = false).
  { unfold profileOf in *. destruct H1 as (F1 & _). destruct H2 as (F2 & _).
    now rewrite F2, F1. }
  pose proof (processUsers_alone h fm (enrich (s :: swaps)) (s :: swaps) u us w2 Hoff2)
    as H3.
  destruct (processUsers h fm (enrich (s :: swaps)) (s :: swaps) us w2) as [x w3].
  cbn [snd] in H3.
  pose proof (commitFirstMentions_alone u (enrich (s :: swaps)) fm w3) as H4.
  eauto using leavesAlone_trans.
Qed.

(** X18.  A poll cycle and a user whose stored rows leave notifications
    off (as they are for every new user): whatever the swaps, the other
    users, the first mentions and the database failures of the cycle,
    no message is sent to that user, and the user's delivery history and
    filter rows are after the cycle what they were before it. *)
Theorem muted_user_gets_nothing (h : Host) (feed : option (list Swap))
    (enrich : list Swap -> gmap string TokenData) (w : World) (u : Z)
    (Hoff : notifications_enabled (profileOf h w u) = false) :
  let w' := snd (checkForNewSwaps h feed enrich w) in
  filtersTable w' = filtersTable w
  /\ history w' !! u = history w !! u
  /\ exists evs, trace w' = (trace w ++ evs)%list
                 /\ forall id b, ~ In (EvSendMessage u id b) evs.
Proof.
  cbv zeta.
  pose proof (checkForNewSwaps_alone h feed enrich w u Hoff) as Hall.
  destruct Hall as (F & H & evs & T & N).
  split; [exact F|]. split; [exact H|]. exists evs. split; [exact T|].
  intros id b Hin. rewrite forallb_forall in N. specialize (N _ Hin).
  cbn in N. now rewrite Z.eqb_refl in N.
Qed.

Lemma muted_user_gets_nothing_witness :
  history (snd (checkForNewSwaps quietHost (Some [solToBonk]) (fun _ => ∅) smallWorld)) !! 8
  = history smallWorld !! 8.
Proof.
  exact (proj1 (proj2 (muted_user_gets_nothing quietHost (Some [solToBonk]) (fun _ => ∅)
                         smallWorld 8 eq_refl))).
Defined.

(** ** Bulk prices *)

Lemma chunkLoop_spec (mints : list string) : forall rounds i chunks,
  (List.length mints - i <= rounds)%nat ->
  List.concat (chunkLoop rounds i mints chunks) = (List.concat chunks ++ skipn i mints)%list
  /\ (Forall (fun c => (1 <= List.length c <= 50)%nat) chunks ->
      Forall (fun c => (1 <= List.length c <= 50)%nat) (chunkLoop rounds i mints chunks)).
Proof.
  induction rounds as [|rounds IH]; intros i chunks Hfuel; cbn [chunkLoop].
  - rewrite skipn_all2 by lia. rewrite app_nil_r. auto.
  - destruct (Nat.ltb_spec i (List.length mints)) as [Hlt|Hge].
    + destruct (IH (i + 50)%nat (chunks ++ [slice i (i + 50) mints])%list) as [Hc Hf];
        [lia|].
      assert (Hslice : slice i (i + 50) mints = firstn 50 (skipn i mints))
        by (unfold slice; f_equal; lia).
      split.
      * rewrite Hc, concat_app. cbn [List.concat]. rewrite app_nil_r, <- app_assoc. f_equal.
        rewrite Hslice, Nat.add_comm, <- skipn_skipn. apply firstn_skipn.
      * intros Hall. apply Hf. apply Forall_app. split; [exact Hall|].
        constructor; [|constructor]. rewrite Hslice, length_firstn, length_skipn. lia.
    + rewrite skipn_all2 by lia. rewrite app_nil_r. auto.
Qed.

Lemma chunkLoop_rounds (mints : list string) : forall r1 r2 i chunks,
  (List.length mints - i <= r1)%nat -> (List.length mints - i <= r2)%nat ->
  chunkLoop r1 i mints chunks = chunkLoop r2 i mints chunks.
Proof.
  induction r1 as [|r1 IH]; intros r2 i chunks H1 H2.
  - destruct r2 as [|r2]; [reflexivity|]. cbn [chunkLoop].
    destruct (Nat.ltb_spec i (List.length mints)); [lia|reflexivity].
  - cbn [chunkLoop]. destruct (Nat.ltb_spec i (List.length mints)) as [Hlt|Hge].
    + destruct r2 as [|r2]; [lia|]. cbn [chunkLoop].
      destruct (Nat.ltb_spec i (List.length mints)); [|lia].
      apply IH; lia.
    + destruct r2 as [|r2]; [reflexivity|]. cbn [chunkLoop].
      destruct (Nat.ltb_spec i (List.length mints)); [lia|reflexivity].
Qed.

Lemma storeEntries_app results e1 e2 :
  storeEntries results (e1 ++ e2) = storeEntries (storeEntries results e1) e2.
Proof. unfold storeEntries. apply fold_left_app. Qed.

Lemma fetchChunks_spec fetch (chunks : list (list string)) : forall results,
  fetchChunks fetch chunks results
  = if existsb (throwsOn fetch) chunks then None
    else Some (storeEntries results (flat_map (entriesOf fetch) chunks)).
Proof.
  induction chunks as [|c rest IH]; intros results; [reflexivity|].
  cbn [fetchChunks existsb flat_map]. unfold throwsOn at 1, entriesOf at 1.
  destruct (fetch c) as [| |entries]; cbn [orb app]; [reflexivity|apply IH|].
  rewrite IH, storeEntries_app. reflexivity.
Qed.

(** X19.  [getJupiterBulkPriceData] asks for the mints in consecutive
    chunks of at most 50 (none empty, together exactly the mints, in
    order; the chunking loop ends within as many rounds as there are
    mints).  Its answer is all or nothing: when the request of any one
    chunk throws, the map is empty and the prices of the chunks already
    answered are lost; otherwise it holds the entries of every answered
    chunk, a later entry of a mint replacing an earlier one, and chunks
    whose response was not ok contribute nothing. *)
Theorem bulk_prices_all_or_nothing (fetch : list string -> BulkResponse)
    (mints : list string) :
  let chunks := chunksOf mints in
  List.concat chunks = mints
  /\ Forall (fun c => (1 <= List.length c <= 50)%nat) chunks
  /\ (forall rounds, (List.length mints <= rounds)%nat ->
                     chunkLoop rounds 0 mints [] = chunks)
  /\ getJupiterBulkPriceData fetch mints
     = if existsb (throwsOn fetch) chunks then ∅
       else storeEntries ∅ (flat_map (entriesOf fetch) chunks).
Proof.
  cbv zeta. unfold chunksOf.
  destruct (chunkLoop_spec mints (List.length mints) 0 []) as [Hc Hf]; [lia|].
  split; [exact Hc|]. split; [apply Hf; constructor|]. split.
  - intros rounds Hr. apply chunkLoop_rounds; lia.
  - unfold getJupiterBulkPriceData, chunksOf. rewrite fetchChunks_spec.
    now destruct (existsb _ _).
Qed.

Lemma bulk_prices_all_or_nothing_witness :
  chunkLoop 500 0 manyMints [] = chunksOf manyMints
  /\ getJupiterBulkPriceData failingFetch manyMints = ∅.
Proof.
  pose proof (bulk_prices_all_or_nothing failingFetch manyMints) as (_ & _ & Hr & Hd).
  split.
  - apply Hr. vm_compute. lia.
  - rewrite Hd. reflexivity.
Defined.

(** ** The cache of a cycle *)

Lemma fold_set_add_In (l : list string) : forall acc x,
  In x (fold_left set_add l acc) <-> In x acc \/ In x l.
Proof.
  induction l as [|y l IH]; intros acc x; cbn [fold_left].
  - cbn. tauto.
  - rewrite IH, set_add_In. cbn. intuition congruence.
Qed.

Lemma uniqueTokens_In swaps m : In m (uniqueTokens swaps) <-> In m (batchMints swaps).
Proof. unfold uniqueTokens. rewrite fold_set_add_In. cbn. tauto. Qed.

Lemma fold_insert_lookup {A : Type} (f : string -> A) (l : list string) :
  forall (acc : gmap string A) k,
  fold_left (fun c m => <[m := f m]> c) l acc !! k
  = if existsb (String.eqb k) l then Some (f k) else acc !! k.
Proof.
  induction l as [|m l IH]; intros acc k; cbn [fold_left existsb]; [reflexivity|].
  rewrite IH. destruct (existsb (String.eqb k) l); [now rewrite orb_true_r|].
  rewrite orb_false_r. destruct (String.eqb_spec k m) as [->|Hne].
  - now rewrite lookup_insert_eq.
  - now rewrite lookup_insert_ne by congruence.
Qed.

Lemma prefetch_lookup h fetch swaps m :
  prefetchTokenData h fetch swaps !! m
  = if set_has (batchMints swaps) m
    then Some (tokenDataFor h (getJupiterBulkPriceData fetch (uniqueTokens swaps)) swaps m)
    else None.
Proof.
  unfold prefetchTokenData. cbv zeta. rewrite fold_insert_lookup, lookup_empty.
  fold (set_has (uniqueTokens swaps) m).
  destruct (set_has (batchMints swaps) m) eqn:Hb.
  - apply set_has_In in Hb. apply uniqueTokens_In in Hb. apply set_has_In in Hb.
    now rewrite Hb.
  - destruct (set_has (uniqueTokens swaps) m) eqn:Hu; [|reflexivity].
    apply set_has_In in Hu. apply uniqueTokens_In in Hu. apply set_has_In in Hu.
    congruence.
Qed.

(** What the pre-fetch stores as market cap: NaN exactly when the
    resolved symbol names an inherited member and the entry has a
    price, and otherwise a number that is not negative when DexScreener
    reports none. *)
Lemma tokenDataFor_market_cap h bulk swaps m :
  (forall k, (0 <= dexMarketCap (getDexScreenerData h k))%Q) ->
  (marketCap (tokenDataFor h bulk swaps m) = CapNaN
   <-> inheritedSymbol (JString (batchSymbol h swaps m)) = true
       /\ (0 < price (tokenDataFor h bulk swaps m))%Q)
  /\ capNonneg (marketCap (tokenDataFor h bulk swaps m)).
Proof.
  intros Hfeed. unfold tokenDataFor. cbv zeta. fold (batchSymbol h swaps m).
  destruct (bulk !! m) as [jd|]; [|now apply getTokenData_market_cap].
  destruct (negb (Qle_bool (jupPrice jd) 0)) eqn:Hp; [|now apply getTokenData_market_cap].
  cbn [marketCap price]. apply positive_price in Hp.
  destruct (getTokenSupply _ _) as [[q|]|] eqn:Hs.
  - assert (Hnot : inheritedSymbol (JString (batchSymbol h swaps m)) = false).
    { destruct (inheritedSymbol _) eqn:E; [|reflexivity].
      apply getTokenSupply_inherited with (m := Some m) in E. congruence. }
    cbn [timesSupply capNonneg].
    split; [split; [discriminate|intros [E _]; congruence]|].
    apply knownSupply_positive in Hs. apply Qlt_le_weak. now apply Qmult_lt_0_compat.
  - apply getTokenSupply_inherited in Hs. cbn [timesSupply capNonneg].
    split; [|exact I]. split; auto.
  - assert (Hnot : inheritedSymbol (JString (batchSymbol h swaps m)) = false).
    { destruct (inheritedSymbol _) eqn:E; [|reflexivity].
      apply getTokenSupply_inherited with (m := Some m) in E. congruence. }
    cbn [capNonneg]. split; [split; [discriminate|intros [E _]; congruence]|].
    unfold q_or. destruct (Qeq_bool _ 0); [apply Qle_refl|apply Hfeed].
Qed.

(** X20.  The cache a cycle builds before its user loop has an entry
    for exactly the non-empty mints of the batch.  So for every token
    with a mint that occurs in a swap of the batch, the market-cap check
    reads the cache entry.  When DexScreener reports no negative market
    cap, no entry of the cache and nothing the check looks at is a
    negative number, whatever the bulk endpoint answered.  An entry's
    market cap is NaN exactly when the entry has a price and the symbol
    resolved for the mint names an inherited member of the supply table
    (the pre-fetch reads the table with the symbol itself); an active
    market-cap filter then rejects the token. *)
Theorem prefetch_covers_batch (h : Host) (fetch : list string -> BulkResponse)
    (swaps : list Swap)
    (Hfeed : forall m, (0 <= dexMarketCap (getDexScreenerData h m))%Q) :
  let cache := prefetchTokenData h fetch swaps in
  let bulk := getJupiterBulkPriceData fetch (uniqueTokens swaps) in
  (forall m, In m (batchMints swaps) -> cache !! m = Some (tokenDataFor h bulk swaps m))
  /\ (forall m, ~ In m (batchMints swaps) -> cache !! m = None)
  /\ (forall swap tok k,
        In swap swaps -> inputToken swap = Some tok \/ outputToken swap = Some tok ->
        whenTruthy (mint tok) = Some k ->
        marketCapData h (Some cache) tok = tokenDataFor h bulk swaps k)
  /\ (forall m d, cache !! m = Some d -> capNonneg (marketCap d))
  /\ (forall tok, capNonneg (marketCap (marketCapData h (Some cache) tok)))
  /\ (forall m d, cache !! m = Some d ->
        (marketCap d = CapNaN
         <-> inheritedSymbol (JString (batchSymbol h swaps m)) = true /\ (0 < price d)%Q))
  /\ (forall swap tok k mx,
        In swap swaps -> inputToken swap = Some tok \/ outputToken swap = Some tok ->
        whenTruthy (mint tok) = Some k ->
        inheritedSymbol (JString (batchSymbol h swaps k)) = true ->
        (0 < price (tokenDataFor h bulk swaps k))%Q ->
        num_gt0 mx = true ->
        checkMarketCap h tok (Some mx) (Some cache) = false).
Proof.
  cbv zeta.
  assert (Hin : forall m, In m (batchMints swaps) ->
                 prefetchTokenData h fetch swaps !! m
                 = Some (tokenDataFor h (getJupiterBulkPriceData fetch (uniqueTokens swaps))
                           swaps m)).
  { intros m Hm. rewrite prefetch_lookup. apply set_has_In in Hm. now rewrite Hm. }
  assert (Hnn : forall m d, prefetchTokenData h fetch swaps !! m = Some d ->
                            capNonneg (marketCap d)).
  { intros m d. rewrite prefetch_lookup. destruct (set_has _ _); [|discriminate].
    intros [= <-]. now apply tokenDataFor_market_cap. }
  assert (Hread : forall swap tok k,
             In swap swaps -> inputToken swap = Some tok \/ outputToken swap = Some tok ->
             whenTruthy (mint tok) = Some k ->
             marketCapData h (Some (prefetchTokenData h fetch swaps)) tok
             = tokenDataFor h (getJupiterBulkPriceData fetch (uniqueTokens swaps)) swaps k).
  { intros swap tok k Hs Hside Hk.
    assert (Hb : In k (batchMints swaps)).
    { unfold batchMints. apply in_flat_map. exists swap. split; [exact Hs|].
      apply in_or_app. destruct Hside as [E|E]; [left|right]; rewrite E; cbn [mintOf];
        rewrite Hk; now left. }
    unfold marketCapData, cachedOrFetched.
    assert (Hm : mint tok = Some k).
    { unfold whenTruthy in Hk. destruct (truthy (mint tok)); [exact Hk|discriminate]. }
    rewrite Hm. cbn. now rewrite (Hin k Hb). }
  split; [exact Hin|]. split.
  { intros m Hm. rewrite prefetch_lookup. apply set_has_false in Hm. now rewrite Hm. }
  split; [exact Hread|].
  split; [exact Hnn|]. split.
  { intros tok. apply resolved_market_cap_nonneg; [exact Hfeed|].
    intros c k d [= <-]. apply Hnn. }
  split.
  { intros m d. rewrite prefetch_lookup. destruct (set_has _ _); [|discriminate].
    intros [= <-]. now apply tokenDataFor_market_cap. }
  intros swap tok k mx Hs Hside Hk Hsym Hprice Hgt.
  rewrite checkMarketCap_active by exact Hgt.
  rewrite (Hread swap tok k Hs Hside Hk).
  rewrite (proj2 (proj1 (tokenDataFor_market_cap h _ swaps k Hfeed)) (conj Hsym Hprice)).
  reflexivity.
Qed.

Lemma prefetch_covers_batch_witness :
  prefetchTokenData dexOnlyHost flatFetch [solToBonk] !! BONK_MINT
  = Some (tokenDataFor dexOnlyHost
            (getJupiterBulkPriceData flatFetch (uniqueTokens [solToBonk]))
            [solToBonk] BONK_MINT)
  /\ checkMarketCap dexOnlyHost constructorToken (Some (Fin 1000000%Q))
       (Some (prefetchTokenData dexOnlyHost flatFetch [solToConstructor])) = false.
Proof.
  assert (Hfeed : forall m, (0 <= dexMarketCap (getDexScreenerData dexOnlyHost m))%Q)
    by (intros m; discriminate).
  split.
  - apply (proj1 (prefetch_covers_batch dexOnlyHost flatFetch [solToBonk] Hfeed)).
    right. now left.
  - apply (proj2 (proj2 (proj2 (proj2 (proj2 (proj2
             (prefetch_covers_batch dexOnlyHost flatFetch [solToConstructor] Hfeed))))))
             solToConstructor constructorToken "CtorMint111" (Fin 1000000%Q)).
    + now left.
    + right. reflexivity.
    + reflexivity.
    + reflexivity.
    + vm_compute. reflexivity.
    + reflexivity.
Defined.

Lemma whenTruthy_nonempty (o : option string) (s : string) :
  whenTruthy o = Some s -> s <> "".
Proof.
  unfold whenTruthy. destruct (truthy o) eqn:Ht; [|discriminate].
  intros ->. now apply truthy_Some.
Qed.

Lemma resolvedSymbol_nonempty h token cache : resolvedSymbol h token cache <> "".
Proof.
  unfold resolvedSymbol. cbv zeta.
  repeat match goal with
         | |- context [match ?x with Some _ => _ | None => _ end] =>
             let E := fresh "E" in
             destruct x eqn:E;
             [ first [ exact (whenTruthy_nonempty _ _ E)
                     | destruct (truthy (mintOf token));
                       [exact (whenTruthy_nonempty _ _ E)|discriminate E] ] | ]
         end.
  discriminate.
Qed.

(** X21.  The symbol a cycle writes with a first mention.  For a mint
    of the batch it is the DexScreener symbol, else the symbol
    [getTokenSymbol] resolves for the token, but only when the bulk
    request returned a price above 0 for the mint; for every other mint
    (no Jupiter price, a response that was not ok, or a bulk request
    that threw) the symbol is written as NULL, even when the swap's
    metadata names the token. *)
Theorem first_mention_symbol (h : Host) (fetch : list string -> BulkResponse)
    (swaps : list Swap) (m : string)
    (Hin : In m (batchMints swaps)) :
  let bulk := getJupiterBulkPriceData fetch (uniqueTokens swaps) in
  commitSymbol (prefetchTokenData h fetch swaps) m
  = if bulkPriced bulk m
    then Some (match whenTruthy (dexSymbol (getDexScreenerData h (Some m))) with
               | Some s => s
               | None => resolvedSymbol h (findToken swaps m) None
               end)
    else None.
Proof.
  cbv zeta. unfold commitSymbol, cacheSymbol. rewrite prefetch_lookup.
  apply set_has_In in Hin. rewrite Hin.
  unfold tokenDataFor, bulkPriced. cbv zeta.
  assert (Hsym : match findToken swaps m with
                 | Some _ => resolvedSymbol h (findToken swaps m) None
                 | None => "Unknown"
                 end = resolvedSymbol h (findToken swaps m) None)
    by (destruct (findToken swaps m); reflexivity).
  rewrite Hsym.
  assert (Hplain : forall sym, whenTruthy (cachedSymbol (getTokenData h (Some m) sym)) = None).
  { intros sym. unfold getTokenData. now destruct (getTokenSupply _ _). }
  destruct (getJupiterBulkPriceData fetch (uniqueTokens swaps) !! m) as [jd|];
    [|apply Hplain].
  destruct (negb (Qle_bool (jupPrice jd) 0)); [|apply Hplain].
  cbn [cachedSymbol].
  destruct (whenTruthy (dexSymbol (getDexScreenerData h (Some m)))) as [s|] eqn:Hd.
  - unfold whenTruthy. now rewrite (proj2 (truthy_Some s) (whenTruthy_nonempty _ _ Hd)).
  - unfold whenTruthy.
    now rewrite (proj2 (truthy_Some _) (resolvedSymbol_nonempty h (findToken swaps m) None)).
Qed.

Lemma first_mention_symbol_witness :
  commitSymbol (prefetchTokenData quietHost (fun _ => BulkNotOk) [solToBonk]) BONK_MINT = None
  /\ commitSymbol (prefetchTokenData quietHost flatFetch [solToBonk]) BONK_MINT = Some "BONK".
Proof.
  assert (Hin : In BONK_MINT (batchMints [solToBonk])) by (right; now left).
  split.
  - exact (first_mention_symbol quietHost (fun _ => BulkNotOk) [solToBonk] BONK_MINT Hin).
  - rewrite (first_mention_symbol quietHost flatFetch [solToBonk] BONK_MINT Hin).
    vm_compute. reflexivity.
Defined.

(** ** The main menu *)

(** X22.  The main menu announces what its buttons do.  On a working
    database and under the rate limit, for the menu computed from the
    rows a user has: the mode named on the first button is the mode the
    user is in after pressing it; the second button offers to turn
    notifications on exactly when pressing it turns them on; and the
    status lines show the mode and the switch the engine works with. *)
Theorem menu_announces_effects (h : Host) (parseInt : string -> option Z)
    (now chatId : Z) (s : BotState)
    (Hquiet : outages (world s) = [])
    (Hrate : underLimit s chatId now) :
  exists menu,
    fst (showMainMenu h chatId (world s)) = Ok menu
    /\ currentModeName menu = currentModeOf (profileOf h (world s) chatId)
    /\ statusOn menu = notifications_enabled (profileOf h (world s) chatId)
    /\ currentModeOf
         (profileOf h (world (onCallbackQuery h parseInt now chatId "cycle_monitor_mode" s))
            chatId)
       = modeButtonText menu
    /\ notifications_enabled
         (profileOf h (world (onCallbackQuery h parseInt now chatId "toggle_notifications" s))
            chatId)
       = offersTurnOn menu.
Proof.
  exists (mainMenuOf (profileOf h (world s) chatId)).
  split.
  { unfold showMainMenu. rewrite (quiet_world (world s) Hquiet).
    erewrite bindE_ok by apply getUserFilters_quiet. reflexivity. }
  split; [generalize (profileOf h (world s) chatId); intros [? ? ? ? ? [|] ? [|]];
          reflexivity|].
  split; [reflexivity|]. split.
  - pose proof (onCallbackQuery_mode h parseInt now chatId s Hquiet Hrate) as Hs.
    cbv zeta in Hs. rewrite Hs. clear Hs.
    cbn [reply withWorld world outbox withLimiter].
    unfold profileOf. cbn [quietWorld filtersTable].
    rewrite rows_after_mode, profile_after_mode.
    unfold currentModeOf at 1. cbn [first_mention_only monitor_all].
    generalize (processFilters h (DbRows (rowsOf (filtersTable (world s)) chatId))).
    intros [? ? ? ? ? [|] ? [|]]; reflexivity.
  - pose proof (onCallbackQuery_toggle h parseInt now chatId s Hquiet Hrate) as Hs.
    cbv zeta in Hs. rewrite Hs. clear Hs.
    cbn [reply withWorld world outbox withLimiter].
    unfold profileOf. cbn [quietWorld filtersTable].
    rewrite rowsOf_tableWith, rowsOf_tableWithout, Z.eqb_refl by discriminate.
    rewrite profile_after_switch. cbn [notifications_enabled mainMenuOf offersTurnOn].
    generalize (processFilters h (DbRows (rowsOf (filtersTable (world s)) chatId))).
    intros [? ? ? ? ? ? [|] ?]; reflexivity.
Qed.

Lemma menu_announces_effects_witness :
  exists menu,
    fst (showMainMenu quietHost 7 (world freshBot)) = Ok menu
    /\ modeButtonText menu = TokenFilter
    /\ currentModeOf
         (profileOf quietHost
            (world (onCallbackQuery quietHost smallParseInt 0 7 "cycle_monitor_mode"
                      freshBot)) 7)
       = TokenFilter.
Proof.
  assert (Hrate : underLimit freshBot 7 0)
    by (unfold underLimit, countOf, dailyLimit; cbn [freshBot rateLimiter];
        rewrite lookup_empty; cbn; lia).
  destruct (menu_announces_effects quietHost smallParseInt 0 7 freshBot eq_refl Hrate)
    as (menu & Hm & _ & _ & Hb & _).
  exists menu. split; [exact Hm|].
  assert (E : menu = mainMenuOf (profileOf quietHost (world freshBot) 7))
    by (vm_compute in Hm; injection Hm as <-; reflexivity).
  split; [rewrite E; reflexivity|]. rewrite Hb, E. reflexivity.
Defined.

(** ** The delete buttons [showFilters] builds *)

Lemma decimal_plain (n : nat) : containsChar "_" (decimal n) = false.
Proof.
  unfold decimal. generalize (Nat.to_uint n). intros d.
  induction d; cbn; auto.
Qed.

Lemma decimal_nonempty (n : nat) : decimal n <> "".
Proof.
  unfold decimal. pose proof (DecimalNat.Unsigned.of_to n) as H.
  destruct (Nat.to_uint n) eqn:E; try discriminate.
  cbn in H. subst n. discriminate E.
Qed.

Lemma decimalParseInt_decimal (n : nat) : decimalParseInt (decimal n) = Some (Z.of_nat n).
Proof.
  unfold decimalParseInt. pose proof (decimal_nonempty n) as Hne.
  destruct (decimal n) eqn:E; [congruence|]. rewrite <- E. unfold decimal.
  rewrite DecimalString.NilEmpty.usu. cbn [option_map].
  now rewrite DecimalNat.Unsigned.of_to.
Qed.

Lemma buttonsFrom_In short (typeFilters : list FilterRow) : forall index v d,
  In (v, d) (buttonsFrom short index typeFilters) ->
  exists i f, nth_error typeFilters i = Some f /\ v = filter_value f
              /\ d = deleteButton short (decimal (index + i)).
Proof.
  induction typeFilters as [|f rest IH]; intros index v d; cbn [buttonsFrom]; [intros []|].
  intros [[= <- <-]|Hin].
  - exists 0%nat, f. rewrite Nat.add_0_r. repeat split.
  - destruct (IH _ _ _ Hin) as (i & f' & Hn & Hv & Hd).
    exists (S i), f'. rewrite Nat.add_succ_r. cbn [nth_error]. auto.
Qed.

(** X23.  The delete buttons point at the values they are shown for.
    When [parseInt] reads decimal numerals, a user presses one of the
    buttons [showFilters] built from the rows the user still has, on a
    working database and under the rate limit: the button belongs to a
    value of one of the five listed filter types, that value (with its
    duplicates) is what the press removes from the type's values, and
    the reply names it. *)
Theorem delete_buttons_hit_their_value (h : Host) (parseInt : string -> option Z)
    (now chatId : Z) (s : BotState) (buttons : list (string * string))
    (value data : string)
    (Hparse : forall n, parseInt (decimal n) = Some (Z.of_nat n))
    (Hquiet : outages (world s) = [])
    (Hrate : underLimit s chatId now)
    (Hshown : fst (showFilters chatId (world s)) = Ok buttons)
    (Hbutton : In (value, data) buttons) :
  let s' := onCallbackQuery h parseInt now chatId data s in
  let rows := rowsOf (filtersTable (world s)) chatId in
  let rows' := rowsOf (filtersTable (world s')) chatId in
  exists ty,
    In ty filterGroups
    /\ In value (valuesOf ty rows)
    /\ valuesOf ty rows' = List.filter (fun x => negb (String.eqb x value)) (valuesOf ty rows)
    /\ outbox s' = (outbox s ++ [(chatId, FilterRemoved value)])%list.
Proof.
  cbv zeta.
  assert (Hb : In (value, data) (filterButtons (rowsOf (filtersTable (world s)) chatId))).
  { unfold showFilters in Hshown. rewrite (quiet_world (world s) Hquiet) in Hshown.
    erewrite bindE_ok in Hshown by apply getUserFilters_quiet.
    destruct (Nat.eqb _ _); cbn in Hshown; injection Hshown as <-; [destruct Hbutton|].
    exact Hbutton. }
  unfold filterButtons in Hb. apply in_flat_map in Hb as (ty & Hty & Hin).
  apply buttonsFrom_In in Hin as (i & f & Hn & -> & ->).
  exists ty. split; [exact Hty|].
  assert (Hshort : assoc (render (assoc ty shortTypes)) typeMapping = Some ty).
  { cbn [filterGroups In] in Hty.
    destruct Hty as [<-|[<-|[<-|[<-|[<-|[]]]]]]; reflexivity. }
  assert (Hval : nth_error (valuesOf ty (rowsOf (filtersTable (world s)) chatId)) i
                 = Some (filter_value f)).
  { unfold valuesOf. rewrite nth_error_map.
    unfold rowsOfType in Hn. cbn [of_opt strictEq] in Hn. now rewrite Hn. }
  assert (Hchosen : chosenEntry parseInt (decimal (0 + i))
                      (valuesOf ty (rowsOf (filtersTable (world s)) chatId))
                    = Some (filter_value f)).
  { unfold chosenEntry. cbn [Nat.add]. rewrite Hparse.
    destruct (Z.leb_spec 0 (Z.of_nat i)); [|lia]. now rewrite Nat2Z.id. }
  split; [exact (nth_error_In _ _ Hval)|].
  pose proof (delete_effect h parseInt now chatId (render (assoc ty shortTypes)) ty
                (decimal (0 + i)) s Hshort (decimal_plain _) Hquiet Hrate) as He.
  cbv zeta in He. rewrite Hchosen in He.
  destruct He as (_ & Hvals & _ & _ & Hout). split; [exact Hvals|exact Hout].
Qed.

Lemma delete_buttons_hit_their_value_witness :
  exists ty,
    In ty filterGroups
    /\ In "WIF" (valuesOf ty (rowsOf (filtersTable (world listedBot)) 7))
    /\ valuesOf ty
         (rowsOf (filtersTable
                    (world (onCallbackQuery quietHost decimalParseInt 0 7 "del_tw_1"
                              listedBot))) 7)
       = List.filter (fun x => negb (String.eqb x "WIF"))
           (valuesOf ty (rowsOf (filtersTable (world listedBot)) 7))
    /\ outbox (onCallbackQuery quietHost decimalParseInt 0 7 "del_tw_1" listedBot)
       = (outbox listedBot ++ [(7, FilterRemoved "WIF")])%list.
Proof.
  assert (Hrate : underLimit listedBot 7 0)
    by (unfold underLimit, countOf, dailyLimit; cbn [listedBot freshBot withWorld rateLimiter];
        rewrite lookup_empty; cbn; lia).
  apply (delete_buttons_hit_their_value quietHost decimalParseInt 0 7 listedBot
           [("BONK", "del_tw_0"); ("WIF", "del_tw_1"); ("BONK", "del_tw_2")]
           "WIF" "del_tw_1" decimalParseInt_decimal eq_refl Hrate eq_refl).
  right. now left.
Defined.

(** ** checkAndMarkFirstMention *)

(** X24.  [checkAndMarkFirstMention] never throws and answers [true]
    at most once per mint, whatever queries fail: a [true] means the
    mint was not in the table and is in it now, with the symbol given;
    after a [true] every later call for the mint answers [false]; a
    [false] leaves the table as it was; and no call alters the entry of
    a mint that is already known.  On a working database the answer is
    [true] exactly for an unknown mint. *)
Theorem first_mention_marked_once (m : string) (sym : option string) (w : World) :
  let r := checkAndMarkFirstMention m sym w in
  (fst r = true ->
   unique_tokens w !! m = None
   /\ unique_tokens (snd r) = <[m := sym]> (unique_tokens w)
   /\ forall sym' w2, unique_tokens w2 = unique_tokens (snd r) ->
                      fst (checkAndMarkFirstMention m sym' w2) = false)
  /\ (fst r = false -> unique_tokens (snd r) = unique_tokens w)
  /\ (forall k s, unique_tokens w !! k = Some s -> unique_tokens (snd r) !! k = Some s)
  /\ (outages w = [] ->
      fst r = match unique_tokens w !! m with Some _ => false | None => true end).
Proof.
  cbv zeta.
  assert (Hknown : forall sym' w2 s, unique_tokens w2 !! m = Some s ->
                     fst (checkAndMarkFirstMention m sym' w2) = false).
  { intros sym' w2 s Hs.
    unfold checkAndMarkFirstMention, bind, poolQuery, readTokens, writeTokens, ret.
    destruct w2 as [ut us ft o hi tr]. cbn in Hs.
    destruct o as [|[|] rest]; cbn; rewrite ?Hs; reflexivity. }
  unfold checkAndMarkFirstMention, bind, poolQuery, readTokens, writeTokens, ret.
  destruct w as [ut us ft o hi tr]. cbn [unique_tokens outages].
  destruct o as [|[|] [|[|] rest]]; cbn; destruct (ut !! m) as [s|] eqn:Hm; cbn;
    (split; [try discriminate|split; [try discriminate; try reflexivity|split]]);
    try (intros _; split; [reflexivity|split; [reflexivity|]];
         intros sym' w2 Hw2; apply (Hknown sym' w2 sym); rewrite Hw2; cbn;
         apply lookup_insert_eq);
    try (intros k s0 Hk;
         first [ exact Hk
               | destruct (decide (m = k)) as [->|Hne]; [congruence|];
                 now rewrite lookup_insert_ne ]);
    try (intros; reflexivity); try discriminate.
Qed.

Lemma first_mention_marked_once_witness :
  unique_tokens (snd (checkAndMarkFirstMention BONK_MINT (Some "BONK") smallWorld))
  = <[BONK_MINT := Some "BONK"]> (unique_tokens smallWorld)
  /\ fst (checkAndMarkFirstMention BONK_MINT None
            (snd (checkAndMarkFirstMention BONK_MINT (Some "BONK") smallWorld))) = false.
Proof.
  destruct (proj1 (first_mention_marked_once BONK_MINT (Some "BONK") smallWorld))
    as (_ & Htable & Hlater); [vm_compute; reflexivity|].
  split; [exact Htable|]. now apply Hlater.
Defined.

(** ** The alert *)




(** ** When a swap is delivered *)

Lemma token_check_passes h uf tok :
  tokenCheckOf h uf tok = Ok true <-> monitor_all uf = true /\ blacklist uf = [].
Proof.
  rewrite token_check_outcomes. destruct (monitor_all uf).
  - destruct (blacklist uf); cbn; split; try discriminate; auto.
    intros [_ H]. discriminate.
  - destruct (tokens uf); cbn; split; try discriminate; intros [H _]; discriminate.
Qed.

(** X26.  [matchesFilters] returns a match exactly when all of this
    holds: notifications are on, the swap id is not in the user's
    delivery history, no mint has the spam prefix or is on the fixed
    blocklist, the swap has a relevant token, the first-mention-only
    gate is open, the user is in monitor-all mode with an empty token
    blacklist, the fee payer is neither the fixed blocked whale nor on
    the user's whale blacklist, and the minimum-purchase and market-cap
    checks pass.  The call then hands back the history with the id
    recorded for the user and the first-mention flag of the swap.  So as
    the code stands, nothing is delivered in Token Filter mode, nor to a
    user whose token blacklist has an entry. *)
Theorem delivered_exactly_when (h : Host) (ups : gmap Z (list string))
    (swap : Swap) (uf : Filters) (fm : option (list string)) (uid : Z)
    (cache : option (gmap string TokenData)) :
  let r := matchesFilters h ups swap uf fm uid cache in
  let conditions tok :=
    reachesTokenCheck ups swap uf fm uid tok
    /\ monitor_all uf = true /\ blacklist uf = []
    /\ includes hardcodedWhaleBlacklist (of_opt (feePayer swap)) = false
    /\ checkWhaleBlacklist (feePayer swap) (whale_blacklist uf) = true
    /\ checkMinimumPurchase (calculateSwapValueUSD h swap cache) (min_purchase uf) = true
    /\ marketCapCheckOf h uf cache tok = true in
  ((exists site v, snd r = Returned site v /\ matches v = true)
   <-> exists tok, conditions tok)
  /\ (forall tok, conditions tok ->
        r = (<[uid := recordSwap (historyOf ups uid) (swapIdOf swap)]> (ensureSet ups uid),
             Returned AtEnd {| matches := true;
                               isFirstMention := computedFirstMention fm swap |}))
  /\ (monitor_all uf = false \/ blacklist uf <> [] ->
      forall site v, snd r = Returned site v -> matches v = false).
Proof.
  cbv zeta.
  assert (Hthen : forall tok,
            reachesTokenCheck ups swap uf fm uid tok
            /\ monitor_all uf = true /\ blacklist uf = []
            /\ includes hardcodedWhaleBlacklist (of_opt (feePayer swap)) = false
            /\ checkWhaleBlacklist (feePayer swap) (whale_blacklist uf) = true
            /\ checkMinimumPurchase (calculateSwapValueUSD h swap cache) (min_purchase uf)
               = true
            /\ marketCapCheckOf h uf cache tok = true ->
            matchesFilters h ups swap uf fm uid cache
            = (<[uid := recordSwap (historyOf ups uid) (swapIdOf swap)]> (ensureSet ups uid),
               Returned AtEnd {| matches := true;
                                 isFirstMention := computedFirstMention fm swap |})).
  { intros tok (Hreach & Hall & Hbl & Hfix & Hwh & Hmin & Hcap).
    assert (Htc : tokenCheckOf h uf tok = Ok true) by (apply token_check_passes; auto).
    pose proof (Path_outcome _ _ _ _ _ _ _ _ _
                  (path_end h ups swap uf fm uid cache tok true Hreach Htc Hfix)) as E.
    unfold userChecks in E. rewrite Hwh, Hmin, Hcap in E. exact E. }
  assert (Honly : forall site v,
            snd (matchesFilters h ups swap uf fm uid cache) = Returned site v ->
            matches v = true ->
            exists tok,
              reachesTokenCheck ups swap uf fm uid tok
              /\ monitor_all uf = true /\ blacklist uf = []
              /\ includes hardcodedWhaleBlacklist (of_opt (feePayer swap)) = false
              /\ checkWhaleBlacklist (feePayer swap) (whale_blacklist uf) = true
              /\ checkMinimumPurchase (calculateSwapValueUSD h swap cache) (min_purchase uf)
                 = true
              /\ marketCapCheckOf h uf cache tok = true).
  { intros site v E Hm.
    pose proof (matchesFilters_path h ups swap uf fm uid cache) as P.
    rewrite E in P.
    inversion P as [| | | | | | | |tok tc Hreach Htc Hfix Hups Hout]; subst;
      try discriminate.
    cbn [matches] in Hm. unfold userChecks in Hm.
    apply andb_true_iff in Hm as [Hm Hcap]. apply andb_true_iff in Hm as [Hm Hmin].
    apply andb_true_iff in Hm as [-> Hwh].
    apply token_check_passes in Htc as [Hall Hbl].
    exists tok. auto 10. }
  split; [split|split].
  - intros (site & v & E & Hm). exact (Honly site v E Hm).
  - intros (tok & Hc). rewrite (Hthen tok Hc). cbn [snd]. eauto.
  - exact Hthen.
  - intros Hcase site v E. destruct (matches v) eqn:Hm; [|reflexivity].
    destruct (Honly site v E Hm) as (tok & _ & Hall & Hbl & _).
    destruct Hcase; congruence.
Qed.

Lemma delivered_exactly_when_witness :
  matchesFilters quietHost ∅ solToBonk enabledProfile None 1 None
  = (<[1 := recordSwap (historyOf ∅ 1) (swapIdOf solToBonk)]> (ensureSet ∅ 1),
     Returned AtEnd {| matches := true;
                       isFirstMention := computedFirstMention None solToBonk |}).
Proof.
  apply (proj1 (proj2 (delivered_exactly_when quietHost ∅ solToBonk enabledProfile None 1
                         None)) (token BONK_MINT "BONK" 5000)).
  repeat split; reflexivity.
Defined.

(** ** Registration *)

Lemma onStart_quiet now chatId s :
  outages (world s) = [] -> underLimit s chatId now ->
  onStart now chatId s
  = reply chatId Welcome
      (withWorld
         (if existsb (Z.eqb chatId) (usersTable (world s)) then world s
          else snd (setUsersTable (usersTable (world s) ++ [chatId])%list (world s)))
         (withLimiter
            (<[(chatId, dayOf now) := S (countOf (rateLimiter s) chatId now)]> (rateLimiter s))
            s)).
Proof.
  intros Hquiet Hrate. unfold onStart.
  rewrite (checkRateLimit_under s chatId now Hrate). cbn [negb world withLimiter].
  unfold addUser, bind, poolQuery. rewrite Hquiet.
  destruct (existsb (Z.eqb chatId) (usersTable (world s))); reflexivity.
Qed.

(** X27.  [/start] on a working database and under the rate limit
    registers the user once: the telegram id is in the users table
    afterwards, a second [/start] adds nothing, other ids and all filter
    rows stay as they are, and the welcome is sent.  A user who has no
    filter rows (every user at the first [/start]) has notifications
    off, so the next poll cycle, whatever it brings, sends that user
    nothing. *)
Theorem start_registers_once (h : Host) (now chatId : Z) (s : BotState)
    (Hquiet : outages (world s) = [])
    (Hrate : underLimit s chatId now) :
  let s' := onStart now chatId s in
  In chatId (usersTable (world s'))
  /\ usersTable (world s')
     = (if existsb (Z.eqb chatId) (usersTable (world s)) then usersTable (world s)
        else usersTable (world s) ++ [chatId])%list
  /\ filtersTable (world s') = filtersTable (world s)
  /\ outbox s' = (outbox s ++ [(chatId, Welcome)])%list
  /\ (forall later, outages (world s') = [] -> underLimit s' chatId later ->
                    usersTable (world (onStart later chatId s')) = usersTable (world s'))
  /\ (rowsOf (filtersTable (world s)) chatId = [] ->
      forall feed enrich,
        let w' := snd (checkForNewSwaps h feed enrich (world s')) in
        exists evs, trace w' = (trace (world s') ++ evs)%list
                    /\ forall id b, ~ In (EvSendMessage chatId id b) evs).
Proof.
  cbv zeta. rewrite (onStart_quiet now chatId s Hquiet Hrate).
  cbn [reply withWorld withLimiter world outbox].
  assert (Hin : In chatId
                  (usersTable
                     (if existsb (Z.eqb chatId) (usersTable (world s)) then world s
                      else snd (setUsersTable (usersTable (world s) ++ [chatId])%list
                                  (world s))))).
  { destruct (existsb (Z.eqb chatId) (usersTable (world s))) eqn:Hex.
    - apply existsb_exists in Hex as (x & Hx & E). apply Z.eqb_eq in E. now subst x.
    - cbn. apply in_or_app. right. now left. }
  split; [exact Hin|].
  split; [now destruct (existsb _ _)|].
  split; [now destruct (existsb _ _)|].
  split; [reflexivity|]. split.
  - intros later Hq Hr.
    rewrite (onStart_quiet later chatId
               (reply chatId Welcome
                  (withWorld
                     (if existsb (Z.eqb chatId) (usersTable (world s)) then world s
                      else snd (setUsersTable (usersTable (world s) ++ [chatId])%list
                                  (world s)))
                     (withLimiter
                        (<[(chatId, dayOf now) := S (countOf (rateLimiter s) chatId now)]>
                           (rateLimiter s)) s)))
               Hq Hr).
    cbn [reply withWorld withLimiter world outbox].
    assert (Hex : existsb (Z.eqb chatId)
                    (usersTable
                       (if existsb (Z.eqb chatId) (usersTable (world s)) then world s
                        else snd (setUsersTable (usersTable (world s) ++ [chatId])%list
                                    (world s)))) = true).
    { apply existsb_exists. exists chatId. split; [exact Hin|apply Z.eqb_refl]. }
    now rewrite Hex.
  - intros Hnone feed enrich.
    match goal with
    | |- context [checkForNewSwaps h feed enrich ?w1] =>
        assert (Hoff : notifications_enabled (profileOf h w1 chatId) = false)
    end.
    { unfold profileOf.
      replace (filtersTable _) with (filtersTable (world s))
        by (now destruct (existsb _ _)).
      rewrite Hnone. reflexivity. }
    destruct (checkForNewSwaps_alone h feed enrich _ chatId Hoff) as (_ & _ & evs & T & N).
    exists evs. split; [exact T|].
    intros id b Hi. rewrite forallb_forall in N. specialize (N _ Hi).
    cbn in N. now rewrite Z.eqb_refl in N.
Qed.

Lemma start_registers_once_witness :
  usersTable (world (onStart 0 9 freshBot)) = [7; 9].
Proof.
  assert (Hrate : underLimit freshBot 9 0)
    by (unfold underLimit, countOf, dailyLimit; cbn [freshBot rateLimiter];
        rewrite lookup_empty; cbn; lia).
  exact (proj1 (proj2 (start_registers_once quietHost 0 9 freshBot eq_refl Hrate))).
Defined.

(** ** A user with notifications on in a poll cycle *)







